(** * The placeholder engine of [src/agents/pptx_generator.py]

    A shallow embedding of the class [PPTXGenerator]: the placeholder
    pattern, the extraction of placeholder names, the substitution pass over
    text frames and tables, and the public methods that wrap them in
    [try ... except Exception].  The python-pptx objects the class walks
    ([Presentation], slides, shapes, text frames, paragraphs, tables) are
    modelled by plain data; the Python builtins it calls ([str.replace],
    [str.split], [str.join], [str], [sorted], [os.path]) by functions on
    [string].  A [string] is the UTF-8 encoding of a Python [str]. *)

From Stdlib Require Import Strings.String Strings.Ascii ZArith Numbers.DecimalString.
From Equations Require Import Equations.
From stdpp Require Import gmap strings list fin_maps sorting.

Open Scope string_scope.

(** ** Python builtins *)

Module Py.

(** [s.startswith(p)], returning what follows the prefix. *)
Fixpoint strip_prefix (p s : string) : option string :=
  match p, s with
  | EmptyString, _ => Some s
  | String a p', String b s' => if Ascii.eqb a b then strip_prefix p' s' else None
  | String _ _, EmptyString => None
  end.

(** [str.replace] with an empty [old]: [new] goes before every character
    and at the end. *)
Fixpoint interleave (new s : string) : string :=
  match s with
  | EmptyString => new
  | String c s' => new ++ String c (interleave new s')
  end.

Lemma strip_prefix_length p s r :
  strip_prefix p s = Some r → String.length s = String.length p + String.length r.
Proof.
  revert s; induction p as [|a p IH]; intros [|b s]; simpl; try congruence.
  - intros [= <-]; reflexivity.
  - intros [= <-]; reflexivity.
  - destruct (Ascii.eqb a b); [|congruence]. intros H. rewrite (IH _ H). reflexivity.
Qed.

Definition inspect {A} (a : A) : {b | a = b} := exist _ a eq_refl.

(** [s.replace(old, new)]: every non-overlapping occurrence of [old], found
    from the left, becomes [new]. *)
Equations? replace (old new s : string) : string by wf (String.length s) lt :=
  replace EmptyString new s := interleave new s;
  replace (String a old) new EmptyString := EmptyString;
  replace (String a old) new (String c s')
    with inspect (strip_prefix (String a old) (String c s')) := {
    | exist _ (Some r) H => new ++ replace (String a old) new r
    | exist _ None _ => String c (replace (String a old) new s') }.
Proof.
  - apply strip_prefix_length in H. simpl in *. lia.
  - simpl. lia.
Qed.

(** [s.split(sep)] for a one-character separator class; [re.split] on an
    alternation of single characters behaves the same. *)
Fixpoint split_on (sep : ascii → bool) (s : string) : list string :=
  match s with
  | EmptyString => [EmptyString]
  | String c s' =>
      if sep c then EmptyString :: split_on sep s'
      else match split_on sep s' with
           | [] => [String c EmptyString]
           | piece :: pieces => String c piece :: pieces
           end
  end.

(** [sep.join(pieces)] *)
Definition join (sep : string) (pieces : list string) : string :=
  String.concat sep pieces.

(** [all(p(c) for c in s)] *)
Fixpoint all_chars (p : ascii → bool) (s : string) : bool :=
  match s with
  | EmptyString => true
  | String c s' => p c && all_chars p s'
  end.

(** The values a substitution dictionary may hold.  [PyObj r] stands for any
    other object: [r] is what its [__str__] returns, [None] when it raises. *)
Inductive PyValue :=
  | PyStr (s : string)
  | PyInt (z : Z)
  | PyObj (r : option string).

Inductive exn :=
  | ValueError
  | FileNotFoundError
  | PackageNotFoundError
  | OSError
  | StrError.

(** [sys.int_info.default_max_str_digits] *)
Definition max_str_digits : nat := 4300.

(** [str(v)].  The conversion of an [int] of more than [max_str_digits]
    digits raises [ValueError]. *)
Definition str (v : PyValue) : exn + string :=
  match v with
  | PyStr s => inr s
  | PyInt z =>
      match Z.to_int z with
      | Decimal.Pos d | Decimal.Neg d =>
          if (Decimal.nb_digits d <=? max_str_digits)%nat
          then inr (NilZero.string_of_int (Z.to_int z))
          else inl ValueError
      end
  | PyObj (Some s) => inr s
  | PyObj None => inl StrError
  end.

(** [sorted(list(a_set))] on strings: ascending code-point order. *)
Definition sorted (names : gset string) : list string :=
  merge_sort String.le (elements names).

End Py.

(** ** [os.path] (posixpath) *)

Definition is_slash (c : ascii) : bool := Ascii.eqb c "/".

(** [os.path.join(a, b)] *)
Definition ends_with_slash (a : string) : bool :=
  match String.get (String.length a - 1) a with
  | Some c => Ascii.eqb c "/"
  | None => false
  end.

Definition path_join (a b : string) : string :=
  match Py.strip_prefix "/" b with
  | Some _ => b
  | None => if decide (a = "") then b
            else if ends_with_slash a then a ++ b else a ++ "/" ++ b
  end.

(** The number of slashes [normpath] keeps at the start: one, or two when
    the path starts with exactly two. *)
Definition initial_slashes (path : string) : nat :=
  match Py.strip_prefix "/" path with
  | None => 0
  | Some _ =>
      match Py.strip_prefix "//" path, Py.strip_prefix "///" path with
      | Some _, None => 2
      | _, _ => 1
      end
  end.

(** The body of the loop of [normpath] over the components; [new_comps] is
    kept with its last component first. *)
Definition norm_step (initial : nat) (new_comps : list string) (comp : string)
  : list string :=
  if decide (comp = "" ∨ comp = ".") then new_comps
  else if decide (comp ≠ ".." ∨ (initial = 0%nat ∧ new_comps = []) ∨
                  head new_comps = Some "..")
       then comp :: new_comps
       else tail new_comps.

(** [os.path.normpath(path)] *)
Definition normpath (path : string) : string :=
  if decide (path = "") then "."
  else
    let initial := initial_slashes path in
    let comps := foldl (norm_step initial) [] (Py.split_on is_slash path) in
    let path := String.concat "" (replicate initial "/") ++ Py.join "/" (reverse comps) in
    if decide (path = "") then "." else path.

(** [os.path.abspath(path)], with [cwd] for [os.getcwd()]. *)
Definition abspath (cwd path : string) : string := normpath (path_join cwd path).

(** [p[:p.rfind('/') + 1]] *)
Fixpoint up_to_last_slash (p : string) : string :=
  match p with
  | EmptyString => EmptyString
  | String c p' =>
      match up_to_last_slash p' with
      | EmptyString => if is_slash c then "/" else ""
      | h => String c h
      end
  end.

(** [head.rstrip('/')] *)
Fixpoint rstrip_slash (head : string) : string :=
  match head with
  | EmptyString => EmptyString
  | String c head' =>
      match rstrip_slash head' with
      | EmptyString => if is_slash c then "" else String c ""
      | r => String c r
      end
  end.

(** [os.path.dirname(p)] *)
Definition dirname (p : string) : string :=
  let head := up_to_last_slash p in
  if Py.all_chars is_slash head then head else rstrip_slash head.

(** ** The compiled pattern [re.compile(r'{{(.*?)}}')]

    The default of [settings['placeholder_pattern']] (line 57), compiled in
    [__init__] (line 87). *)

Module Re.

Definition newline : ascii := "010"%char.

(** The lazy group [(.*?)] followed by the closing [}}]: the shortest run of
    characters other than the line feed after which [}}] follows.  Returns
    the group and the text after the match. *)
Fixpoint lazy_group (s : string) : option (string * string) :=
  match Py.strip_prefix "}}" s with
  | Some rest => Some (EmptyString, rest)
  | None =>
      match s with
      | EmptyString => None
      | String c s' =>
          if Ascii.eqb c newline then None
          else match lazy_group s' with
               | Some (n, rest) => Some (String c n, rest)
               | None => None
               end
      end
  end.

(** [pattern.match(s)]: a match anchored at the start of [s]. *)
Definition match_at (s : string) : option (string * string) :=
  match Py.strip_prefix "{{" s with
  | Some s' => lazy_group s'
  | None => None
  end.

Lemma lazy_group_length s n r :
  lazy_group s = Some (n, r) → String.length s = String.length n + 2 + String.length r.
Proof.
  revert n; induction s as [|c s IH]; intros n.
  - cbn. congruence.
  - cbn [lazy_group].
    destruct (Py.strip_prefix "}}" (String c s)) as [rest|] eqn:E.
    + intros [= <- <-]. apply Py.strip_prefix_length in E. exact E.
    + destruct (Ascii.eqb c newline); [congruence|].
      destruct (lazy_group s) as [[n' r']|]; [|congruence].
      intros [= <- <-]. specialize (IH n' eq_refl). cbn [String.length] in *. lia.
Qed.

Lemma match_at_length s n r :
  match_at s = Some (n, r) → String.length r < String.length s.
Proof.
  unfold match_at. destruct (Py.strip_prefix "{{" s) as [s'|] eqn:E; [|congruence].
  intros H. apply Py.strip_prefix_length in E. apply lazy_group_length in H.
  simpl in E. lia.
Qed.

(** [pattern.findall(s)]: the groups of the non-overlapping matches, scanning
    from the left; after a match the scan resumes behind it. *)
Equations? findall (s : string) : list string by wf (String.length s) lt :=
  findall EmptyString := [];
  findall (String c s') with Py.inspect (match_at (String c s')) := {
    | exist _ (Some (n, r)) H => n :: findall r
    | exist _ None _ => findall s' }.
Proof.
  - exact (match_at_length _ _ _ H).
  - simpl. lia.
Qed.

End Re.

(** ** The python-pptx objects

    python-pptx is a library the repository imports, its code is not part
    of it.  The model keeps what the generator reads and writes: the text of
    paragraphs and text frames, as the library documents the two [text]
    properties, with the escaping of control characters in the text of a
    run, the cells of tables, and for every shape whether it has a text
    frame and whether it has a table.  Fonts and geometry are left out, and
    so are the texts the XML layer refuses to store (those with the code
    point U+FFFE or U+FFFF): the setters are total. *)

Module Pptx.

Definition vtab : ascii := "011"%char.

(** The content of a paragraph ([a:p]): runs ([a:r]) and line breaks
    ([a:br]).  Character formatting is not modelled. *)
Inductive Inline :=
  | Run (text : string)
  | LineBreak.

Abbreviation Paragraph := (list Inline).

(** A text frame ([p:txBody]) is its sequence of paragraphs. *)
Abbreviation TextFrame := (list Paragraph).

Definition inline_text (i : Inline) : string :=
  match i with
  | Run t => t
  | LineBreak => String vtab EmptyString
  end.

(** [paragraph.text] (getter): the runs in order, a line break reading as a
    vertical tab. *)
Definition paragraph_text (p : Paragraph) : string :=
  String.concat EmptyString (inline_text <$> p).

Definition is_break (c : ascii) : bool :=
  Ascii.eqb c Re.newline || Ascii.eqb c vtab.

(** The characters the setter of [run.text] escapes: the class
    [[\x00-\x08\x0B-\x1F]]. *)
Definition is_control (c : ascii) : bool :=
  let n := nat_of_ascii c in
  (n <=? 8)%nat || ((11 <=? n)%nat && (n <=? 31)%nat).

Definition hex_digit (n : nat) : ascii :=
  match n with
  | 0 => "0" | 1 => "1" | 2 => "2" | 3 => "3" | 4 => "4" | 5 => "5" | 6 => "6" | 7 => "7"
  | 8 => "8" | 9 => "9" | 10 => "A" | 11 => "B" | 12 => "C" | 13 => "D" | 14 => "E"
  | _ => "F"
  end%char.

(** ["_x%04X_" % ord(c)] for a character below 256. *)
Definition escape_char (c : ascii) : string :=
  let n := nat_of_ascii c in
  "_x00" ++ String (hex_digit (n / 16)) (String (hex_digit (n mod 16)) "_").

(** [run.text = text] (setter): every control character of the class is
    written in its escaped form; the getter gives back what was written. *)
Fixpoint escape (text : string) : string :=
  match text with
  | EmptyString => EmptyString
  | String c text' =>
      (if is_control c then escape_char c else String c EmptyString) ++ escape text'
  end.

(** [append_text]: the pieces between line feeds and vertical tabs become
    runs, with a line break before every piece but the first; an empty piece
    adds no run. *)
Definition run_of (piece : string) : Paragraph :=
  match piece with
  | EmptyString => []
  | _ => [Run (escape piece)]
  end.

Definition append_text (text : string) : Paragraph :=
  match Py.split_on is_break text with
  | [] => []
  | piece :: pieces =>
      (run_of piece ++ (pieces ≫= λ piece', LineBreak :: run_of piece'))%list
  end.

(** [paragraph.text = text] (setter): the content is cleared and rebuilt. *)
Definition set_paragraph_text (p : Paragraph) (text : string) : Paragraph :=
  append_text text.

(** [text_frame.text] (getter): the paragraph texts joined by line feeds. *)
Definition text_frame_text (tf : TextFrame) : string :=
  Py.join (String Re.newline EmptyString) (paragraph_text <$> tf).

(** [text_frame.text = text] (setter): all paragraphs are dropped and one
    paragraph is made for every line of [text]. *)
Definition set_text_frame_text (tf : TextFrame) (text : string) : TextFrame :=
  append_text <$> Py.split_on (λ c, Ascii.eqb c Re.newline) text.

(** A table cell holds a text frame; [row.cells] and [table.rows] are
    sequences. *)
Abbreviation Row := (list TextFrame).
Abbreviation Table := (list Row).

(** A shape.  [text_frame] is [Some] exactly when
    [hasattr(shape, "text_frame")]; [table] is [Some] exactly when
    [shape.has_table]. *)
Record Shape := mkShape {
  shape_id : nat;
  shape_type : nat;
  text_frame : option TextFrame;
  table : option Table
}.

Abbreviation Slide := (list Shape).

Record Presentation := mkPresentation { slides : list Slide }.

End Pptx.

Import Pptx.

(** ** Exceptions and in-place mutation

    A method body is run on the object it mutates and gives the object back
    together with its outcome; what was written before an exception stays
    written. *)

Inductive outcome (A : Type) :=
  | Returns (a : A)
  | Raises (e : Py.exn).
Arguments Returns {A} a.
Arguments Raises {A} e.

(** [for x in xs: count += body(x)] *)
Fixpoint for_each {X : Type} (body : X → X * outcome Z) (xs : list X) (count : Z)
  : list X * outcome Z :=
  match xs with
  | [] => ([], Returns count)
  | x :: xs' =>
      match body x with
      | (x', Returns n) =>
          let '(xs'', r) := for_each body xs' (count + n)%Z in (x' :: xs'', r)
      | (x', Raises e) => (x' :: xs', Raises e)
      end
  end.

(** [try: ... except Exception: return sentinel] *)
Definition except_Exception {S A : Type} (sentinel : A) (r : S * outcome A) : S * outcome A :=
  match r with
  | (s, Raises _) => (s, Returns sentinel)
  | (s, Returns a) => (s, Returns a)
  end.

(** ** [PPTXGenerator] *)

Record PPTXGenerator := mkGenerator {
  presentation : option Presentation;
  template_path : option string
}.

(** [__init__] *)
Definition init : PPTXGenerator :=
  {| presentation := None; template_path := None |}.

(** [f"{{{{{match}}}}}"] *)
Definition placeholder (name : string) : string := "{{" ++ name ++ "}}".

(** The loop shared by the frame pass, the paragraph pass and the table pass
    (lines 662-666, 676-680, 697-701):
    [for match in findall(original_text): if match in data: ...]. *)
Fixpoint replace_matches (data : gmap string Py.PyValue) (matches : list string)
    (new_text : string) (replaced_count : Z) : outcome (string * Z) :=
  match matches with
  | [] => Returns (new_text, replaced_count)
  | name :: matches' =>
      match data !! name with
      | Some v =>
          match Py.str v with
          | inr value =>
              replace_matches data matches'
                (Py.replace (placeholder name) value new_text) (replaced_count + 1)%Z
          | inl e => Raises e
          end
      | None => replace_matches data matches' new_text replaced_count
      end
  end.

(** The body of [for paragraph in ...paragraphs] (lines 672-683, 693-704);
    it returns what it adds to [replaced_count]. *)
Definition replace_in_paragraph (data : gmap string Py.PyValue) (paragraph : Paragraph)
  : Paragraph * outcome Z :=
  let original_text := paragraph_text paragraph in
  match replace_matches data (Re.findall original_text) original_text 0 with
  | Returns (new_text, replaced) =>
      (if decide (new_text ≠ original_text)
       then set_paragraph_text paragraph new_text else paragraph,
       Returns replaced)
  | Raises e => (paragraph, Raises e)
  end.

(** [_replace_in_text_frame] (lines 651-685) *)
Definition _replace_in_text_frame (text_frame : TextFrame) (data : gmap string Py.PyValue)
  : TextFrame * outcome Z :=
  let original_text := text_frame_text text_frame in
  if decide (original_text = EmptyString) then (text_frame, Returns 0%Z)
  else
    match replace_matches data (Re.findall original_text) original_text 0 with
    | Returns (new_text, replaced_count) =>
        let text_frame :=
          if decide (new_text ≠ original_text)
          then set_text_frame_text text_frame new_text else text_frame in
        for_each (replace_in_paragraph data) text_frame replaced_count
    | Raises e => (text_frame, Raises e)
    end.

(** [_replace_in_table] (lines 687-706) *)
Definition _replace_in_table (table : Table) (data : gmap string Py.PyValue)
  : Table * outcome Z :=
  for_each (λ row, for_each (λ cell, for_each (replace_in_paragraph data) cell 0) row 0)
    table 0.

(** The body of [for shape in slide.shapes] in [replace_placeholders]
    (lines 171-180). *)
Definition replace_in_shape (data : gmap string Py.PyValue) (shape : Shape)
  : Shape * outcome Z :=
  let '(tf, r1) :=
    match text_frame shape with
    | Some tf =>
        let '(tf', r) := _replace_in_text_frame tf data in (Some tf', r)
    | None => (None, Returns 0%Z)
    end in
  match r1 with
  | Raises e => (mkShape (shape_id shape) (shape_type shape) tf (table shape), Raises e)
  | Returns n1 =>
      match table shape with
      | Some tbl =>
          let '(tbl', r2) := _replace_in_table tbl data in
          (mkShape (shape_id shape) (shape_type shape) tf (Some tbl'),
           match r2 with Returns n2 => Returns (n1 + n2)%Z | Raises e => Raises e end)
      | None => (mkShape (shape_id shape) (shape_type shape) tf None, Returns n1)
      end
  end.

(** [replace_placeholders] (lines 146-187) *)
Definition replace_placeholders_body (self : PPTXGenerator) (data : gmap string Py.PyValue)
  : PPTXGenerator * outcome Z :=
  match presentation self with
  | None => (self, Raises Py.ValueError)
  | Some prs =>
      let '(slides', r) :=
        for_each (λ slide, for_each (replace_in_shape data) slide 0) (slides prs) 0 in
      (mkGenerator (Some (mkPresentation slides')) (template_path self), r)
  end.

Definition replace_placeholders (self : PPTXGenerator) (data : gmap string Py.PyValue)
  : PPTXGenerator * outcome Z :=
  except_Exception 0%Z (replace_placeholders_body self data).

(** [_extract_placeholders] (lines 642-649); the set is passed along. *)
Definition _extract_placeholders (text : string) (placeholders : gset string) : gset string :=
  if decide (text = EmptyString) then placeholders
  else foldl (λ acc name, acc ∪ {[name]}) placeholders (Re.findall text).

(** [cell.text] *)
Definition cell_text (cell : TextFrame) : string := text_frame_text cell.

(** The walk shared by [get_placeholders_list] (lines 525-538) and
    [_count_placeholders] (lines 625-638). *)
Definition extract_from_shape (placeholders : gset string) (shape : Shape) : gset string :=
  let placeholders :=
    match text_frame shape with
    | Some tf => _extract_placeholders (text_frame_text tf) placeholders
    | None => placeholders
    end in
  match table shape with
  | Some tbl =>
      foldl (λ acc row, foldl (λ acc' cell, _extract_placeholders (cell_text cell) acc') acc row)
        placeholders tbl
  | None => placeholders
  end.

Definition extract_from_presentation (prs : Presentation) : gset string :=
  foldl (λ acc slide, foldl extract_from_shape acc slide) ∅ (slides prs).

(** [_count_placeholders] (lines 616-640) *)
Definition _count_placeholders (self : PPTXGenerator) : Z :=
  match presentation self with
  | None => 0%Z
  | Some prs => Z.of_nat (size (extract_from_presentation prs))
  end.

(** [get_placeholders_list] (lines 508-544) *)
Definition get_placeholders_list_body (self : PPTXGenerator)
  : PPTXGenerator * outcome (list string) :=
  match presentation self with
  | None => (self, Raises Py.ValueError)
  | Some prs => (self, Returns (Py.sorted (extract_from_presentation prs)))
  end.

Definition get_placeholders_list (self : PPTXGenerator)
  : PPTXGenerator * outcome (list string) :=
  except_Exception [] (get_placeholders_list_body self).

(** ** Storage

    What [os.path.exists], [Presentation(path)], [os.makedirs] and
    [presentation.save] see of the file system: what there is at a path (a
    presentation, a file of another kind, a directory that holds no
    presentation package), the paths at which nothing can be written or
    made, and the working directory.  A path is a key as it is spelled: the
    program's paths as the program spells them, the directories
    [os.makedirs] is called with under their absolute, normalised names. *)

Inductive File :=
  | PptxFile (prs : Presentation)
  | OtherFile
  | Directory.

Record Storage := mkStorage {
  files : gmap string File;
  read_only : gset string;
  cwd : string
}.

(** [load_template] (lines 91-121).  The placeholder count is only logged.
    In a directory the library looks for the parts of a package and finds
    none. *)
Definition load_template_body (fs : Storage) (self : PPTXGenerator) (path : string)
  : PPTXGenerator * outcome bool :=
  match files fs !! path with
  | None => (self, Raises Py.FileNotFoundError)
  | Some OtherFile => (self, Raises Py.PackageNotFoundError)
  | Some Directory => (self, Raises Py.FileNotFoundError)
  | Some (PptxFile prs) =>
      let self := mkGenerator (Some prs) (Some path) in
      let placeholder_count := _count_placeholders self in
      (self, Returns true)
  end.

Definition load_template (fs : Storage) (self : PPTXGenerator) (path : string)
  : PPTXGenerator * outcome bool :=
  except_Exception false (load_template_body fs self path).

(** The directories [os.makedirs(name)] has to see to: [name], absolute and
    normalised, cut behind each of its components, outermost first. *)
Definition ancestors (name : string) : list string :=
  let root := String.concat "" (replicate (initial_slashes name) "/") in
  let comps := filter (λ comp, comp ≠ "") (Py.split_on is_slash name) in
  (λ k, root ++ Py.join "/" (take k comps)) <$> seq 1 (length comps).

(** [os.makedirs(name, exist_ok=True)] over the [ancestors] of [name]: a
    directory that is there is passed over, a missing one is made; it
    raises when a file is in the way ([FileExistsError],
    [NotADirectoryError]) or the directory cannot be made
    ([PermissionError]), and the directories made until then stay. *)
Fixpoint makedirs (fs : Storage) (names : list string) : Storage * outcome unit :=
  match names with
  | [] => (fs, Returns ())
  | name :: names' =>
      match files fs !! name with
      | Some Directory => makedirs fs names'
      | Some _ => (fs, Raises Py.OSError)
      | None =>
          if decide (name ∈ read_only fs) then (fs, Raises Py.OSError)
          else makedirs (mkStorage (<[name := Directory]> (files fs)) (read_only fs) (cwd fs))
                 names'
      end
  end.

(** [os.makedirs(os.path.dirname(os.path.abspath(output_path)), exist_ok=True)]
    (line 475) *)
Definition make_parent (fs : Storage) (output_path : string) : Storage * outcome unit :=
  let name := dirname (abspath (cwd fs) output_path) in
  if decide (name = "") then (fs, Raises Py.FileNotFoundError)
  else makedirs fs (ancestors name).

(** [save_presentation] (lines 455-485).  [presentation.save] raises at a
    path that cannot be written and at the path of a directory. *)
Definition save_presentation_body (fs : Storage) (self : PPTXGenerator) (path : string)
  : (Storage * PPTXGenerator) * outcome bool :=
  match presentation self with
  | None => ((fs, self), Raises Py.ValueError)
  | Some prs =>
      match make_parent fs path with
      | (fs, Raises e) => ((fs, self), Raises e)
      | (fs, Returns _) =>
          match files fs !! path with
          | Some Directory => ((fs, self), Raises Py.OSError)
          | _ =>
              if decide (path ∈ read_only fs) then ((fs, self), Raises Py.OSError)
              else ((mkStorage (<[path := PptxFile prs]> (files fs)) (read_only fs) (cwd fs),
                     self),
                    Returns true)
          end
      end
  end.

Definition save_presentation (fs : Storage) (self : PPTXGenerator) (path : string)
  : (Storage * PPTXGenerator) * outcome bool :=
  except_Exception false (save_presentation_body fs self path).

(** ** What the specification asks of a substitution pass *)

Module Spec.

(** The text a name is to be replaced by: [str(data[name])] when [name] is a
    key. *)
Definition value_text (data : gmap string Py.PyValue) (name : string) : option string :=
  match data !! name with
  | Some v => match Py.str v with inr t => Some t | inl _ => None end
  | None => None
  end.

(** Token-wise substitution: scanning from the left, every placeholder the
    pattern finds is replaced by the text of its value when its name is a
    key, and is copied otherwise; all other characters are copied. *)
Equations? substitute (data : gmap string Py.PyValue) (s : string) : string
    by wf (String.length s) lt :=
  substitute data EmptyString := EmptyString;
  substitute data (String c s') with Py.inspect (Re.match_at (String c s')) := {
    | exist _ (Some (n, r)) H =>
        default (placeholder n) (value_text data n) ++ substitute data r
    | exist _ None _ => String c (substitute data s') }.
Proof.
  - exact (Re.match_at_length _ _ _ H).
  - simpl. lia.
Qed.

(** The placeholders of a text whose name is a key, counted per occurrence. *)
Definition occurrences (data : gmap string Py.PyValue) (s : string) : Z :=
  Z.of_nat (length (filter (λ n, is_Some (data !! n)) (Re.findall s))).

(** No placeholder of the text has a key for its name. *)
Definition unmatched (data : gmap string Py.PyValue) (s : string) : Prop :=
  ∀ n, n ∈ Re.findall s → data !! n = None.

Definition is_brace (c : ascii) : bool := Ascii.eqb c "{" || Ascii.eqb c "}".

(** No brace in the text. *)
Definition plain_text (s : string) : bool := Py.all_chars (λ c, negb (is_brace c)) s.

(** No line feed in the text. *)
Definition single_line (s : string) : bool :=
  Py.all_chars (λ c, negb (Ascii.eqb c Re.newline)) s.

(** The lazy group stops at the first [}}]: none begins inside the name. *)
Definition shortest (n : string) : Prop :=
  ∀ pre post, n = pre ++ post → post ≠ "" → Py.strip_prefix "}}" (post ++ "}}") = None.

(** Braces occur in the text only as the delimiters of placeholders whose
    names hold no brace and no line feed.  The scan is in one of four places:
    outside a placeholder, behind the first opening brace, inside a name,
    behind the first closing brace. *)
Inductive scan := Outside | Opening | Inside | Closing.

Fixpoint simple_from (st : scan) (s : string) : bool :=
  match s with
  | EmptyString => match st with Outside => true | _ => false end
  | String c s' =>
      match st with
      | Outside =>
          if Ascii.eqb c "{" then simple_from Opening s'
          else if Ascii.eqb c "}" then false
          else simple_from Outside s'
      | Opening => if Ascii.eqb c "{" then simple_from Inside s' else false
      | Inside =>
          if Ascii.eqb c "}" then simple_from Closing s'
          else if Ascii.eqb c "{" || Ascii.eqb c Re.newline then false
          else simple_from Inside s'
      | Closing => if Ascii.eqb c "}" then simple_from Outside s' else false
      end
  end.

Definition simple_text (s : string) : bool := simple_from Outside s.

(** The characters a write changes: the control characters of the class
    but the vertical tab, which ends a run before the setter of the run's
    text sees it. *)
Definition escaped (c : ascii) : bool := is_control c && negb (Ascii.eqb c vtab).

(** What a text frame reads after [text] was written to it. *)
Fixpoint written (text : string) : string :=
  match text with
  | EmptyString => EmptyString
  | String c text' =>
      (if escaped c then escape_char c else String c EmptyString) ++ written text'
  end.

(** No character of the text is changed when the text is written. *)
Definition printable (s : string) : bool := Py.all_chars (λ c, negb (escaped c)) s.

(** A value that has a text, and whose text holds no brace, no line feed and
    no character a write changes. *)
Definition plain_value (v : Py.PyValue) : bool :=
  match Py.str v with
  | inr t => plain_text t && single_line t && printable t
  | inl _ => false
  end.

Definition plain_data (data : gmap string Py.PyValue) : Prop :=
  map_Forall (λ _ v, plain_value v = true) data.

(** The texts the substitution pass reads are simple and hold no character
    a write changes: the text of every text frame, and the text of every
    paragraph of every table cell, which is moreover a single line. *)
Definition simple_paragraph (p : Paragraph) : bool :=
  simple_text (paragraph_text p) && single_line (paragraph_text p) &&
  printable (paragraph_text p).

Definition simple_shape (shape : Shape) : bool :=
  match text_frame shape with
  | Some tf => simple_text (text_frame_text tf) && printable (text_frame_text tf)
  | None => true
  end &&
  match table shape with
  | Some tbl => forallb (forallb (forallb simple_paragraph)) tbl
  | None => true
  end.

Definition simple_presentation (prs : Presentation) : bool :=
  forallb (forallb simple_shape) (slides prs).

(** A shape after the pass, against the shape before: the same shape, the
    text of its frame and of every paragraph of its table cells substituted
    token-wise. *)
Definition paragraph_substituted (data : gmap string Py.PyValue) (p p' : Paragraph) : Prop :=
  paragraph_text p' = substitute data (paragraph_text p).

Definition frame_substituted (data : gmap string Py.PyValue) (tf tf' : TextFrame) : Prop :=
  text_frame_text tf' = substitute data (text_frame_text tf).

Definition shape_substituted (data : gmap string Py.PyValue) (sh sh' : Shape) : Prop :=
  shape_id sh' = shape_id sh ∧ shape_type sh' = shape_type sh ∧
  option_Forall2 (frame_substituted data) (text_frame sh) (text_frame sh') ∧
  option_Forall2 (Forall2 (Forall2 (Forall2 (paragraph_substituted data))))
    (table sh) (table sh').

Definition presentation_substituted (data : gmap string Py.PyValue)
    (prs prs' : Presentation) : Prop :=
  Forall2 (Forall2 (shape_substituted data)) (slides prs) (slides prs').

(** The occurrence count of a whole presentation. *)
Definition sumZ (l : list Z) : Z := foldr Z.add 0%Z l.

Definition table_occurrences (data : gmap string Py.PyValue) (tbl : Table) : Z :=
  sumZ ((λ row, sumZ ((λ cell : TextFrame,
    sumZ ((λ p, occurrences data (paragraph_text p)) <$> cell)) <$> row)) <$> tbl).

Definition shape_occurrences (data : gmap string Py.PyValue) (sh : Shape) : Z :=
  (match text_frame sh with
   | Some tf => occurrences data (text_frame_text tf)
   | None => 0
   end +
   match table sh with
   | Some tbl => table_occurrences data tbl
   | None => 0
   end)%Z.

Definition presentation_occurrences (data : gmap string Py.PyValue)
    (prs : Presentation) : Z :=
  sumZ ((λ slide, sumZ (shape_occurrences data <$> slide)) <$> slides prs).

(** A shape after the pass, against the shape before: the same shape, with
    every text frame and every table-cell paragraph that holds no matched
    placeholder left as it was. *)
Definition paragraph_kept (data : gmap string Py.PyValue) (p p' : Paragraph) : Prop :=
  unmatched data (paragraph_text p) → p' = p.

Definition frame_kept (data : gmap string Py.PyValue) (tf tf' : TextFrame) : Prop :=
  unmatched data (text_frame_text tf) → tf' = tf.

Definition shape_kept (data : gmap string Py.PyValue) (sh sh' : Shape) : Prop :=
  shape_id sh' = shape_id sh ∧ shape_type sh' = shape_type sh ∧
  option_Forall2 (frame_kept data) (text_frame sh) (text_frame sh') ∧
  option_Forall2 (Forall2 (Forall2 (Forall2 (paragraph_kept data))))
    (table sh) (table sh').

Definition presentation_kept (data : gmap string Py.PyValue)
    (prs prs' : Presentation) : Prop :=
  Forall2 (Forall2 (shape_kept data)) (slides prs) (slides prs').

(** No text the pass reads holds a matched placeholder. *)
Definition shape_unmatched (data : gmap string Py.PyValue) (sh : Shape) : Prop :=
  (∀ tf, text_frame sh = Some tf → unmatched data (text_frame_text tf)) ∧
  (∀ tbl, table sh = Some tbl →
     Forall (Forall (Forall (λ p, unmatched data (paragraph_text p)))) tbl).

Definition presentation_unmatched (data : gmap string Py.PyValue)
    (prs : Presentation) : Prop :=
  Forall (Forall (shape_unmatched data)) (slides prs).

(** A simple text read as a sequence of segments: runs of characters that
    are no braces, and placeholders. *)
Inductive seg :=
  | Lit (t : string)
  | Tok (name : string).

Definition render_seg (g : seg) : string :=
  match g with
  | Lit t => t
  | Tok n => placeholder n
  end.

Fixpoint render (segs : list seg) : string :=
  match segs with
  | [] => EmptyString
  | g :: segs' => render_seg g ++ render segs'
  end.

Definition wf_seg (g : seg) : bool :=
  match g with
  | Lit t => plain_text t
  | Tok n => plain_text n && single_line n
  end.

Definition tokens (segs : list seg) : list string :=
  omap (λ g, match g with Tok n => Some n | Lit _ => None end) segs.

(** Replacing the placeholders [f] knows by their text. *)
Definition expand (f : string → option string) (g : seg) : seg :=
  match g with
  | Lit t => Lit t
  | Tok n => match f n with Some v => Lit v | None => Tok n end
  end.

(** The texts [get_placeholders_list] reads, in the order of the walk. *)
Definition shape_texts (sh : Shape) : list string :=
  (match text_frame sh with Some tf => [text_frame_text tf] | None => [] end ++
   match table sh with
   | Some tbl => tbl ≫= λ row, cell_text <$> row
   | None => []
   end)%list.

Definition presentation_texts (prs : Presentation) : list string :=
  slides prs ≫= λ slide, slide ≫= shape_texts.

End Spec.

(** ** Auxiliary definitions of the proofs *)

(** The placeholder of [k] is replaced by [v], any other is kept. *)
Definition one (k v : string) (n : string) : option string :=
  if decide (n = k) then Some v else None.

(** In the replacement loop the names handled so far stand for their
    values; [matched] counts the handled names that are keys. *)
Definition chosen (data : gmap string Py.PyValue) (ns : list string) (n : string)
  : option string :=
  if decide (n ∈ ns) then Spec.value_text data n else None.

Definition matched (data : gmap string Py.PyValue) (ns : list string) : Z :=
  Z.of_nat (length (filter (λ n, is_Some (data !! n)) ns)).

(** What a paragraph reads after its first piece: every further piece
    behind a vertical tab. *)
Fixpoint glue (pieces : list string) : string :=
  match pieces with
  | [] => ""
  | piece :: pieces' => String vtab piece ++ glue pieces'
  end.

(** [fs'] is [fs] with directories made: the paths that cannot be written
    and the working directory are the same, nothing that was at a path is
    changed, and what is new at a path is a directory. *)
Definition directories_made (fs fs' : Storage) : Prop :=
  read_only fs' = read_only fs ∧ cwd fs' = cwd fs ∧
  ∀ path, files fs' !! path = files fs !! path ∨
          (files fs !! path = None ∧ files fs' !! path = Some Directory).

(** The directory [name] can be made: on the way to it there are only
    directories, and places where a directory can be made. *)
Definition can_make (fs : Storage) (name : string) : Prop :=
  name ≠ "" ∧
  ∀ a, a ∈ ancestors name →
       files fs !! a = Some Directory ∨ (files fs !! a = None ∧ a ∉ read_only fs).

(** A presentation can be saved at [path]: the directory of the path can be
    made, and the path can be written, is no directory and is none of the
    directories to make. *)
Definition writable (fs : Storage) (path : string) : Prop :=
  can_make fs (dirname (abspath (cwd fs) path)) ∧
  (path ∉ ancestors (dirname (abspath (cwd fs) path))) ∧
  (path ∉ read_only fs) ∧ files fs !! path ≠ Some Directory.

(** ** Concrete inputs *)

(** Documents used as concrete inputs: a deck of one slide, a text box
    holding one run, a table shape. *)
Definition deck (shapes : list Shape) : PPTXGenerator :=
  mkGenerator (Some (mkPresentation [shapes])) (Some "template.pptx").

Definition text_box (t : string) : Shape := mkShape 2 17 (Some [[Run t]]) None.

Definition table_shape (rows : list (list string)) : Shape :=
  mkShape 3 19 None
    (Some ((λ row : list string, (λ t : string, [[Run t]]) <$> row) <$> rows)).

Definition line_feed : string := String Re.newline "".

(** A storage with one presentation file and one file of another kind. *)
Definition storage : Storage :=
  mkStorage {[ "deck.pptx" := PptxFile (mkPresentation [[text_box "{{x}}"]]);
               "notes.txt" := OtherFile ]} {[ "locked.pptx" ]} "/app".


(** A storage with one template; one output path cannot be written. *)
Definition served : Storage :=
  mkStorage {[ "t.pptx" := PptxFile (mkPresentation [[text_box "{{a}} and {{b}}"]]) ]}
    {[ "output/locked.pptx" ]} "/app".

(** ** The rest of [PPTXGenerator]

    The methods below raise more than the exceptions of [Py.exn]; the
    endpoints of [main.py] raise [HTTPException]. *)

Inductive raised :=
  | Exn (e : Py.exn)
  | IndexError
  | AttributeError
  | HTTPException (status : nat).

Inductive result (A : Type) :=
  | Value (a : A)
  | Raised (e : raised).
Arguments Value {A} a.
Arguments Raised {A} e.

(** A body that runs on a state it mutates and returns or raises. *)
Definition M (S A : Type) : Type := S → S * result A.

Definition ret {S A : Type} (a : A) : M S A := λ s, (s, Value a).

Definition raise {S A : Type} (e : raised) : M S A := λ s, (s, Raised e).

Definition bind {S A B : Type} (m : M S A) (k : A → M S B) : M S B :=
  λ s, match m s with
       | (s', Value a) => k a s'
       | (s', Raised e) => (s', Raised e)
       end.

Notation "'let*' x ':=' m 'in' k" := (bind m (λ x, k))
  (at level 10, x name, m at level 100, k at level 200, only parsing).

(** [try: ... except Exception: return sentinel], for such a body. *)
Definition except_sentinel {S A : Type} (sentinel : A) (m : M S A) (s : S)
  : S * outcome A :=
  match m s with
  | (s', Value a) => (s', Returns a)
  | (s', Raised _) => (s', Returns sentinel)
  end.

(** A call of a method of the generator, which returns or, were it to
    raise, raises through. *)
Definition lift {A : Type} (o : outcome A) : result A :=
  match o with
  | Returns a => Value a
  | Raises e => Raised (Exn e)
  end.

Definition call {S A : Type} (method : S → S * outcome A) : M S A :=
  λ s, let '(s', o) := method s in (s', lift o).

(** [create_new_presentation] (lines 123-144): [Presentation()] has no
    slide. *)
Definition create_new_presentation (self : PPTXGenerator) : PPTXGenerator * outcome bool :=
  except_sentinel false
    (λ _, (mkGenerator (Some (mkPresentation [])) None, Value true)) self.

(** A slide layout: its name and the placeholder shapes [slides.add_slide]
    puts on a slide made from it.  The layouts are those of
    [self.presentation.slide_layouts]; they are passed to the methods that
    read them. *)
Record Layout := mkLayout {
  layout_name : string;
  layout_shapes : list Shape
}.

(** [add_slide] (lines 189-233) *)
Definition add_slide_body (slide_layouts : list Layout) (name : option string)
  : M PPTXGenerator Z :=
  λ self,
    match presentation self with
    | None => (self, Raised (Exn Py.ValueError))
    | Some prs =>
        let slide_layout :=
          match name with
          | None => slide_layouts !! 0%nat
          | Some name =>
              match find (λ layout, String.eqb (layout_name layout) name) slide_layouts with
              | Some layout => Some layout
              | None => slide_layouts !! 0%nat
              end
          end in
        match slide_layout with
        | None => (self, Raised IndexError)
        | Some layout =>
            let slides' := (slides prs ++ [layout_shapes layout])%list in
            (mkGenerator (Some (mkPresentation slides')) (template_path self),
             Value (Z.of_nat (length slides') - 1)%Z)
        end
    end.

Definition add_slide (slide_layouts : list Layout) (name : option string)
    (self : PPTXGenerator) : PPTXGenerator * outcome Z :=
  except_sentinel (-1)%Z (add_slide_body slide_layouts name) self.

(** [get_available_layouts] (lines 487-506) *)
Definition get_available_layouts (slide_layouts : list Layout) (self : PPTXGenerator)
  : PPTXGenerator * outcome (list string) :=
  except_sentinel []
    (λ self, match presentation self with
             | None => (self, Raised (Exn Py.ValueError))
             | Some _ => (self, Value (layout_name <$> slide_layouts))
             end) self.

(** A cell of a table just added holds one empty paragraph. *)
Definition empty_cell : TextFrame := [[]].

(** [shapes.add_table(rows, cols, ...)] *)
Definition new_table (rows cols : nat) : Table := replicate rows (replicate cols empty_cell).

(** The inner loop of [add_table] (lines 379-382):
    [for j, cell_text in enumerate(row_data): if j < cols: cell.text = str(cell_text)]. *)
Fixpoint fill_row (cols j : nat) (row_data : list Py.PyValue) (cells : Row)
  : Row * result unit :=
  match row_data with
  | [] => (cells, Value ())
  | cell_text :: row_data' =>
      if decide (j < cols) then
        match Py.str cell_text with
        | inr t =>
            fill_row cols (S j) row_data'
              (alter (λ cell, set_text_frame_text cell t) j cells)
        | inl e => (cells, Raised (Exn e))
        end
      else fill_row cols (S j) row_data' cells
  end.

(** The outer loop (line 378): [for i, row_data in enumerate(table_data)]. *)
Fixpoint fill_table (cols i : nat) (table_data : list (list Py.PyValue)) (tbl : Table)
  : Table * result unit :=
  match table_data with
  | [] => (tbl, Value ())
  | row_data :: table_data' =>
      match tbl !! i with
      | None => (tbl, Raised IndexError)
      | Some cells =>
          match fill_row cols 0 row_data cells with
          | (cells', Value _) => fill_table cols (S i) table_data' (<[i := cells']> tbl)
          | (cells', Raised e) => (<[i := cells']> tbl, Raised e)
          end
      end
  end.

(** [add_table] (lines 322-395).  [next_shape_id] is the id python-pptx
    gives the next shape of a slide; position and size are left out. *)
Definition add_table_body (next_shape_id : list Shape → nat) (slide_idx : Z)
    (table_data : list (list Py.PyValue)) : M PPTXGenerator bool :=
  λ self,
    match presentation self with
    | None => (self, Raised (Exn Py.ValueError))
    | Some prs =>
        if decide ((slide_idx < 0)%Z ∨ (slide_idx >= Z.of_nat (length (slides prs)))%Z)
        then (self, Raised (Exn Py.ValueError))
        else
          match table_data with
          | [] | [] :: _ => (self, Raised (Exn Py.ValueError))
          | first :: _ =>
              let rows := length table_data in
              let cols := length first in
              match slides prs !! Z.to_nat slide_idx with
              | None => (self, Raised IndexError)
              | Some slide =>
                  let '(tbl, r) := fill_table cols 0 table_data (new_table rows cols) in
                  let shape := mkShape (next_shape_id slide) 19 None (Some tbl) in
                  (mkGenerator
                     (Some (mkPresentation
                              (<[Z.to_nat slide_idx := (slide ++ [shape])%list]> (slides prs))))
                     (template_path self),
                   match r with Value _ => Value true | Raised e => Raised e end)
              end
          end
    end.

Definition add_table (next_shape_id : list Shape → nat) (slide_idx : Z)
    (table_data : list (list Py.PyValue)) (self : PPTXGenerator)
  : PPTXGenerator * outcome bool :=
  except_sentinel false (add_table_body next_shape_id slide_idx table_data) self.

(** The position of [xs[i]] in a sequence of length [len]: a negative
    index counts from the end. *)
Definition py_index (len : nat) (i : Z) : option nat :=
  if decide (0 ≤ i)%Z then (if decide (i < Z.of_nat len)%Z then Some (Z.to_nat i) else None)
  else if decide (- Z.of_nat len ≤ i)%Z then Some (Z.to_nat (Z.of_nat len + i)) else None.

(** [shape.text_frame.text = text] *)
Definition with_text (shape : Shape) (tf : TextFrame) (text : string) : Shape :=
  mkShape (shape_id shape) (shape_type shape) (Some (set_text_frame_text tf text))
    (table shape).

(** The loop bodies of [create_template_from_data] over the shapes of the
    title slide (lines 579-584) and of the content slide (lines 592-595). *)
Definition title_slide_shape (shape : Shape) : Shape :=
  match text_frame shape with
  | Some tf =>
      if decide (text_frame_text tf = "Click to add title")
      then with_text shape tf "{{titulo}}"
      else if decide (text_frame_text tf = "Click to add subtitle")
      then with_text shape tf "{{subtitulo}}"
      else shape
  | None => shape
  end.

Definition content_slide_shape (shape : Shape) : Shape :=
  match text_frame shape with
  | Some tf =>
      if decide (text_frame_text tf = "Click to add title")
      then with_text shape tf "Resultados"
      else shape
  | None => shape
  end.

(** [slide = self.presentation.slides[slide_idx]] and the loop over its
    shapes. *)
Definition on_slide (f : Shape → Shape) (slide_idx : Z) : M PPTXGenerator unit :=
  λ self,
    match presentation self with
    | None => (self, Raised AttributeError)
    | Some prs =>
        match py_index (length (slides prs)) slide_idx with
        | None => (self, Raised IndexError)
        | Some k =>
            (mkGenerator (Some (mkPresentation (alter (fmap f) k (slides prs))))
               (template_path self), Value ())
        end
    end.

(** The table of [create_template_from_data] (lines 598-601). *)
Definition template_table : list (list Py.PyValue) :=
  [[Py.PyStr "Métrica"; Py.PyStr "2024"; Py.PyStr "2025"; Py.PyStr "Variação"];
   [Py.PyStr "Total"; Py.PyStr "{{total_2024}}"; Py.PyStr "{{total_2025}}";
    Py.PyStr "{{crescimento}}"]].

(** The cells [add_table] makes of [template_table]. *)
Definition template_cells : Table :=
  [[[[Run "Métrica"]]; [[Run "2024"]]; [[Run "2025"]]; [[Run "Variação"]]];
   [[[Run "Total"]]; [[Run "{{total_2024}}"]]; [[Run "{{total_2025}}"]];
    [[Run "{{crescimento}}"]]]].

(** A method of the generator run on the pair of storage and generator. *)
Definition on_generator {A : Type} (method : PPTXGenerator → PPTXGenerator * outcome A)
  : M (Storage * PPTXGenerator) A :=
  λ s, let '(g', o) := method s.2 in ((s.1, g'), lift o).

Definition on_generator_body {A : Type} (body : M PPTXGenerator A)
  : M (Storage * PPTXGenerator) A :=
  λ s, let '(g', r) := body s.2 in ((s.1, g'), r).

Definition on_both {A : Type}
    (method : Storage → PPTXGenerator → (Storage * PPTXGenerator) * outcome A)
  : M (Storage * PPTXGenerator) A :=
  λ s, let '(s', o) := method s.1 s.2 in (s', lift o).

(** [create_template_from_data] (lines 546-612).  [slide_layouts] are the
    layouts of [Presentation()]; the argument [data] is not read. *)
Definition create_template_from_data_body (next_shape_id : list Shape → nat)
    (slide_layouts : list Layout) (data : gmap string Py.PyValue) (output_path : string)
  : M (Storage * PPTXGenerator) bool :=
  let* _ := on_generator create_new_presentation in
  let* slide_idx := on_generator (add_slide slide_layouts None) in
  let* _ := on_generator_body (on_slide title_slide_shape slide_idx) in
  let* slide_idx := on_generator (add_slide slide_layouts None) in
  let* _ := on_generator_body (on_slide content_slide_shape slide_idx) in
  let* _ := on_generator (add_table next_shape_id slide_idx template_table) in
  let* _ := on_both (λ fs self, save_presentation fs self output_path) in
  ret true.

Definition create_template_from_data (next_shape_id : list Shape → nat)
    (slide_layouts : list Layout) (data : gmap string Py.PyValue) (output_path : string)
    (fs : Storage) (self : PPTXGenerator) : (Storage * PPTXGenerator) * outcome bool :=
  except_sentinel false
    (create_template_from_data_body next_shape_id slide_layouts data output_path) (fs, self).

(** ** The endpoints of [main.py] that use the generator *)

Definition OUTPUT_DIR : string := "output".
Definition TEMPLATE_DIR : string := "templates".

(** The handlers that close every endpoint:
    [except HTTPException: raise] and
    [except Exception: raise HTTPException(status_code=500)]. *)
Definition http_handler {S A : Type} (m : M S A) : M S A :=
  λ s, match m s with
       | (s', Raised (HTTPException status)) => (s', Raised (HTTPException status))
       | (s', Raised _) => (s', Raised (HTTPException 500))
       | (s', Value a) => (s', Value a)
       end.

(** The fields of the answers that do not depend on the clock. *)
Record PlaceholdersAnswer := mkPlaceholdersAnswer {
  answer_template_name : string;
  answer_placeholders : list string;
  answer_count : Z
}.

Record GenerateAnswer := mkGenerateAnswer {
  answer_output_filename : string;
  answer_output_path : string;
  placeholders_found : list string;
  placeholders_replaced : Z;
  download_url : string
}.

(** [get_template_placeholders] (lines 515-551); the generator is a fresh
    one, so the state is the storage and that local generator. *)
Definition get_template_placeholders (fs : Storage) (template_name : string)
  : result PlaceholdersAnswer :=
  (http_handler
     (let template_path := path_join TEMPLATE_DIR template_name in
      if decide (files fs !! template_path = None) then raise (HTTPException 404)
      else
        let* loaded := call (λ g, load_template fs g template_path) in
        if negb loaded then raise (HTTPException 500)
        else
          let* placeholders := call get_placeholders_list in
          ret (mkPlaceholdersAnswer template_name placeholders
                 (Z.of_nat (length placeholders))))
     init).2.

(** [generate_pptx] (lines 277-337), on the storage and the generator of the
    module.  [data] is the object [json.loads] makes of the form field,
    [None] when it raises [JSONDecodeError]; a field that holds JSON other
    than an object is left out. *)
Definition generate_pptx (template_path : string) (data : option (gmap string Py.PyValue))
    (output_filename : string) : M (Storage * PPTXGenerator) GenerateAnswer :=
  http_handler
    (λ s,
       (if decide (files s.1 !! template_path = None) then raise (HTTPException 404)
        else
          match data with
          | None => raise (HTTPException 400)
          | Some placeholder_data =>
              let* loaded := on_both (λ fs self, let '(g, o) := load_template fs self template_path
                                               in ((fs, g), o)) in
              if negb loaded then raise (HTTPException 500)
              else
                let* placeholders := on_generator get_placeholders_list in
                let* replaced_count :=
                  on_generator (λ self, replace_placeholders self placeholder_data) in
                let output_path := path_join OUTPUT_DIR output_filename in
                let* saved := on_both (λ fs self, save_presentation fs self output_path) in
                if negb saved then raise (HTTPException 500)
                else ret (mkGenerateAnswer output_filename output_path placeholders
                            replaced_count ("/download/" ++ output_filename))
          end) s).

(** * Properties *)

(** ** Strings *)

Section strings.

Implicit Types (s t u p r old new : string) (a b c : ascii).

Lemma append_cons c s t : String c s ++ t = String c (s ++ t).
Proof. reflexivity. Qed.

Lemma append_empty_l s : "" ++ s = s.
Proof. reflexivity. Qed.

Lemma close_cons s : "}}" ++ s = String "}" (String "}" s).
Proof. reflexivity. Qed.

Lemma append_empty_r s : s ++ "" = s.
Proof. induction s as [|c s IH]; [done|]. by rewrite append_cons, IH. Qed.

Lemma append_assoc s t u : (s ++ t) ++ u = s ++ t ++ u.
Proof. induction s as [|c s IH]; [done|]. by rewrite !append_cons, IH. Qed.

Lemma all_chars_app f s t :
  Py.all_chars f (s ++ t) = Py.all_chars f s && Py.all_chars f t.
Proof.
  induction s as [|c s IH]; [done|].
  rewrite append_cons. cbn [Py.all_chars]. rewrite IH. by rewrite andb_assoc.
Qed.

Lemma all_chars_impl (f g : ascii → bool) s :
  (∀ c, f c = true → g c = true) → Py.all_chars f s = true → Py.all_chars g s = true.
Proof.
  intros Hfg. induction s as [|c s IH]; [done|]. cbn [Py.all_chars].
  rewrite !andb_true_iff. intros [? ?]. auto.
Qed.

Lemma strip_prefix_app p r : Py.strip_prefix p (p ++ r) = Some r.
Proof.
  induction p as [|a p IH]; [done|].
  rewrite append_cons. cbn [Py.strip_prefix]. by rewrite Ascii.eqb_refl.
Qed.

Lemma strip_prefix_Some p s r : Py.strip_prefix p s = Some r → s = p ++ r.
Proof.
  revert s. induction p as [|a p IH]; intros s.
  { cbn. by intros [= ->]. }
  destruct s as [|b s]; cbn [Py.strip_prefix]; [done|].
  destruct (Ascii.eqb_spec a b) as [->|]; [|done].
  intros H. rewrite append_cons. f_equal. by apply IH.
Qed.

Lemma strip_prefix_app_l p s r t :
  Py.strip_prefix p s = Some r → Py.strip_prefix p (s ++ t) = Some (r ++ t).
Proof.
  intros ->%strip_prefix_Some. rewrite append_assoc. apply strip_prefix_app.
Qed.

(** A prefix that has no line feed and is not found is not found either
    when a line feed and more text are appended. *)
Lemma strip_prefix_None_newline p s t :
  Spec.single_line p = true → Py.strip_prefix p s = None →
  Py.strip_prefix p (s ++ String Re.newline t) = None.
Proof.
  revert s. induction p as [|a p IH]; intros s Hp; [done|].
  unfold Spec.single_line in Hp. cbn [Py.all_chars] in Hp.
  apply andb_true_iff in Hp as [Ha Hp].
  destruct s as [|b s].
  - intros _. rewrite append_empty_l. cbn [Py.strip_prefix].
    by destruct (Ascii.eqb_spec a Re.newline).
  - rewrite append_cons. cbn [Py.strip_prefix].
    destruct (Ascii.eqb a b); [|done]. by apply IH.
Qed.

Lemma findall_nil : Re.findall "" = [].
Proof. by simp findall. Qed.

Lemma findall_cons c s :
  Re.findall (String c s) =
  match Re.match_at (String c s) with
  | Some (n, r) => n :: Re.findall r
  | None => Re.findall s
  end.
Proof.
  simp findall. unfold Py.inspect.
  enough (∀ o (H : Re.match_at (String c s) = o),
    Re.findall_unfold_clause_2 c s (exist _ o H) =
    match o with Some (n, r) => n :: Re.findall r | None => Re.findall s end) as Hg
    by apply Hg.
  by intros [[n r]|] H.
Qed.

Lemma replace_nil a old new : Py.replace (String a old) new "" = "".
Proof. by simp replace. Qed.

Lemma replace_cons a old new c s :
  Py.replace (String a old) new (String c s) =
  match Py.strip_prefix (String a old) (String c s) with
  | Some r => new ++ Py.replace (String a old) new r
  | None => String c (Py.replace (String a old) new s)
  end.
Proof.
  simp replace. unfold Py.inspect.
  enough (∀ o (H : Py.strip_prefix (String a old) (String c s) = o),
    Py.replace_unfold_clause_3 a old new c s (exist _ o H) =
    match o with
    | Some r => new ++ Py.replace (String a old) new r
    | None => String c (Py.replace (String a old) new s)
    end) as Hg by apply Hg.
  by intros [r|] H.
Qed.

Lemma substitute_nil data : Spec.substitute data "" = "".
Proof. by simp substitute. Qed.

Lemma substitute_cons data c s :
  Spec.substitute data (String c s) =
  match Re.match_at (String c s) with
  | Some (n, r) =>
      default (placeholder n) (Spec.value_text data n) ++ Spec.substitute data r
  | None => String c (Spec.substitute data s)
  end.
Proof.
  simp substitute. unfold Py.inspect.
  enough (∀ o (H : Re.match_at (String c s) = o),
    Spec.substitute_unfold_clause_2 data c s (exist _ o H) =
    match o with
    | Some (n, r) =>
        default (placeholder n) (Spec.value_text data n) ++ Spec.substitute data r
    | None => String c (Spec.substitute data s)
    end) as Hg by apply Hg.
  by intros [[n r]|] H.
Qed.

End strings.

(** ** The pattern *)

Section pattern.

Implicit Types (s t n r : string) (c : ascii).

Lemma lazy_group_cons c s :
  Re.lazy_group (String c s) =
  match Py.strip_prefix "}}" (String c s) with
  | Some rest => Some ("", rest)
  | None =>
      if Ascii.eqb c Re.newline then None
      else match Re.lazy_group s with
           | Some (n, rest) => Some (String c n, rest)
           | None => None
           end
  end.
Proof. reflexivity. Qed.

Lemma strip_close_app post r :
  post ≠ "" →
  Py.strip_prefix "}}" (post ++ "}}" ++ r) = None ↔ Py.strip_prefix "}}" (post ++ "}}") = None.
Proof.
  destruct post as [|c [|d post]]; [done|..]; intros _; rewrite !append_cons;
    cbn [Py.strip_prefix]; rewrite ?append_empty_l, ?append_cons; cbn [Py.strip_prefix];
    destruct (Ascii.eqb "}" c); try done; destruct (Ascii.eqb "}" d); done.
Qed.

Lemma shortest_nil : Spec.shortest "".
Proof. intros [|a pre] post; [|done]. rewrite append_empty_l. by intros <-. Qed.

Lemma shortest_cons c n :
  Spec.shortest (String c n) ↔
  Py.strip_prefix "}}" (String c n ++ "}}") = None ∧ Spec.shortest n.
Proof.
  split.
  - intros H. split.
    + by apply (H "" (String c n)).
    + intros pre post -> Hpost. by apply (H (String c pre) post).
  - intros [H1 H2] [|a pre] post.
    + rewrite append_empty_l. by intros <- _.
    + rewrite append_cons. intros [= -> ->] Hpost. by apply (H2 pre post).
Qed.

(** What [lazy_group] accepts. *)
Lemma lazy_group_Some s n r :
  Re.lazy_group s = Some (n, r) ↔
  s = n ++ "}}" ++ r ∧ Spec.single_line n = true ∧ Spec.shortest n.
Proof.
  split.
  - revert n. induction s as [|c s IH]; intros n; [done|].
    rewrite lazy_group_cons.
    destruct (Py.strip_prefix "}}" (String c s)) as [rest|] eqn:E.
    { intros [= <- <-]. apply strip_prefix_Some in E.
      split; [done|]. split; [done|]. apply shortest_nil. }
    destruct (Ascii.eqb c Re.newline) eqn:Hc; [done|].
    destruct (Re.lazy_group s) as [[n' r']|]; [|done].
    intros [= <- <-]. destruct (IH n' eq_refl) as (-> & Hn' & Hs).
    split; [done|]. split.
    + unfold Spec.single_line. cbn [Py.all_chars]. by rewrite Hc.
    + apply shortest_cons. split; [|done].
      rewrite <- append_cons in E. by apply strip_close_app in E.
  - revert s. induction n as [|c n IH]; intros s (-> & Hn & Hs).
    { rewrite append_empty_l. by destruct r. }
    rewrite append_cons, lazy_group_cons.
    apply shortest_cons in Hs as [Hc Hs].
    rewrite <- append_cons.
    unfold Spec.single_line in Hn. cbn [Py.all_chars] in Hn.
    apply andb_true_iff in Hn as [Hnl Hn].
    assert (Py.strip_prefix "}}" (String c n ++ "}}" ++ r) = None) as ->
      by by apply strip_close_app.
    apply negb_true_iff in Hnl. rewrite Hnl.
    by rewrite (IH (n ++ "}}" ++ r)).
Qed.

(** What the anchored pattern accepts: [{{], the shortest run of characters
    other than the line feed that [}}] follows, and [}}]. *)
Lemma match_at_Some s n r :
  Re.match_at s = Some (n, r) ↔
  s = "{{" ++ n ++ "}}" ++ r ∧ Spec.single_line n = true ∧ Spec.shortest n.
Proof.
  unfold Re.match_at. split.
  - destruct (Py.strip_prefix "{{" s) as [s'|] eqn:E; [|done].
    apply strip_prefix_Some in E as ->.
    intros (-> & ? & ?)%lazy_group_Some. done.
  - intros (-> & ? & ?). rewrite strip_prefix_app. by apply lazy_group_Some.
Qed.

(** A name without a closing brace is the shortest candidate. *)
Lemma shortest_no_close n :
  Py.all_chars (λ c, negb (Ascii.eqb c "}")) n = true → Spec.shortest n.
Proof.
  intros Hn pre post -> Hpost. rewrite all_chars_app in Hn.
  apply andb_true_iff in Hn as [_ Hn]. destruct post as [|c post]; [done|].
  cbn [Py.all_chars] in Hn. apply andb_true_iff in Hn as [Hc _].
  rewrite append_cons. cbn [Py.strip_prefix].
  rewrite Ascii.eqb_sym. apply negb_true_iff in Hc. by rewrite Hc.
Qed.

Lemma match_at_placeholder n r :
  Spec.single_line n = true → Py.all_chars (λ c, negb (Ascii.eqb c "}")) n = true →
  Re.match_at (placeholder n ++ r) = Some (n, r).
Proof.
  intros Hl Hc. apply match_at_Some. unfold placeholder.
  rewrite !append_assoc. split; [done|]. split; [done|]. by apply shortest_no_close.
Qed.

Lemma match_at_app s t n r :
  Re.match_at s = Some (n, r) → Re.match_at (s ++ t) = Some (n, r ++ t).
Proof.
  intros (-> & ? & ?)%match_at_Some. apply match_at_Some.
  by rewrite !append_assoc.
Qed.

Lemma lazy_group_None_newline s t :
  Re.lazy_group s = None → Re.lazy_group (s ++ String Re.newline t) = None.
Proof.
  induction s as [|c s IH].
  - intros _. rewrite append_empty_l, lazy_group_cons. cbn [Py.strip_prefix].
    by rewrite Ascii.eqb_refl.
  - rewrite append_cons, !lazy_group_cons, <- append_cons.
    destruct (Py.strip_prefix "}}" (String c s)) eqn:E; [done|].
    rewrite (strip_prefix_None_newline "}}" _ _ eq_refl E).
    destruct (Ascii.eqb c Re.newline); [done|].
    destruct (Re.lazy_group s) as [[? ?]|]; [done|]. intros _. by rewrite IH.
Qed.

Lemma match_at_None_newline s t :
  Re.match_at s = None → Re.match_at (s ++ String Re.newline t) = None.
Proof.
  unfold Re.match_at. destruct (Py.strip_prefix "{{" s) as [s'|] eqn:E.
  - rewrite (strip_prefix_app_l _ _ _ _ E). apply lazy_group_None_newline.
  - by rewrite (strip_prefix_None_newline "{{" _ _ eq_refl E).
Qed.

(** No match spans a line feed: the matches of two lines are those of the
    first followed by those of the second. *)
Lemma findall_app_newline s t :
  Re.findall (s ++ String Re.newline t) = (Re.findall s ++ Re.findall t)%list.
Proof.
  remember (String.length s) as k eqn:Hk. revert s Hk.
  induction k as [k IH] using lt_wf_ind. intros [|c s] Hk.
  - rewrite append_empty_l, findall_cons, findall_nil. by cbn.
  - rewrite append_cons, !findall_cons, <- append_cons.
    destruct (Re.match_at (String c s)) as [[n r]|] eqn:E.
    + rewrite (match_at_app _ _ _ _ E). cbn [app]. f_equal.
      apply (IH (String.length r)); [|done].
      apply Re.match_at_length in E. lia.
    + rewrite (match_at_None_newline _ _ E).
      apply (IH (String.length s)); [|done]. subst k. cbn. lia.
Qed.

Lemma findall_join ts :
  Re.findall (Py.join (String Re.newline "") ts) = ts ≫= Re.findall.
Proof.
  unfold Py.join. induction ts as [|t ts IH].
  { change (String.concat _ []) with "". by rewrite findall_nil. }
  destruct ts as [|t' ts].
  - cbn. by rewrite app_nil_r.
  - change (String.concat ?sep (t :: t' :: ts)) with (t ++ sep ++ String.concat sep (t' :: ts)).
    rewrite append_cons, append_empty_l, findall_app_newline, IH. done.
Qed.

End pattern.

(** ** Simple texts as segments *)

Section segments.

Implicit Types (s t n k v : string) (c : ascii) (segs : list Spec.seg).

Lemma placeholder_cons n r :
  placeholder n ++ r = String "{" (String "{" (n ++ "}}" ++ r)).
Proof. unfold placeholder. by rewrite !append_assoc. Qed.

Lemma plain_text_cons c s :
  Spec.plain_text (String c s) = negb (Spec.is_brace c) && Spec.plain_text s.
Proof. reflexivity. Qed.

Lemma single_line_cons c s :
  Spec.single_line (String c s) = negb (Ascii.eqb c Re.newline) && Spec.single_line s.
Proof. reflexivity. Qed.

Lemma not_brace c :
  negb (Spec.is_brace c) = true → c ≠ "{"%char ∧ c ≠ "}"%char.
Proof.
  unfold Spec.is_brace. rewrite negb_true_iff, orb_false_iff.
  intros [H1 H2]. split; intros ->; by rewrite Ascii.eqb_refl in *.
Qed.

(** Every simple text is the rendering of well-formed segments. *)
Lemma simple_from_segs s :
  (Spec.simple_from Spec.Outside s = true →
     ∃ segs, forallb Spec.wf_seg segs = true ∧ s = Spec.render segs) ∧
  (Spec.simple_from Spec.Opening s = true →
     ∃ n segs, Spec.wf_seg (Spec.Tok n) = true ∧ forallb Spec.wf_seg segs = true ∧
       s = String "{" (n ++ "}}" ++ Spec.render segs)) ∧
  (Spec.simple_from Spec.Inside s = true →
     ∃ n segs, Spec.wf_seg (Spec.Tok n) = true ∧ forallb Spec.wf_seg segs = true ∧
       s = n ++ "}}" ++ Spec.render segs) ∧
  (Spec.simple_from Spec.Closing s = true →
     ∃ segs, forallb Spec.wf_seg segs = true ∧ s = String "}" (Spec.render segs)).
Proof.
  induction s as [|c s (IHo & IHp & IHi & IHc)].
  { repeat split; try done. intros _. by exists []. }
  cbn [Spec.simple_from]. repeat split.
  - destruct (Ascii.eqb_spec c "{") as [->|Ho].
    + intros (n & segs & Hn & Hsegs & ->)%IHp.
      exists (Spec.Tok n :: segs). cbn [forallb Spec.render Spec.render_seg].
      rewrite Hn, Hsegs. by rewrite placeholder_cons.
    + destruct (Ascii.eqb_spec c "}") as [->|Hc]; [done|].
      intros (segs & Hsegs & ->)%IHo.
      exists (Spec.Lit (String c "") :: segs). cbn [forallb Spec.render Spec.render_seg Spec.wf_seg].
      rewrite Hsegs, plain_text_cons. unfold Spec.is_brace.
      apply Ascii.eqb_neq in Ho, Hc. by rewrite Ho, Hc.
  - destruct (Ascii.eqb_spec c "{") as [->|Ho]; [|done].
    intros (n & segs & Hn & Hsegs & ->)%IHi. by exists n, segs.
  - destruct (Ascii.eqb_spec c "}") as [->|Hc].
    + intros (segs & Hsegs & ->)%IHc. by exists "", segs.
    + destruct (Ascii.eqb c "{" || Ascii.eqb c Re.newline) eqn:E; [done|].
      apply orb_false_iff in E as [Ho Hn].
      intros (n & segs & Hwf & Hsegs & ->)%IHi.
      exists (String c n), segs. split; [|done].
      cbn [Spec.wf_seg] in *. rewrite plain_text_cons, single_line_cons.
      unfold Spec.is_brace. apply Ascii.eqb_neq in Hc. by rewrite Ho, Hc, Hn.
  - destruct (Ascii.eqb_spec c "}") as [->|Hc]; [|done].
    intros (segs & Hsegs & ->)%IHo. by exists segs.
Qed.

Lemma simple_text_segs s :
  Spec.simple_text s = true →
  ∃ segs, forallb Spec.wf_seg segs = true ∧ s = Spec.render segs.
Proof. apply simple_from_segs. Qed.

Lemma plain_no_close n :
  Spec.plain_text n = true → Py.all_chars (λ c, negb (Ascii.eqb c "}")) n = true.
Proof.
  apply all_chars_impl. intros c [_ H]%not_brace. by apply negb_true_iff, Ascii.eqb_neq.
Qed.

Lemma match_at_plain_cons c s :
  negb (Spec.is_brace c) = true → Re.match_at (String c s) = None.
Proof.
  intros [H _]%not_brace. unfold Re.match_at. cbn [Py.strip_prefix].
  rewrite Ascii.eqb_sym. apply Ascii.eqb_neq in H. by rewrite H.
Qed.

Lemma findall_plain_app t s :
  Spec.plain_text t = true → Re.findall (t ++ s) = Re.findall s.
Proof.
  induction t as [|c t IH]; [done|].
  rewrite plain_text_cons, andb_true_iff. intros [Hc Ht].
  by rewrite append_cons, findall_cons, match_at_plain_cons, IH.
Qed.

Lemma substitute_plain_app data t s :
  Spec.plain_text t = true → Spec.substitute data (t ++ s) = t ++ Spec.substitute data s.
Proof.
  induction t as [|c t IH]; [done|].
  rewrite plain_text_cons, andb_true_iff. intros [Hc Ht].
  by rewrite !append_cons, substitute_cons, match_at_plain_cons, IH.
Qed.

Lemma match_at_token n r :
  Spec.wf_seg (Spec.Tok n) = true → Re.match_at (placeholder n ++ r) = Some (n, r).
Proof.
  cbn [Spec.wf_seg]. rewrite andb_true_iff. intros [Hp Hl].
  apply match_at_placeholder; [done|]. by apply plain_no_close.
Qed.

(** The pattern finds exactly the placeholders of the segments. *)
Lemma findall_render segs :
  forallb Spec.wf_seg segs = true → Re.findall (Spec.render segs) = Spec.tokens segs.
Proof.
  induction segs as [|[t|n] segs IH]; cbn [forallb Spec.render Spec.render_seg];
    [by rewrite findall_nil|..]; rewrite andb_true_iff; intros [Hg Hsegs].
  - rewrite findall_plain_app by done. by rewrite IH.
  - rewrite placeholder_cons, findall_cons, <- placeholder_cons, match_at_token by done.
    cbn. by rewrite IH.
Qed.

Lemma substitute_render data segs :
  forallb Spec.wf_seg segs = true →
  Spec.substitute data (Spec.render segs) =
  Spec.render (Spec.expand (Spec.value_text data) <$> segs).
Proof.
  induction segs as [|[t|n] segs IH];
    cbn [forallb Spec.render Spec.render_seg fmap list_fmap Spec.expand];
    [by rewrite substitute_nil|..]; rewrite andb_true_iff; intros [Hg Hsegs].
  - rewrite substitute_plain_app by done. by rewrite IH.
  - rewrite placeholder_cons, substitute_cons, <- placeholder_cons, match_at_token by done.
    rewrite IH by done. by destruct (Spec.value_text data n).
Qed.

End segments.

(** ** [str.replace] on simple texts *)

Section replace.

Implicit Types (s t n k v r : string) (c : ascii) (segs : list Spec.seg).
Implicit Types (data : gmap string Py.PyValue).

Lemma placeholder_eq k : placeholder k = String "{" (String "{" (k ++ "}}")).
Proof. reflexivity. Qed.

Lemma replace_skip k v c s :
  c ≠ "{"%char →
  Py.replace (placeholder k) v (String c s) = String c (Py.replace (placeholder k) v s).
Proof.
  intros Hc. rewrite placeholder_eq, replace_cons. cbn [Py.strip_prefix].
  apply Ascii.eqb_neq in Hc. by rewrite Ascii.eqb_sym, Hc.
Qed.

Lemma replace_skip_open k v c s :
  c ≠ "{"%char →
  Py.replace (placeholder k) v (String "{" (String c s)) =
  String "{" (String c (Py.replace (placeholder k) v s)).
Proof.
  intros Hc. rewrite placeholder_eq, replace_cons. cbn [Py.strip_prefix].
  rewrite Ascii.eqb_refl. pose proof Hc as Hc'%Ascii.eqb_neq.
  rewrite Ascii.eqb_sym, Hc'. by rewrite <- placeholder_eq, replace_skip.
Qed.

Lemma replace_skip_app k v t s :
  Py.all_chars (λ c, negb (Ascii.eqb c "{")) t = true →
  Py.replace (placeholder k) v (t ++ s) = t ++ Py.replace (placeholder k) v s.
Proof.
  induction t as [|c t IH]; [done|]. cbn [Py.all_chars].
  rewrite andb_true_iff, negb_true_iff, Ascii.eqb_neq. intros [Hc Ht].
  by rewrite !append_cons, replace_skip, IH.
Qed.

Lemma plain_no_open n :
  Spec.plain_text n = true → Py.all_chars (λ c, negb (Ascii.eqb c "{")) n = true.
Proof.
  apply all_chars_impl. intros c [H _]%not_brace. by apply negb_true_iff, Ascii.eqb_neq.
Qed.

(** Two names without braces whose closed forms start alike are equal. *)
Lemma strip_closed_name k n r r' :
  Spec.plain_text k = true → Spec.plain_text n = true →
  Py.strip_prefix (k ++ "}}") (n ++ "}}" ++ r) = Some r' → k = n.
Proof.
  revert n. induction k as [|a k IH]; intros [|b n].
  - done.
  - rewrite plain_text_cons, andb_true_iff. intros _ [[_ Hb]%not_brace _].
    rewrite append_cons, append_empty_l. cbn [Py.strip_prefix].
    apply Ascii.eqb_neq in Hb. by rewrite Ascii.eqb_sym, Hb.
  - rewrite plain_text_cons, andb_true_iff. intros [[_ Ha]%not_brace _] _.
    rewrite append_cons, append_empty_l, close_cons. cbn [Py.strip_prefix].
    apply Ascii.eqb_neq in Ha. by rewrite Ha.
  - rewrite !plain_text_cons, !andb_true_iff. intros [_ Hk] [_ Hn].
    rewrite !append_cons. cbn [Py.strip_prefix].
    destruct (Ascii.eqb_spec a b) as [->|]; [|done].
    intros H. f_equal. by apply IH.
Qed.

Lemma replace_token_same k v r :
  Py.replace (placeholder k) v (placeholder k ++ r) = v ++ Py.replace (placeholder k) v r.
Proof.
  rewrite placeholder_cons. rewrite placeholder_eq at 1. rewrite replace_cons.
  rewrite <- placeholder_eq, <- placeholder_cons. by rewrite strip_prefix_app.
Qed.

Lemma replace_token_other k n v r :
  Spec.plain_text k = true → Spec.plain_text n = true → n ≠ k →
  Py.replace (placeholder k) v (placeholder n ++ r) =
  placeholder n ++ Py.replace (placeholder k) v r.
Proof.
  intros Hk Hn Hne.
  rewrite !placeholder_cons. rewrite placeholder_eq at 1. rewrite replace_cons.
  cbn [Py.strip_prefix]. rewrite !Ascii.eqb_refl.
  destruct (Py.strip_prefix (k ++ "}}") (n ++ "}}" ++ r)) as [r'|] eqn:E.
  { apply strip_closed_name in E; done. }
  rewrite <- placeholder_eq. f_equal.
  rewrite <- !(append_assoc n "}}").
  assert (Py.all_chars (λ c, negb (Ascii.eqb c "{")) (n ++ "}}") = true) as Ht.
  { rewrite all_chars_app, plain_no_open by done. done. }
  destruct (n ++ "}}") as [|c t] eqn:Ec.
  { by destruct n. }
  cbn [Py.all_chars] in Ht. apply andb_true_iff in Ht as [Hc Ht].
  apply negb_true_iff, Ascii.eqb_neq in Hc.
  rewrite !append_cons, replace_skip_open by done. by rewrite replace_skip_app.
Qed.

Lemma replace_render k v segs :
  Spec.plain_text k = true → forallb Spec.wf_seg segs = true →
  Py.replace (placeholder k) v (Spec.render segs) =
  Spec.render (Spec.expand (one k v) <$> segs).
Proof.
  intros Hk. induction segs as [|[t|n] segs IH];
    cbn [forallb Spec.render Spec.render_seg fmap list_fmap Spec.expand Spec.wf_seg].
  - intros _. by rewrite placeholder_eq, replace_nil.
  - rewrite andb_true_iff. intros [Ht Hsegs].
    rewrite replace_skip_app by by apply plain_no_open. by rewrite IH.
  - rewrite !andb_true_iff. intros [[Hn _] Hsegs]. unfold one at 1.
    destruct (decide (n = k)) as [->|Hne].
    + rewrite replace_token_same. by rewrite IH.
    + rewrite replace_token_other by done. by rewrite IH.
Qed.

Lemma expand_ext f g segs :
  (∀ n, n ∈ Spec.tokens segs → f n = g n) →
  Spec.expand f <$> segs = Spec.expand g <$> segs.
Proof.
  induction segs as [|[t|n] segs IH]; intros Hfg; [done|..]; cbn.
  - f_equal. by apply IH.
  - rewrite Hfg by (cbn; left). f_equal. apply IH. intros m Hm. apply Hfg. cbn. by right.
Qed.

Lemma expand_none segs : Spec.expand (λ _, None) <$> segs = segs.
Proof. induction segs as [|[t|n] segs IH]; [done|..]; cbn; by f_equal. Qed.

Lemma expand_expand f g segs :
  Spec.expand g <$> (Spec.expand f <$> segs) =
  Spec.expand (λ n, match f n with Some v => Some v | None => g n end) <$> segs.
Proof.
  induction segs as [|[t|n] segs IH]; [done|..]; cbn; rewrite IH; [done|].
  by destruct (f n).
Qed.

Lemma expand_wf f segs :
  (∀ n v, f n = Some v → Spec.plain_text v = true) →
  forallb Spec.wf_seg segs = true → forallb Spec.wf_seg (Spec.expand f <$> segs) = true.
Proof.
  intros Hf. induction segs as [|[t|n] segs IH]; [done|..]; cbn [forallb fmap list_fmap];
    rewrite !andb_true_iff; intros [Hg Hsegs]; (split; [|by apply IH]); [done|].
  cbn [Spec.expand]. destruct (f n) as [v|] eqn:E; [|done]. cbn. by eapply Hf.
Qed.

Lemma tokens_wf segs n :
  forallb Spec.wf_seg segs = true → n ∈ Spec.tokens segs → Spec.wf_seg (Spec.Tok n) = true.
Proof.
  induction segs as [|[t|m] segs IH]; cbn [forallb Spec.tokens omap list_omap];
    [by intros _ ?%elem_of_nil|..]; rewrite andb_true_iff; intros [Hg Hsegs]; [by apply IH|].
  intros [->|?]%elem_of_cons; [done|by apply IH].
Qed.

Lemma plain_data_lookup data (name : string) (pv : Py.PyValue) :
  Spec.plain_data data → data !! name = Some pv →
  ∃ t, Py.str pv = inr t ∧ Spec.plain_text t = true ∧ Spec.single_line t = true.
Proof.
  intros Hd Hv. specialize (Hd name pv Hv). unfold Spec.plain_value in Hd. cbn beta in Hd.
  destruct (Py.str pv) as [|t]; [done|].
  apply andb_true_iff in Hd as [[? ?]%andb_true_iff _]. by exists t.
Qed.

Lemma plain_data_printable data (name : string) (pv : Py.PyValue) t :
  Spec.plain_data data → data !! name = Some pv → Py.str pv = inr t →
  Spec.printable t = true.
Proof.
  intros Hd Hv Ht. specialize (Hd name pv Hv). unfold Spec.plain_value in Hd. cbn beta in Hd.
  rewrite Ht in Hd. by apply andb_true_iff in Hd as [_ ?].
Qed.

Lemma replace_matches_render data ns segs count :
  Spec.plain_data data → forallb Spec.wf_seg segs = true →
  Forall (λ n, Spec.plain_text n = true) ns →
  replace_matches data ns (Spec.render segs) count =
  Returns (Spec.render (Spec.expand (chosen data ns) <$> segs), (count + matched data ns)%Z).
Proof.
  intros Hd. revert segs count.
  induction ns as [|m ns IH]; intros segs count Hsegs Hns; cbn [replace_matches].
  { unfold matched. cbn. rewrite Z.add_0_r. do 3 f_equal.
    rewrite <- (expand_none segs) at 1. apply expand_ext. intros n _.
    unfold chosen. by rewrite decide_False by apply not_elem_of_nil. }
  apply Forall_cons in Hns as [Hm Hns].
  destruct (data !! m) as [v|] eqn:Em.
  - destruct (plain_data_lookup _ _ _ Hd Em) as (t & Ht & Hplain & _). rewrite Ht.
    rewrite replace_render by done. rewrite IH; [|apply expand_wf; [|done]|done].
    2:{ intros n v'. unfold one. case_decide; [|done]. by intros [= <-]. }
    rewrite expand_expand. f_equal. f_equal.
    + f_equal. apply expand_ext. intros n _. unfold one, chosen.
      destruct (decide (n = m)) as [->|Hne].
      * rewrite decide_True by left. unfold Spec.value_text. by rewrite Em, Ht.
      * destruct (decide (n ∈ ns)) as [Hin|Hin].
        -- by rewrite decide_True by by right.
        -- rewrite decide_False; [done|]. by intros [?|?]%elem_of_cons.
    + unfold matched. rewrite filter_cons_True by by rewrite Em. cbn [length]. lia.
  - rewrite IH by done. f_equal. f_equal.
    + f_equal. apply expand_ext. intros n _. unfold chosen.
      destruct (decide (n = m)) as [->|Hne].
      * rewrite (decide_True (P := m ∈ m :: ns)) by left.
        unfold Spec.value_text. rewrite Em. by case_decide.
      * destruct (decide (n ∈ ns)) as [Hin|Hin].
        -- by rewrite decide_True by by right.
        -- rewrite decide_False; [done|]. by intros [?|?]%elem_of_cons.
    + unfold matched. rewrite filter_cons_False; [done|]. rewrite Em. by intros [? ?].
Qed.

(** On a simple text and plain values the replacement loop computes the
    token-wise substitution and counts the matched occurrences. *)
Lemma replace_matches_simple data s :
  Spec.plain_data data → Spec.simple_text s = true →
  replace_matches data (Re.findall s) s 0 =
  Returns (Spec.substitute data s, Spec.occurrences data s).
Proof.
  intros Hd (segs & Hsegs & ->)%simple_text_segs.
  rewrite replace_matches_render; [|done..|].
  2:{ rewrite findall_render by done. apply Forall_forall. intros n Hn.
      pose proof (tokens_wf _ _ Hsegs Hn) as Hwf. cbn in Hwf.
      by apply andb_true_iff in Hwf as [? _]. }
  rewrite substitute_render by done. unfold Spec.occurrences, matched.
  rewrite Z.add_0_l. do 3 f_equal. rewrite findall_render by done.
  apply expand_ext. intros n Hn. unfold chosen. by rewrite decide_True.
Qed.

End replace.

(** ** Texts of paragraphs and text frames *)

Section texts.

Implicit Types (s t : string) (c : ascii) (data : gmap string Py.PyValue).

Lemma concat_cons_cons sep (x y : string) l :
  String.concat sep (x :: y :: l) = x ++ sep ++ String.concat sep (y :: l).
Proof. reflexivity. Qed.

Lemma concat_empty_cons (x : string) l :
  String.concat "" (x :: l) = x ++ String.concat "" l.
Proof. destruct l; [by rewrite append_empty_r|done]. Qed.

Lemma paragraph_text_app (p1 p2 : Paragraph) :
  paragraph_text (p1 ++ p2) = paragraph_text p1 ++ paragraph_text p2.
Proof.
  unfold paragraph_text. induction p1 as [|i p1 IH]; [done|].
  cbn [app fmap list_fmap]. fold (fmap (M:=list) inline_text).
  by rewrite !concat_empty_cons, IH, append_assoc.
Qed.

Lemma paragraph_text_run_of t : paragraph_text (run_of t) = escape t.
Proof. by destruct t. Qed.

Lemma written_cons c s :
  Spec.written (String c s) =
  (if Spec.escaped c then escape_char c else String c "") ++ Spec.written s.
Proof. reflexivity. Qed.

Lemma escape_cons c s :
  escape (String c s) = (if is_control c then escape_char c else String c "") ++ escape s.
Proof. reflexivity. Qed.

Lemma written_app s t : Spec.written (s ++ t) = Spec.written s ++ Spec.written t.
Proof.
  induction s as [|c s IH]; [by rewrite !append_empty_l|].
  by rewrite append_cons, !written_cons, IH, append_assoc.
Qed.

(** The setter of a run's text sees no vertical tab: it escapes what a
    write changes. *)
Lemma escape_written piece :
  Py.all_chars (λ c, negb (is_break c)) piece = true → escape piece = Spec.written piece.
Proof.
  induction piece as [|c piece IH]; [done|]. cbn [Py.all_chars].
  rewrite andb_true_iff, negb_true_iff. intros [Hc Hpiece].
  rewrite escape_cons, written_cons, IH by done. unfold Spec.escaped.
  unfold is_break in Hc. apply orb_false_iff in Hc as [_ ->].
  by rewrite andb_true_r.
Qed.

(** A text without a character that a write changes is written as it is. *)
Lemma written_printable t : Spec.printable t = true → Spec.written t = t.
Proof.
  unfold Spec.printable. induction t as [|c t IH]; [done|]. cbn [Py.all_chars].
  rewrite andb_true_iff, negb_true_iff. intros [Hc Ht].
  by rewrite written_cons, Hc, IH.
Qed.

Lemma split_on_pieces sep s piece :
  piece ∈ Py.split_on sep s → Py.all_chars (λ c, negb (sep c)) piece = true.
Proof.
  revert piece. induction s as [|c s IH]; intros piece; cbn [Py.split_on].
  { by intros ->%list_elem_of_singleton. }
  destruct (sep c) eqn:Hc.
  - intros [->|?]%elem_of_cons; [done|by apply IH].
  - destruct (Py.split_on sep s) as [|y ys]; [by intros ->%list_elem_of_singleton; cbn; rewrite Hc|].
    intros [->|?]%elem_of_cons.
    + cbn [Py.all_chars]. rewrite Hc. apply IH. by left.
    + apply IH. by right.
Qed.

Lemma split_on_nonempty sep s : Py.split_on sep s ≠ [].
Proof.
  destruct s as [|c s]; [done|]. cbn [Py.split_on].
  destruct (sep c); [done|]. by destruct (Py.split_on sep s).
Qed.

Lemma join_split c s :
  Py.join (String c "") (Py.split_on (λ c', Ascii.eqb c' c) s) = s.
Proof.
  unfold Py.join. induction s as [|a s IH]; [done|]. cbn [Py.split_on].
  destruct (Ascii.eqb_spec a c) as [->|Hne].
  - destruct (Py.split_on _ s) as [|y ys] eqn:E; [by apply split_on_nonempty in E|].
    by rewrite concat_cons_cons, IH.
  - destruct (Py.split_on _ s) as [|y [|y' ys]] eqn:E;
      [by apply split_on_nonempty in E|by rewrite <- IH|].
    rewrite concat_cons_cons in *. by rewrite append_cons, IH.
Qed.

Lemma split_glue t :
  Spec.single_line t = true →
  ∃ piece pieces, Py.split_on is_break t = piece :: pieces ∧ piece ++ glue pieces = t.
Proof.
  induction t as [|c t IH]; [by exists "", []|].
  rewrite single_line_cons, andb_true_iff, negb_true_iff. intros [Hc Ht].
  destruct (IH Ht) as (y & ys & Hs & Hg). cbn [Py.split_on]. rewrite Hs.
  unfold is_break at 1. rewrite Hc, orb_false_l.
  destruct (Ascii.eqb_spec c vtab) as [->|Hv].
  - exists "", (y :: ys). split; [done|]. cbn [glue]. by rewrite append_empty_l, append_cons, Hg.
  - exists (String c y), ys. split; [done|]. by rewrite append_cons, Hg.
Qed.

Lemma paragraph_text_pieces pieces :
  Forall (λ piece, Py.all_chars (λ c, negb (is_break c)) piece = true) pieces →
  paragraph_text (pieces ≫= λ piece, LineBreak :: run_of piece) = Spec.written (glue pieces).
Proof.
  induction 1 as [|y ys Hy _ IH]; [done|]. cbn [mbind list_bind glue].
  change (LineBreak :: run_of y) with ([LineBreak] ++ run_of y)%list.
  rewrite !paragraph_text_app, paragraph_text_run_of, escape_written by done.
  fold (mbind (M:=list) (λ piece, LineBreak :: run_of piece)). rewrite IH.
  by rewrite append_cons, written_cons, written_app, append_assoc.
Qed.

(** The text a paragraph reads after a single line was written to it. *)
Lemma paragraph_text_append_text t :
  Spec.single_line t = true → paragraph_text (append_text t) = Spec.written t.
Proof.
  intros Hl. destruct (split_glue t Hl) as (y & ys & Hs & Hg).
  assert (Forall (λ piece, Py.all_chars (λ c, negb (is_break c)) piece = true) (y :: ys))
    as [Hy Hys]%Forall_cons.
  { apply Forall_forall. intros piece Hpiece. apply (split_on_pieces _ t). by rewrite Hs. }
  unfold append_text. rewrite Hs.
  rewrite paragraph_text_app, paragraph_text_run_of, paragraph_text_pieces by done.
  by rewrite escape_written, <- written_app, Hg.
Qed.

Lemma written_join_newline pieces :
  Spec.written (Py.join (String Re.newline "") pieces) =
  Py.join (String Re.newline "") (Spec.written <$> pieces).
Proof.
  unfold Py.join. induction pieces as [|y [|y' ys] IH]; [done|done|].
  cbn [fmap list_fmap] in *. rewrite !concat_cons_cons, !written_app, IH. done.
Qed.

(** The text a text frame reads after a text was written to it. *)
Lemma text_frame_text_set tf t :
  text_frame_text (set_text_frame_text tf t) = Spec.written t.
Proof.
  unfold text_frame_text, set_text_frame_text. rewrite <- list_fmap_compose.
  rewrite <- (join_split Re.newline t) at 2. rewrite written_join_newline. f_equal.
  apply Forall_fmap_ext_1, Forall_forall. intros piece Hpiece. cbn.
  apply paragraph_text_append_text. by apply split_on_pieces in Hpiece.
Qed.

(** The placeholders of a text frame are those of its paragraphs. *)
Lemma findall_text_frame_text (tf : TextFrame) :
  Re.findall (text_frame_text tf) = tf ≫= λ p, Re.findall (paragraph_text p).
Proof.
  unfold text_frame_text. rewrite findall_join.
  induction tf as [|p tf IH]; [done|]. cbn. by rewrite IH.
Qed.

Lemma unmatched_paragraph data (tf : TextFrame) p :
  Spec.unmatched data (text_frame_text tf) → p ∈ tf →
  Spec.unmatched data (paragraph_text p).
Proof.
  intros Hu Hp n Hn. apply Hu. rewrite findall_text_frame_text.
  apply list_elem_of_bind. by exists p.
Qed.

End texts.

(** ** The passes over paragraphs, text frames and tables *)

Section passes.

Implicit Types (s t : string) (data : gmap string Py.PyValue) (p : Paragraph).
Implicit Types (segs : list Spec.seg).

Lemma value_text_None data n :
  Spec.plain_data data → Spec.value_text data n = None ↔ data !! n = None.
Proof.
  intros Hd. unfold Spec.value_text. destruct (data !! n) as [v|] eqn:E; [|done].
  destruct (plain_data_lookup _ _ _ Hd E) as (t & -> & _). done.
Qed.

Lemma value_text_plain data n t :
  Spec.plain_data data → Spec.value_text data n = Some t →
  Spec.plain_text t = true ∧ Spec.single_line t = true.
Proof.
  intros Hd. unfold Spec.value_text. destruct (data !! n) as [v|] eqn:E; [|done].
  destruct (plain_data_lookup _ _ _ Hd E) as (t' & -> & ? & ?). by intros [= <-].
Qed.

Lemma tokens_expand data segs :
  Spec.plain_data data →
  Spec.tokens (Spec.expand (Spec.value_text data) <$> segs) =
  filter (λ n, data !! n = None) (Spec.tokens segs).
Proof.
  intros Hd. induction segs as [|[t|n] segs IH]; [done|by cbn|].
  cbn [fmap list_fmap Spec.expand]. fold (fmap (M:=list) (Spec.expand (Spec.value_text data))).
  change (Spec.tokens (Spec.Tok n :: segs)) with (n :: Spec.tokens segs).
  destruct (Spec.value_text data n) as [v|] eqn:E.
  - rewrite filter_cons_False; [by rewrite <- IH|].
    intros Hn%(value_text_None _ _ Hd). congruence.
  - rewrite filter_cons_True by by apply (value_text_None _ _ Hd).
    change (Spec.tokens (Spec.Tok n :: ?l)) with (n :: Spec.tokens l). by rewrite IH.
Qed.

(** After the token-wise substitution the placeholders without a key are
    left, in their order. *)
Lemma findall_substitute data s :
  Spec.plain_data data → Spec.simple_text s = true →
  Re.findall (Spec.substitute data s) = filter (λ n, data !! n = None) (Re.findall s).
Proof.
  intros Hd (segs & Hsegs & ->)%simple_text_segs.
  rewrite substitute_render, !findall_render, tokens_expand; try done.
  apply expand_wf; [|done]. intros n v Hv. by apply (value_text_plain data n).
Qed.

Lemma substitute_unmatched data s :
  Spec.plain_data data → Spec.simple_text s = true →
  Spec.unmatched data (Spec.substitute data s).
Proof.
  intros Hd Hs n. rewrite findall_substitute by done.
  by intros [? _]%list_elem_of_filter.
Qed.

Lemma single_line_render segs :
  Spec.single_line (Spec.render segs) =
  forallb (λ g, Spec.single_line (Spec.render_seg g)) segs.
Proof.
  induction segs as [|g segs IH]; [done|]. cbn [Spec.render forallb].
  unfold Spec.single_line in *. by rewrite all_chars_app, IH.
Qed.

Lemma substitute_single_line data s :
  Spec.plain_data data → Spec.simple_text s = true → Spec.single_line s = true →
  Spec.single_line (Spec.substitute data s) = true.
Proof.
  intros Hd (segs & Hsegs & ->)%simple_text_segs.
  rewrite substitute_render, !single_line_render by done. clear Hsegs.
  induction segs as [|[t|n] segs IH]; [done|..]; cbn [forallb fmap list_fmap Spec.expand];
    rewrite !andb_true_iff; intros [Hg Hl]; (split; [|by apply IH]); [done|].
  destruct (Spec.value_text data n) as [v|] eqn:E; [|done].
  cbn. by apply (value_text_plain data n).
Qed.

Lemma value_text_printable data n t :
  Spec.plain_data data → Spec.value_text data n = Some t → Spec.printable t = true.
Proof.
  intros Hd. unfold Spec.value_text. destruct (data !! n) as [v|] eqn:E; [|done].
  destruct (Py.str v) as [|t'] eqn:Ev; [done|]. intros [= <-].
  by apply (plain_data_printable data n v).
Qed.

Lemma printable_render segs :
  Spec.printable (Spec.render segs) =
  forallb (λ g, Spec.printable (Spec.render_seg g)) segs.
Proof.
  induction segs as [|g segs IH]; [done|]. cbn [Spec.render forallb].
  unfold Spec.printable in *. by rewrite all_chars_app, IH.
Qed.

(** The substitution of plain values brings in no character that a write
    changes. *)
Lemma substitute_printable data s :
  Spec.plain_data data → Spec.simple_text s = true → Spec.printable s = true →
  Spec.printable (Spec.substitute data s) = true.
Proof.
  intros Hd (segs & Hsegs & ->)%simple_text_segs.
  rewrite substitute_render, !printable_render by done. clear Hsegs.
  induction segs as [|[t|n] segs IH]; [done|..]; cbn [forallb fmap list_fmap Spec.expand];
    rewrite !andb_true_iff; intros [Hg Hl]; (split; [|by apply IH]); [done|].
  destruct (Spec.value_text data n) as [v|] eqn:E; [|done].
  cbn. by apply (value_text_printable data n).
Qed.

Lemma occurrences_unmatched data s :
  Spec.unmatched data s → Spec.occurrences data s = 0%Z.
Proof.
  unfold Spec.unmatched, Spec.occurrences. generalize (Re.findall s). intros ns Hns.
  induction ns as [|n ns IH]; [done|].
  rewrite filter_cons_False.
  - apply IH. intros m Hm. apply Hns. by right.
  - rewrite Hns by left. by intros [? ?].
Qed.

Lemma replace_matches_unmatched data (ns : list string) t count :
  (∀ n, n ∈ ns → data !! n = None) → replace_matches data ns t count = Returns (t, count).
Proof.
  induction ns as [|n ns IH]; intros Hns; [done|]. cbn [replace_matches].
  rewrite Hns by left. apply IH. intros m Hm. apply Hns. by right.
Qed.

Lemma replace_in_paragraph_unmatched data p :
  Spec.unmatched data (paragraph_text p) → replace_in_paragraph data p = (p, Returns 0%Z).
Proof.
  intros Hu. unfold replace_in_paragraph. rewrite replace_matches_unmatched by done.
  by rewrite decide_False by (by intros ?).
Qed.

Lemma for_each_id {X} (body : X → X * outcome Z) xs count :
  (∀ x, x ∈ xs → body x = (x, Returns 0%Z)) → for_each body xs count = (xs, Returns count).
Proof.
  revert count. induction xs as [|x xs IH]; intros count Hxs; [done|].
  cbn [for_each]. rewrite Hxs by left. rewrite Z.add_0_r, IH; [done|].
  intros y Hy. apply Hxs. by right.
Qed.

(** A text frame without a matched placeholder is left as it is. *)
Lemma replace_in_text_frame_unmatched data (tf : TextFrame) :
  Spec.unmatched data (text_frame_text tf) →
  _replace_in_text_frame tf data = (tf, Returns 0%Z).
Proof.
  intros Hu. unfold _replace_in_text_frame. case_decide; [done|].
  rewrite replace_matches_unmatched by done.
  rewrite decide_False by (by intros ?).
  apply for_each_id. intros p Hp. apply replace_in_paragraph_unmatched.
  by apply (unmatched_paragraph data tf).
Qed.

(** On a simple single line the paragraph pass substitutes token-wise. *)
Lemma replace_in_paragraph_simple data p :
  Spec.plain_data data → Spec.simple_paragraph p = true →
  ∃ p', replace_in_paragraph data p =
          (p', Returns (Spec.occurrences data (paragraph_text p))) ∧
        paragraph_text p' = Spec.substitute data (paragraph_text p).
Proof.
  intros Hd [[Hs Hl]%andb_true_iff Hp]%andb_true_iff.
  unfold replace_in_paragraph. rewrite replace_matches_simple by done.
  case_decide as Hne.
  - eexists. split; [done|]. unfold set_paragraph_text.
    rewrite paragraph_text_append_text by by apply substitute_single_line.
    by apply written_printable, substitute_printable.
  - exists p. split; [done|]. by rewrite Hne.
Qed.

(** On a simple text the pass over a text frame substitutes token-wise. *)
Lemma replace_in_text_frame_simple data (tf : TextFrame) :
  Spec.plain_data data → Spec.simple_text (text_frame_text tf) = true →
  Spec.printable (text_frame_text tf) = true →
  ∃ tf', _replace_in_text_frame tf data =
           (tf', Returns (Spec.occurrences data (text_frame_text tf))) ∧
         text_frame_text tf' = Spec.substitute data (text_frame_text tf).
Proof.
  intros Hd Hs Hp. unfold _replace_in_text_frame. case_decide as Hempty.
  { exists tf. rewrite Hempty. by rewrite substitute_nil. }
  rewrite replace_matches_simple by done.
  pose proof (substitute_unmatched data _ Hd Hs) as Hu.
  pose proof (written_printable _ (substitute_printable data _ Hd Hs Hp)) as Hw.
  case_decide as Hne.
  - exists (set_text_frame_text tf (Spec.substitute data (text_frame_text tf))).
    split; [|by rewrite text_frame_text_set].
    apply for_each_id. intros p Hp'. apply replace_in_paragraph_unmatched.
    eapply unmatched_paragraph; [|done]. by rewrite text_frame_text_set, Hw.
  - exists tf. split; [|done].
    rewrite Hne in Hu. rewrite (occurrences_unmatched _ _ Hu).
    apply for_each_id. intros p Hp'. apply replace_in_paragraph_unmatched.
    by eapply unmatched_paragraph.
Qed.

End passes.

(** ** The pass over a presentation *)

Section presentation.

Implicit Types (data : gmap string Py.PyValue) (sh : Shape) (prs : Presentation).

Lemma for_each_spec {X} (R : X → X → Prop) (f : X → Z) (body : X → X * outcome Z) xs count :
  Forall (λ x, ∃ x', body x = (x', Returns (f x)) ∧ R x x') xs →
  ∃ xs', for_each body xs count = (xs', Returns (count + Spec.sumZ (f <$> xs))%Z) ∧
         Forall2 R xs xs'.
Proof.
  revert count. induction xs as [|x xs IH]; intros count Hxs.
  { exists []. cbn. by rewrite Z.add_0_r. }
  apply Forall_cons in Hxs as [(x' & Hx & HR) Hxs].
  destruct (IH (count + f x)%Z Hxs) as (xs' & Hfor & HR').
  exists (x' :: xs'). cbn [for_each]. rewrite Hx, Hfor. split; [|by constructor].
  do 2 f_equal. change (Spec.sumZ (f <$> x :: xs)) with (f x + Spec.sumZ (f <$> xs))%Z. lia.
Qed.

Lemma for_each_kept {X} (R : X → X → Prop) (body : X → X * outcome Z) xs count :
  (∀ x, R x x) → Forall (λ x, R x (body x).1) xs →
  Forall2 R xs (for_each body xs count).1.
Proof.
  intros Hrefl. revert count. induction xs as [|x xs IH]; intros count Hxs; [constructor|].
  apply Forall_cons in Hxs as [Hx Hxs]. cbn [for_each].
  destruct (body x) as [x' [n|e]]; cbn in Hx.
  - specialize (IH (count + n)%Z Hxs). destruct (for_each body xs (count + n)) as [xs' r].
    by constructor.
  - constructor; [done|]. clear -Hrefl. induction xs; by constructor.
Qed.

Lemma replace_in_table_simple data (tbl : Table) :
  Spec.plain_data data →
  forallb (forallb (forallb Spec.simple_paragraph)) tbl = true →
  ∃ tbl', _replace_in_table tbl data = (tbl', Returns (Spec.table_occurrences data tbl)) ∧
          Forall2 (Forall2 (Forall2 (Spec.paragraph_substituted data))) tbl tbl'.
Proof.
  intros Hd Htbl. unfold _replace_in_table, Spec.table_occurrences.
  rewrite <- (Z.add_0_l (Spec.sumZ _)). apply for_each_spec.
  apply Forall_forall. intros row Hrow.
  rewrite forallb_forall in Htbl. specialize (Htbl row (proj1 (list_elem_of_In _ _) Hrow)).
  rewrite <- (Z.add_0_l (Spec.sumZ _)). apply for_each_spec.
  apply Forall_forall. intros cell Hcell.
  rewrite forallb_forall in Htbl. specialize (Htbl cell (proj1 (list_elem_of_In _ _) Hcell)).
  rewrite <- (Z.add_0_l (Spec.sumZ _)). apply for_each_spec.
  apply Forall_forall. intros p Hp.
  rewrite forallb_forall in Htbl. specialize (Htbl p (proj1 (list_elem_of_In _ _) Hp)).
  by apply replace_in_paragraph_simple.
Qed.

Lemma replace_in_shape_simple data sh :
  Spec.plain_data data → Spec.simple_shape sh = true →
  ∃ sh', replace_in_shape data sh = (sh', Returns (Spec.shape_occurrences data sh)) ∧
         Spec.shape_substituted data sh sh'.
Proof.
  intros Hd. destruct sh as [id ty tf tbl].
  unfold Spec.simple_shape, replace_in_shape, Spec.shape_occurrences, Spec.shape_substituted.
  cbn [text_frame table shape_id shape_type]. rewrite andb_true_iff. intros [Htf Htbl].
  assert (∃ tf' n, match tf with
                   | Some tf0 => let '(tf', r) := _replace_in_text_frame tf0 data in (Some tf', r)
                   | None => (None, Returns 0%Z)
                   end = (tf', Returns n) ∧
                   n = match tf with
                       | Some tf0 => Spec.occurrences data (text_frame_text tf0)
                       | None => 0%Z
                       end ∧
                   option_Forall2 (Spec.frame_substituted data) tf tf') as (tf' & n & -> & -> & Hf).
  { destruct tf as [tf0|].
    - apply andb_true_iff in Htf as [Htf Hp].
      destruct (replace_in_text_frame_simple data tf0 Hd Htf Hp) as (tf' & -> & Htext).
      exists (Some tf'). eexists. split; [done|]. split; [done|]. by constructor.
    - exists None. eexists. split; [done|]. split; [done|]. constructor. }
  destruct tbl as [tbl0|].
  - destruct (replace_in_table_simple data tbl0 Hd Htbl) as (tbl' & -> & Htable).
    eexists. split; [done|]. cbn. repeat split; [done|]. by constructor.
  - eexists. split; [by rewrite Z.add_0_r|]. cbn. repeat split; [done|]. constructor.
Qed.

(** On a simple presentation and plain values [replace_placeholders]
    substitutes token-wise and returns the number of matched occurrences. *)
Lemma replace_placeholders_simple self prs data :
  presentation self = Some prs → Spec.plain_data data → Spec.simple_presentation prs = true →
  ∃ prs', replace_placeholders self data =
            (mkGenerator (Some prs') (template_path self),
             Returns (Spec.presentation_occurrences data prs)) ∧
          Spec.presentation_substituted data prs prs'.
Proof.
  intros Hprs Hd Hs. unfold replace_placeholders, replace_placeholders_body. rewrite Hprs.
  destruct (for_each_spec (Forall2 (Spec.shape_substituted data))
              (λ slide, Spec.sumZ (Spec.shape_occurrences data <$> slide))
              (λ slide, for_each (replace_in_shape data) slide 0) (slides prs) 0)
    as (slides' & Hfor & HR).
  { apply Forall_forall. intros slide Hslide. unfold Spec.simple_presentation in Hs.
    rewrite forallb_forall in Hs. specialize (Hs slide (proj1 (list_elem_of_In _ _) Hslide)).
    rewrite <- (Z.add_0_l (Spec.sumZ _)). apply for_each_spec.
    apply Forall_forall. intros sh Hsh.
    rewrite forallb_forall in Hs. specialize (Hs sh (proj1 (list_elem_of_In _ _) Hsh)).
    by apply replace_in_shape_simple. }
  rewrite Hfor. exists (mkPresentation slides'). split; [|done].
  cbn. by rewrite Z.add_0_l.
Qed.

Lemma replace_in_shape_unmatched data sh :
  Spec.shape_unmatched data sh → replace_in_shape data sh = (sh, Returns 0%Z).
Proof.
  destruct sh as [id ty tf tbl]. intros [Htf Htbl]. cbn in Htf, Htbl.
  unfold replace_in_shape. cbn [text_frame table shape_id shape_type].
  assert (match tf with
          | Some tf0 => let '(tf', r) := _replace_in_text_frame tf0 data in (Some tf', r)
          | None => (None, Returns 0%Z)
          end = (tf, Returns 0%Z)) as ->.
  { destruct tf as [tf0|]; [|done]. by rewrite replace_in_text_frame_unmatched by by apply Htf. }
  destruct tbl as [tbl0|]; [|done].
  unfold _replace_in_table. rewrite for_each_id; [done|].
  specialize (Htbl tbl0 eq_refl). rewrite Forall_forall in Htbl.
  intros row Hrow. specialize (Htbl row Hrow). rewrite Forall_forall in Htbl.
  apply for_each_id. intros cell Hcell. specialize (Htbl cell Hcell).
  rewrite Forall_forall in Htbl.
  apply for_each_id. intros p Hp. apply replace_in_paragraph_unmatched. by apply Htbl.
Qed.

(** Without a matched placeholder [replace_placeholders] changes nothing
    and returns 0. *)
Lemma replace_placeholders_unmatched self prs data :
  presentation self = Some prs → Spec.presentation_unmatched data prs →
  replace_placeholders self data = (self, Returns 0%Z).
Proof.
  intros Hprs Hu. unfold replace_placeholders, replace_placeholders_body. rewrite Hprs.
  rewrite for_each_id.
  - destruct self as [? ?], prs as [?]. cbn in *. by rewrite Hprs.
  - unfold Spec.presentation_unmatched in Hu. rewrite Forall_forall in Hu.
    intros slide Hslide. specialize (Hu slide Hslide). rewrite Forall_forall in Hu.
    apply for_each_id. intros sh Hsh. apply replace_in_shape_unmatched. by apply Hu.
Qed.

(** After the token-wise substitution of a simple presentation no matched
    placeholder is left. *)
Lemma substituted_unmatched data prs prs' :
  Spec.plain_data data → Spec.simple_presentation prs = true →
  Spec.presentation_substituted data prs prs' → Spec.presentation_unmatched data prs'.
Proof.
  intros Hd Hs HR. unfold Spec.presentation_unmatched, Spec.presentation_substituted in *.
  unfold Spec.simple_presentation in Hs. revert Hs.
  induction HR as [|slide slide' ? ? Hslide _ IH]; [constructor|].
  cbn [forallb]. rewrite andb_true_iff. intros [Hs Hss]. constructor; [|by apply IH].
  clear IH Hss. revert Hs.
  induction Hslide as [|sh sh' ? ? Hsh _ IH]; [constructor|].
  cbn [forallb]. rewrite andb_true_iff. intros [Hs Hss]. constructor; [|by apply IH].
  clear IH Hss. destruct Hsh as (_ & _ & Hf & Ht).
  unfold Spec.simple_shape in Hs. apply andb_true_iff in Hs as [Hsf Hst]. split.
  - intros tf' Etf'. rewrite Etf' in Hf. inversion Hf as [tf ? Htext E1 E2|]; subst.
    rewrite <- E1 in Hsf. apply andb_true_iff in Hsf as [Hsf _].
    unfold Spec.frame_substituted in Htext. rewrite Htext.
    by apply substitute_unmatched.
  - intros tbl' Etbl'. rewrite Etbl' in Ht. inversion Ht as [tbl ? Htable E1 E2|]; subst.
    rewrite <- E1 in Hst. clear -Hd Hst Htable. revert Hst.
    induction Htable as [|row row' ? ? Hrow _ IH]; [constructor|].
    cbn [forallb]. rewrite andb_true_iff. intros [Hs Hss]. constructor; [|by apply IH].
    clear IH Hss. revert Hs.
    induction Hrow as [|cell cell' ? ? Hcell _ IH]; [constructor|].
    cbn [forallb]. rewrite andb_true_iff. intros [Hs Hss]. constructor; [|by apply IH].
    clear IH Hss. revert Hs.
    induction Hcell as [|p p' ? ? Hp _ IH]; [constructor|].
    cbn [forallb]. unfold Spec.simple_paragraph at 1. rewrite !andb_true_iff.
    intros [[[Hs Hl] _] Hss]. constructor; [|by apply IH].
    unfold Spec.paragraph_substituted in Hp. rewrite Hp. by apply substitute_unmatched.
Qed.

Lemma paragraph_kept_refl data (p : Paragraph) : Spec.paragraph_kept data p p.
Proof. by intros _. Qed.

Lemma Forall2_refl {X} (R : X → X → Prop) (xs : list X) :
  (∀ x, R x x) → Forall2 R xs xs.
Proof. intros H. induction xs; by constructor. Qed.

Lemma replace_in_shape_kept data sh : Spec.shape_kept data sh (replace_in_shape data sh).1.
Proof.
  destruct sh as [id ty tf tbl]. unfold replace_in_shape, Spec.shape_kept.
  cbn [text_frame table shape_id shape_type].
  assert (option_Forall2 (Spec.frame_kept data) tf
            (match tf with
             | Some tf0 => let '(tf', r) := _replace_in_text_frame tf0 data in (Some tf', r)
             | None => (None, Returns 0%Z)
             end).1) as Hf.
  { destruct tf as [tf0|]; [|constructor].
    destruct (_replace_in_text_frame tf0 data) as [tf' r] eqn:E. constructor.
    intros Hu. rewrite replace_in_text_frame_unmatched in E by done. congruence. }
  assert (∀ tbl0, Forall2 (Forall2 (Forall2 (Spec.paragraph_kept data))) tbl0
                    (_replace_in_table tbl0 data).1) as Ht.
  { intros tbl0. unfold _replace_in_table.
    apply for_each_kept.
    { intros row. apply Forall2_refl. intros cell. apply Forall2_refl, paragraph_kept_refl. }
    apply Forall_forall. intros row _. apply for_each_kept.
    { intros cell. apply Forall2_refl, paragraph_kept_refl. }
    apply Forall_forall. intros cell _. apply for_each_kept; [apply paragraph_kept_refl|].
    apply Forall_forall. intros p _ Hu. by rewrite replace_in_paragraph_unmatched. }
  destruct (match tf with Some _ => _ | None => _ end) as [tf' [n1|e]]; cbn in Hf.
  - destruct tbl as [tbl0|].
    + specialize (Ht tbl0). destruct (_replace_in_table tbl0 data) as [tbl' r2].
      cbn. repeat split; [done|]. by constructor.
    + cbn. repeat split; [done|]. constructor.
  - cbn. repeat split; [done|]. destruct tbl as [tbl0|]; constructor.
    apply Forall2_refl. intros row. apply Forall2_refl. intros cell.
    apply Forall2_refl, paragraph_kept_refl.
Qed.

Lemma shape_kept_refl data sh : Spec.shape_kept data sh sh.
Proof.
  destruct sh as [id ty tf tbl]. unfold Spec.shape_kept. cbn. repeat split.
  - destruct tf; constructor. by intros _.
  - destruct tbl; constructor. apply Forall2_refl. intros row. apply Forall2_refl.
    intros cell. apply Forall2_refl, paragraph_kept_refl.
Qed.

(** Whatever the outcome, [replace_placeholders] keeps the shapes in place
    and leaves every text without a matched placeholder as it is. *)
Lemma replace_placeholders_kept self prs data :
  presentation self = Some prs →
  ∃ prs', (replace_placeholders self data).1 = mkGenerator (Some prs') (template_path self) ∧
          Spec.presentation_kept data prs prs'.
Proof.
  intros Hprs. unfold replace_placeholders, replace_placeholders_body. rewrite Hprs.
  pose proof (for_each_kept (Forall2 (Spec.shape_kept data))
                (λ slide, for_each (replace_in_shape data) slide 0) (slides prs) 0) as Hk.
  destruct (for_each _ (slides prs) 0) as [slides' r]. exists (mkPresentation slides').
  split; [by destruct r|]. apply Hk.
  - intros slide. apply Forall2_refl, shape_kept_refl.
  - apply Forall_forall. intros slide _. apply for_each_kept; [apply shape_kept_refl|].
    apply Forall_forall. intros sh _. apply replace_in_shape_kept.
Qed.

End presentation.

(** ** Extraction *)

Section extraction.

Implicit Types (sh : Shape) (prs : Presentation) (acc : gset string).

Lemma foldl_add acc (names : list string) :
  foldl (λ acc name, acc ∪ {[name]}) acc names = acc ∪ list_to_set names.
Proof.
  revert acc. induction names as [|n names IH]; intros acc; cbn [foldl list_to_set].
  - by rewrite (right_id_L ∅ (∪)).
  - by rewrite IH, (assoc_L (∪)).
Qed.

Lemma extract_placeholders_union text acc :
  _extract_placeholders text acc = acc ∪ list_to_set (Re.findall text).
Proof.
  unfold _extract_placeholders. case_decide as Ht; [|apply foldl_add].
  subst text. rewrite findall_nil. cbn. by rewrite (right_id_L ∅ (∪)).
Qed.

Lemma extract_from_cells acc (row : Row) :
  foldl (λ acc' cell, _extract_placeholders (cell_text cell) acc') acc row =
  acc ∪ list_to_set ((cell_text <$> row) ≫= Re.findall).
Proof.
  revert acc. induction row as [|cell row IH]; intros acc; cbn [foldl].
  - cbn. by rewrite (right_id_L ∅ (∪)).
  - rewrite IH, extract_placeholders_union. cbn [fmap list_fmap mbind list_bind].
    by rewrite list_to_set_app_L, (assoc_L (∪)).
Qed.

Lemma extract_from_rows acc (tbl : Table) :
  foldl (λ acc row, foldl (λ acc' cell, _extract_placeholders (cell_text cell) acc') acc row)
    acc tbl =
  acc ∪ list_to_set ((tbl ≫= λ row, cell_text <$> row) ≫= Re.findall).
Proof.
  revert acc. induction tbl as [|row tbl IH]; intros acc; cbn [foldl].
  - cbn. by rewrite (right_id_L ∅ (∪)).
  - rewrite IH, extract_from_cells. cbn [mbind list_bind].
    by rewrite bind_app, list_to_set_app_L, (assoc_L (∪)).
Qed.

Lemma extract_from_shape_union acc sh :
  extract_from_shape acc sh = acc ∪ list_to_set (Spec.shape_texts sh ≫= Re.findall).
Proof.
  unfold extract_from_shape, Spec.shape_texts.
  destruct (text_frame sh) as [tf|], (table sh) as [tbl|].
  - rewrite extract_from_rows, extract_placeholders_union, bind_app, list_to_set_app_L.
    cbn [mbind list_bind]. rewrite app_nil_r. by rewrite (assoc_L (∪)).
  - rewrite extract_placeholders_union, app_nil_r. cbn [mbind list_bind]. by rewrite app_nil_r.
  - rewrite extract_from_rows. done.
  - cbn. by rewrite (right_id_L ∅ (∪)).
Qed.

Lemma extract_from_slide acc (slide : Slide) :
  foldl extract_from_shape acc slide =
  acc ∪ list_to_set ((slide ≫= Spec.shape_texts) ≫= Re.findall).
Proof.
  revert acc. induction slide as [|sh slide IH]; intros acc; cbn [foldl].
  - cbn. by rewrite (right_id_L ∅ (∪)).
  - rewrite IH, extract_from_shape_union. cbn [mbind list_bind].
    by rewrite bind_app, list_to_set_app_L, (assoc_L (∪)).
Qed.

Lemma extract_from_slides acc (sls : list Slide) :
  foldl (λ acc slide, foldl extract_from_shape acc slide) acc sls =
  acc ∪ list_to_set ((sls ≫= λ slide, slide ≫= Spec.shape_texts) ≫= Re.findall).
Proof.
  revert acc. induction sls as [|slide sls IH]; intros acc; cbn [foldl].
  - cbn. by rewrite (right_id_L ∅ (∪)).
  - rewrite IH, extract_from_slide. cbn [mbind list_bind].
    by rewrite bind_app, list_to_set_app_L, (assoc_L (∪)).
Qed.

(** The set collected by the walk: the names found in the texts read. *)
Lemma extract_from_presentation_names prs :
  extract_from_presentation prs = list_to_set (Spec.presentation_texts prs ≫= Re.findall).
Proof.
  unfold extract_from_presentation, Spec.presentation_texts.
  by rewrite extract_from_slides, (left_id_L ∅ (∪)).
Qed.

Lemma elem_of_sorted (names : gset string) n : n ∈ Py.sorted names ↔ n ∈ names.
Proof. unfold Py.sorted. by rewrite merge_sort_Permutation, elem_of_elements. Qed.

Lemma sorted_Sorted (names : gset string) : Sorted String.le (Py.sorted names).
Proof. apply (Sorted_merge_sort String.le). Qed.

Lemma sorted_NoDup (names : gset string) : NoDup (Py.sorted names).
Proof. unfold Py.sorted. rewrite merge_sort_Permutation. apply NoDup_elements. Qed.

End extraction.

(** ** Raised exceptions *)

Section raised.

Implicit Types (data : gmap string Py.PyValue) (e : Py.exn).

Lemma str_raises (v : Py.PyValue) e :
  Py.str v = inl e → e = Py.StrError ∨ e = Py.ValueError.
Proof.
  destruct v as [|z|[|]]; cbn; try congruence.
  - destruct (Z.to_int z); destruct (_ <=? _)%nat; intros [= <-]; by right.
  - intros [= <-]. by left.
Qed.

Lemma replace_matches_raises data (ns : list string) (t : string) count e :
  replace_matches data ns t count = Raises e →
  ∃ n v, data !! n = Some v ∧ Py.str v = inl e.
Proof.
  revert t count. induction ns as [|n ns IH]; intros t count; cbn [replace_matches]; [done|].
  destruct (data !! n) as [v|] eqn:En; [|apply IH].
  destruct (Py.str v) as [e'|value] eqn:Ev; [|apply IH].
  intros [= <-]. by exists n, v.
Qed.

Lemma replace_in_paragraph_raises data (p : Paragraph) e :
  (replace_in_paragraph data p).2 = Raises e →
  ∃ n v, data !! n = Some v ∧ Py.str v = inl e.
Proof.
  unfold replace_in_paragraph.
  destruct (replace_matches _ _ _ _) as [[new_text n]|e'] eqn:E; [done|].
  cbn. intros [= <-]. by eapply replace_matches_raises.
Qed.

Lemma for_each_raises {X} (body : X → X * outcome Z) xs count e :
  (for_each body xs count).2 = Raises e → ∃ x, (body x).2 = Raises e.
Proof.
  revert count. induction xs as [|x xs IH]; intros count; cbn [for_each]; [done|].
  destruct (body x) as [x' [n|e']] eqn:E.
  - specialize (IH (count + n)%Z). destruct (for_each body xs (count + n)) as [xs' r].
    apply IH.
  - cbn. intros [= <-]. exists x. by rewrite E.
Qed.

Lemma replace_in_text_frame_raises data (tf : TextFrame) e :
  (_replace_in_text_frame tf data).2 = Raises e →
  ∃ n v, data !! n = Some v ∧ Py.str v = inl e.
Proof.
  unfold _replace_in_text_frame. case_decide; [done|].
  destruct (replace_matches _ _ _ _) as [[new_text n]|e'] eqn:E.
  - intros (p & Hp)%for_each_raises. by eapply replace_in_paragraph_raises.
  - cbn. intros [= <-]. by eapply replace_matches_raises.
Qed.

Lemma replace_in_table_raises data (tbl : Table) e :
  (_replace_in_table tbl data).2 = Raises e →
  ∃ n v, data !! n = Some v ∧ Py.str v = inl e.
Proof.
  unfold _replace_in_table.
  intros (row & (cell & (p & Hp)%for_each_raises)%for_each_raises)%for_each_raises.
  by eapply replace_in_paragraph_raises.
Qed.

Lemma replace_in_shape_raises data (sh : Shape) e :
  (replace_in_shape data sh).2 = Raises e →
  ∃ n v, data !! n = Some v ∧ Py.str v = inl e.
Proof.
  unfold replace_in_shape. destruct (text_frame sh) as [tf|].
  - destruct (_replace_in_text_frame tf data) as [tf' [n1|e1]] eqn:E1.
    + destruct (table sh) as [tbl|]; [|done].
      destruct (_replace_in_table tbl data) as [tbl' [n2|e2]] eqn:E2; [done|].
      cbn. intros [= <-]. apply (replace_in_table_raises data tbl). by rewrite E2.
    + cbn. intros [= <-]. apply (replace_in_text_frame_raises data tf). by rewrite E1.
  - destruct (table sh) as [tbl|]; [|done].
    destruct (_replace_in_table tbl data) as [tbl' [n2|e2]] eqn:E2; [done|].
    cbn. intros [= <-]. apply (replace_in_table_raises data tbl). by rewrite E2.
Qed.

(** The body of [replace_placeholders] raises in two cases only. *)
Lemma replace_placeholders_body_raises self data e :
  (replace_placeholders_body self data).2 = Raises e →
  (presentation self = None ∧ e = Py.ValueError) ∨
  ((e = Py.StrError ∨ e = Py.ValueError) ∧ ∃ n v, data !! n = Some v ∧ Py.str v = inl e).
Proof.
  unfold replace_placeholders_body. destruct (presentation self) as [prs|].
  - destruct (for_each _ (slides prs) 0) as [slides' r] eqn:E. cbn. intros ->.
    right. assert ((for_each (λ slide, for_each (replace_in_shape data) slide 0)
                      (slides prs) 0).2 = Raises e) as Hr by by rewrite E.
    apply for_each_raises in Hr as (slide & (sh & Hsh)%for_each_raises).
    apply replace_in_shape_raises in Hsh as (n & v & Hn & Hv).
    split; [by eapply str_raises|eauto].
  - cbn. intros [= <-]. by left.
Qed.

End raised.

(** * The claims *)

(** C3 (as stated, refuted): the name [a<LF>b] holds no closing brace, yet
    nothing is extracted from [prefix {{a<LF>b}} suffix]; the pattern also
    accepts the empty name and a name with a closing brace inside. *)
Lemma C3_counterexample :
  Py.all_chars (λ c, negb (Ascii.eqb c "}")) ("a" ++ line_feed ++ "b") = true ∧
  _extract_placeholders ("prefix {{" ++ ("a" ++ line_feed ++ "b") ++ "}} suffix") ∅
    ≠ {[ "a" ++ line_feed ++ "b" ]} ∧
  Re.findall "{{}}" = [""] ∧
  Re.findall "{{a}b}}" = ["a}b"].
Proof.
  split; [reflexivity|]. split; [|split; reflexivity].
  intros H. assert ("a" ++ line_feed ++ "b" ∈
    _extract_placeholders ("prefix {{" ++ ("a" ++ line_feed ++ "b") ++ "}} suffix") ∅) as Hin
    by (rewrite H; by apply elem_of_singleton).
  rewrite extract_placeholders_union in Hin.
  change (Re.findall _) with (@nil string) in Hin. cbn in Hin.
  rewrite (right_id_L ∅ (∪)) in Hin. by apply elem_of_empty in Hin.
Qed.

(** C3 (amended): the anchored pattern accepts exactly [{{], then the
    shortest run of zero or more characters other than the line feed that
    [}}] follows, then [}}]; [{{a}}{{b}}] yields the two names [a] and [b];
    and for every name without a closing brace and without a line feed,
    extracting from [prefix {{name}} suffix] yields exactly that name. *)
Theorem C3_pattern_and_extraction :
  (∀ s n r, Re.match_at s = Some (n, r) ↔
            s = "{{" ++ n ++ "}}" ++ r ∧ Spec.single_line n = true ∧ Spec.shortest n) ∧
  Re.findall "{{a}}{{b}}" = ["a"; "b"] ∧
  (∀ n, Py.all_chars (λ c, negb (Ascii.eqb c "}")) n = true → Spec.single_line n = true →
        _extract_placeholders ("prefix {{" ++ n ++ "}} suffix") ∅ = {[ n ]}).
Proof.
  split; [apply match_at_Some|]. split; [reflexivity|].
  intros n Hc Hl. rewrite extract_placeholders_union, (left_id_L ∅ (∪)).
  assert ("prefix {{" ++ n ++ "}} suffix" = "prefix " ++ placeholder n ++ " suffix") as ->
    by (unfold placeholder; by rewrite !append_assoc).
  rewrite findall_plain_app by reflexivity.
  rewrite placeholder_cons, findall_cons, <- placeholder_cons, match_at_placeholder by done.
  change (Re.findall " suffix") with (@nil string). cbn.
  by rewrite (right_id_L ∅ (∪)).
Qed.

(** The hypotheses of C3 hold on a concrete input. *)
Lemma C3_witness :
  Py.all_chars (λ c, negb (Ascii.eqb c "}")) "total" = true ∧
  Spec.single_line "total" = true ∧
  _extract_placeholders ("prefix {{" ++ "total" ++ "}} suffix") ∅ = {[ "total" ]}.
Proof.
  split; [reflexivity|]. split; [reflexivity|].
  apply (proj2 (proj2 C3_pattern_and_extraction) "total"); reflexivity.
Defined.

(** C4: with a presentation loaded, [get_placeholders_list] leaves the
    generator as it is and returns a list that is sorted in the order of
    strings, has no duplicates, and holds exactly the names the pattern
    finds in the text of a shape's text frame or in the text of a table
    cell; for [{{x}}] in a text box and [{{y}}] in a table cell it returns
    [x; y]. *)
Theorem C4_get_placeholders_list :
  (∀ self prs, presentation self = Some prs →
     ∃ names, get_placeholders_list self = (self, Returns names) ∧
       Sorted String.le names ∧ NoDup names ∧
       ∀ n, n ∈ names ↔ ∃ t, t ∈ Spec.presentation_texts prs ∧ n ∈ Re.findall t) ∧
  get_placeholders_list (deck [text_box "{{x}}"; table_shape [["{{y}}"]]]) =
    (deck [text_box "{{x}}"; table_shape [["{{y}}"]]], Returns ["x"; "y"]).
Proof.
  split; [|reflexivity].
  intros self prs Hprs. unfold get_placeholders_list, get_placeholders_list_body.
  rewrite Hprs. eexists. split; [reflexivity|].
  split; [apply sorted_Sorted|]. split; [apply sorted_NoDup|].
  intros n. rewrite elem_of_sorted, extract_from_presentation_names, elem_of_list_to_set.
  rewrite list_elem_of_bind. split; intros (t & ? & ?); by exists t.
Qed.

(** The hypotheses of C4 hold on a concrete input. *)
Lemma C4_witness :
  presentation (deck [text_box "{{b}} {{a}} {{b}}"]) =
    Some (mkPresentation [[text_box "{{b}} {{a}} {{b}}"]]) ∧
  ∃ names,
    get_placeholders_list (deck [text_box "{{b}} {{a}} {{b}}"]) =
      (deck [text_box "{{b}} {{a}} {{b}}"], Returns names) ∧
    Sorted String.le names ∧ NoDup names ∧
    ∀ n, n ∈ names ↔
         ∃ t, t ∈ Spec.presentation_texts (mkPresentation [[text_box "{{b}} {{a}} {{b}}"]]) ∧
              n ∈ Re.findall t.
Proof.
  split; [reflexivity|].
  apply (proj1 C4_get_placeholders_list (deck [text_box "{{b}} {{a}} {{b}}"])).
  reflexivity.
Defined.

Lemma plain_data_singleton (k : string) (v : Py.PyValue) :
  Spec.plain_value v = true → Spec.plain_data {[ k := v ]}.
Proof. intros Hv k' v' [_ <-]%lookup_singleton_Some. exact Hv. Qed.










(** C8: one call of [_replace_in_text_frame] runs the frame pass and, when
    that pass rewrote the text, the paragraph pass over the paragraphs of
    the rewritten text, counting on from the count of the frame pass; so a
    value that holds a placeholder is substituted within the same call: for
    a frame of one paragraph whose text is [{{a}}] and the map
    [a ↦ {{b}}, b ↦ X], one call of [replace_placeholders] leaves the text
    [X] and returns 2. *)
Theorem C8_cascade_within_one_call :
  (∀ (tf : TextFrame) data new_text n,
     text_frame_text tf ≠ "" →
     replace_matches data (Re.findall (text_frame_text tf)) (text_frame_text tf) 0 =
       Returns (new_text, n) →
     new_text ≠ text_frame_text tf →
     _replace_in_text_frame tf data =
       for_each (replace_in_paragraph data) (set_text_frame_text tf new_text) n) ∧
  (∀ (p : Paragraph) (id kind : nat),
     paragraph_text p = "{{a}}" →
     replace_placeholders (deck [mkShape id kind (Some [p]) None])
         {[ "a" := Py.PyStr "{{b}}"; "b" := Py.PyStr "X" ]} =
       (deck [mkShape id kind (Some [[Run "X"]]) None], Returns 2%Z) ∧
     text_frame_text [[Run "X"]] = "X").
Proof.
  split.
  { intros tf data new_text n Hne Hpass Hnew. unfold _replace_in_text_frame.
    rewrite decide_False by done. rewrite Hpass. by rewrite decide_True by done. }
  intros p id kind Hp. split; [|reflexivity].
  assert (_replace_in_text_frame [p] {[ "a" := Py.PyStr "{{b}}"; "b" := Py.PyStr "X" ]} =
          ([[Run "X"]], Returns 2%Z)) as Hframe.
  { unfold _replace_in_text_frame.
    change (text_frame_text [p]) with (paragraph_text p). rewrite Hp. reflexivity. }
  unfold replace_placeholders, replace_placeholders_body, deck.
  cbn [presentation slides for_each template_path]. unfold replace_in_shape.
  cbn [text_frame table shape_id shape_type]. rewrite Hframe. reflexivity.
Qed.

(** The hypotheses of C8 hold on a concrete input. *)
Lemma C8_witness :
  paragraph_text [Run "{{"; Run "a}}"] = "{{a}}" ∧
  replace_placeholders (deck [mkShape 2 17 (Some [[Run "{{"; Run "a}}"]]) None])
      {[ "a" := Py.PyStr "{{b}}"; "b" := Py.PyStr "X" ]} =
    (deck [mkShape 2 17 (Some [[Run "X"]]) None], Returns 2%Z) ∧
  text_frame_text [[Run "X"]] = "X".
Proof.
  split; [reflexivity|].
  apply (proj2 C8_cascade_within_one_call [Run "{{"; Run "a}}"] 2 17). reflexivity.
Defined.

Lemma except_Exception_returns {S A} (sentinel : A) (r : S * outcome A) :
  ∃ a, (except_Exception sentinel r).2 = Returns a.
Proof. destruct r as [s [a|e]]; by eexists. Qed.

Lemma except_Exception_raised {S A} (sentinel : A) (r : S * outcome A) e :
  r.2 = Raises e → except_Exception sentinel r = (r.1, Returns sentinel).
Proof. destruct r as [s [a|e']]; [done|]. by intros _. Qed.




(** C7 (as stated, refuted): a path that does not exist and a file that is
    no presentation give the caller the same result, [False] with the
    generator untouched. *)
Lemma C7_counterexample :
  files storage !! "missing.pptx" = None ∧
  files storage !! "notes.txt" = Some OtherFile ∧
  load_template storage init "missing.pptx" = (init, Returns false) ∧
  load_template storage init "notes.txt" = load_template storage init "missing.pptx".
Proof. repeat split; reflexivity. Qed.

(** C7 (amended): [load_template] returns [True] and holds the parsed
    presentation and its path when the file loads; it returns [False] when
    the path does not exist, and it returns [False] as well when the file is
    no well-formed presentation: the caller can tell success from failure,
    not one failure from the other. *)
Theorem C7_load_template_outcomes :
  ∀ fs self path,
    (∀ prs, files fs !! path = Some (PptxFile prs) →
       load_template fs self path = (mkGenerator (Some prs) (Some path), Returns true)) ∧
    (files fs !! path = None → load_template fs self path = (self, Returns false)) ∧
    (files fs !! path = Some OtherFile → load_template fs self path = (self, Returns false)).
Proof.
  intros fs self path. unfold load_template, load_template_body.
  repeat split; [intros prs Hf|intros Hf..]; by rewrite Hf.
Qed.

(** The hypotheses of C7 hold on a concrete input. *)
Lemma C7_witness :
  files storage !! "deck.pptx" = Some (PptxFile (mkPresentation [[text_box "{{x}}"]])) ∧
  load_template storage init "deck.pptx" =
    (mkGenerator (Some (mkPresentation [[text_box "{{x}}"]])) (Some "deck.pptx"),
     Returns true).
Proof.
  split; [reflexivity|].
  apply (proj1 (C7_load_template_outcomes storage init "deck.pptx")). reflexivity.
Defined.

(** C9: when the path does not exist or the file is no presentation,
    [load_template] returns [False] and leaves the generator, with the
    presentation and the template path it held, as it was. *)
Theorem C9_failed_load_keeps_generator :
  ∀ fs self path,
    files fs !! path = None ∨ files fs !! path = Some OtherFile →
    load_template fs self path = (self, Returns false).
Proof.
  intros fs self path [Hf|Hf]; unfold load_template, load_template_body; by rewrite Hf.
Qed.

(** The hypotheses of C9 hold on a concrete input. *)
Lemma C9_witness :
  (files storage !! "notes.txt" = None ∨ files storage !! "notes.txt" = Some OtherFile) ∧
  load_template storage (deck [text_box "{{x}}"]) "notes.txt" =
    (deck [text_box "{{x}}"], Returns false).
Proof.
  split; [right; reflexivity|].
  apply C9_failed_load_keeps_generator. right. reflexivity.
Defined.

(** C10: [load_template], [replace_placeholders], [save_presentation] and
    [get_placeholders_list] always return a value; whenever the body of one
    of them raises, the method returns its sentinel, [False], 0, [False] and
    the empty list; with no presentation loaded [replace_placeholders]
    returns 0 and [get_placeholders_list] returns the empty list. *)
Theorem C10_no_exception_leaves_a_method :
  (∀ fs self path, ∃ b, (load_template fs self path).2 = Returns b) ∧
  (∀ self data, ∃ n, (replace_placeholders self data).2 = Returns n) ∧
  (∀ fs self path, ∃ b, (save_presentation fs self path).2 = Returns b) ∧
  (∀ self, ∃ names, (get_placeholders_list self).2 = Returns names) ∧
  (∀ fs self path e, (load_template_body fs self path).2 = Raises e →
     (load_template fs self path).2 = Returns false) ∧
  (∀ self data e, (replace_placeholders_body self data).2 = Raises e →
     (replace_placeholders self data).2 = Returns 0%Z) ∧
  (∀ fs self path e, (save_presentation_body fs self path).2 = Raises e →
     (save_presentation fs self path).2 = Returns false) ∧
  (∀ self e, (get_placeholders_list_body self).2 = Raises e →
     (get_placeholders_list self).2 = Returns []) ∧
  (∀ self data, presentation self = None →
     (replace_placeholders self data).2 = Returns 0%Z) ∧
  (∀ self, presentation self = None → (get_placeholders_list self).2 = Returns []).
Proof.
  repeat split.
  - intros. apply except_Exception_returns.
  - intros. apply except_Exception_returns.
  - intros. apply except_Exception_returns.
  - intros. apply except_Exception_returns.
  - intros fs self path e He. unfold load_template.
    by rewrite (except_Exception_raised _ _ e).
  - intros self data e He. unfold replace_placeholders.
    by rewrite (except_Exception_raised _ _ e).
  - intros fs self path e He. unfold save_presentation.
    by rewrite (except_Exception_raised _ _ e).
  - intros self e He. unfold get_placeholders_list.
    by rewrite (except_Exception_raised _ _ e).
  - intros self data Hnone. unfold replace_placeholders, replace_placeholders_body.
    by rewrite Hnone.
  - intros self Hnone. unfold get_placeholders_list, get_placeholders_list_body.
    by rewrite Hnone.
Qed.

(** The hypotheses of C10 hold on a concrete input. *)
Lemma C10_witness :
  (save_presentation_body storage (deck [text_box "{{x}}"]) "locked.pptx").2 =
    Raises Py.OSError ∧
  (save_presentation storage (deck [text_box "{{x}}"]) "locked.pptx").2 = Returns false ∧
  presentation init = None ∧
  (get_placeholders_list init).2 = Returns [].
Proof.
  destruct C10_no_exception_leaves_a_method
    as (_ & _ & _ & _ & _ & _ & Hsave & _ & _ & Hlist).
  split; [reflexivity|]. split.
  - apply (Hsave storage (deck [text_box "{{x}}"]) "locked.pptx" Py.OSError). reflexivity.
  - split; [reflexivity|]. apply (Hlist init). reflexivity.
Defined.

(** * Further properties of the code *)

(** ** Names the pattern finds *)

Section names.

Implicit Types (s t n : string) (data : gmap string Py.PyValue).

(** Every name found stands in the text between [{{] and [}}]. *)
Lemma findall_elem s n :
  n ∈ Re.findall s →
  ∃ pre post, s = pre ++ placeholder n ++ post ∧
              Spec.single_line n = true ∧ Spec.shortest n.
Proof.
  remember (String.length s) as k eqn:Hk. revert s Hk.
  induction k as [k IH] using lt_wf_ind. intros [|c s] Hk.
  { rewrite findall_nil. by intros ?%elem_of_nil. }
  rewrite findall_cons. destruct (Re.match_at (String c s)) as [[m r]|] eqn:E.
  - pose proof (Re.match_at_length _ _ _ E) as Hlen.
    apply match_at_Some in E as (Es & Hl & Hs).
    intros [->|Hin]%elem_of_cons.
    + exists "", r. rewrite append_empty_l. unfold placeholder.
      by rewrite !append_assoc.
    + destruct (IH (String.length r) ltac:(lia) r eq_refl Hin) as (pre & post & -> & ? & ?).
      exists ("{{" ++ m ++ "}}" ++ pre), post. rewrite Es.
      by rewrite !append_assoc.
  - intros Hin.
    destruct (IH (String.length s) ltac:(subst k; cbn; lia) s eq_refl Hin)
      as (pre & post & -> & ? & ?).
    by exists (String c pre), post.
Qed.

Lemma shortest_no_close_pair n a b : Spec.shortest n → n ≠ a ++ "}}" ++ b.
Proof.
  intros Hs ->. specialize (Hs a ("}}" ++ b) eq_refl). rewrite close_cons in Hs.
  by specialize (Hs ltac:(done)).
Qed.

Lemma all_chars_placeholder_free f n pre post :
  Py.all_chars f (pre ++ placeholder n ++ post) = true →
  f "{"%char = true ∧ f "}"%char = true.
Proof.
  rewrite !all_chars_app, !andb_true_iff. intros (_ & Hp & _).
  unfold placeholder in Hp. rewrite !all_chars_app, !andb_true_iff in Hp.
  destruct Hp as (Ho & _ & Hc). cbn in Ho, Hc.
  by apply andb_true_iff in Ho as [? _], Hc as [? _].
Qed.

(** A text that lacks one of the two braces holds no placeholder. *)
Lemma findall_one_brace_missing s :
  Py.all_chars (λ c, negb (Ascii.eqb c "{")) s = true ∨
  Py.all_chars (λ c, negb (Ascii.eqb c "}")) s = true →
  Re.findall s = [].
Proof.
  intros Hs. destruct (Re.findall s) as [|n ns] eqn:E; [done|].
  destruct (findall_elem s n) as (pre & post & -> & _); [rewrite E; by left|].
  destruct Hs as [Hs|Hs]; apply all_chars_placeholder_free in Hs as [? ?]; done.
Qed.

End names.

(** X1.  A name enters the set of [_extract_placeholders] only if it was
    there before or stands in the text between [{{] and [}}]; such a name
    has no line feed and no [}}] inside. *)
Theorem X1_extracted_names_occur :
  ∀ text placeholders n,
    n ∈ _extract_placeholders text placeholders →
    n ∈ placeholders ∨
    ((∃ pre post, text = pre ++ "{{" ++ n ++ "}}" ++ post) ∧
     Spec.single_line n = true ∧
     ∀ a b, n ≠ a ++ "}}" ++ b).
Proof.
  intros text placeholders n. rewrite extract_placeholders_union, elem_of_union.
  intros [?|Hn]; [by left|right]. apply elem_of_list_to_set in Hn.
  apply findall_elem in Hn as (pre & post & -> & Hl & Hs).
  split; [|split; [done|]].
  - exists pre, post. unfold placeholder. by rewrite !append_assoc.
  - intros a b. by apply shortest_no_close_pair.
Qed.

Lemma X1_witness :
  "x" ∈ _extract_placeholders "a {{x}} b" ∅ ∧
  ("x" ∈ (∅ : gset string) ∨
   ((∃ pre post, "a {{x}} b" = pre ++ "{{" ++ "x" ++ "}}" ++ post) ∧
    Spec.single_line "x" = true ∧
    ∀ a b, "x" ≠ a ++ "}}" ++ b)).
Proof.
  assert ("x" ∈ _extract_placeholders "a {{x}} b" ∅) as Hin.
  { rewrite extract_placeholders_union. apply elem_of_union_r, elem_of_list_to_set.
    change (Re.findall "a {{x}} b") with ["x"]. by left. }
  split; [exact Hin|]. exact (X1_extracted_names_occur _ _ _ Hin).
Defined.

(** X2.  A text frame whose text lacks the opening brace, or lacks the
    closing brace, holds no placeholder: nothing is extracted from it and
    [_replace_in_text_frame] leaves it as it is and returns 0, whatever the
    map. *)
Theorem X2_one_brace_missing :
  ∀ (tf : TextFrame) data,
    Py.all_chars (λ c, negb (Ascii.eqb c "{")) (text_frame_text tf) = true ∨
    Py.all_chars (λ c, negb (Ascii.eqb c "}")) (text_frame_text tf) = true →
    _extract_placeholders (text_frame_text tf) ∅ = ∅ ∧
    _replace_in_text_frame tf data = (tf, Returns 0%Z).
Proof.
  intros tf data Hs. apply findall_one_brace_missing in Hs. split.
  - rewrite extract_placeholders_union, Hs. cbn. by rewrite (left_id_L ∅ (∪)).
  - apply replace_in_text_frame_unmatched. intros n. rewrite Hs. by intros ?%elem_of_nil.
Qed.

Lemma X2_witness :
  (Py.all_chars (λ c, negb (Ascii.eqb c "{")) (text_frame_text [[Run "a}} {b"]]) = true ∨
   Py.all_chars (λ c, negb (Ascii.eqb c "}")) (text_frame_text [[Run "a {{b"]]) = true) ∧
  _extract_placeholders (text_frame_text [[Run "a {{b"]]) ∅ = ∅ ∧
  _replace_in_text_frame [[Run "a {{b"]] {[ "b" := Py.PyStr "X" ]} =
    ([[Run "a {{b"]], Returns 0%Z).
Proof.
  split; [right; reflexivity|].
  apply (X2_one_brace_missing [[Run "a {{b"]]). right. reflexivity.
Defined.

(** X3.  No placeholder spans two paragraphs: the names found in the text
    of a text frame are those found in its paragraphs, in order, and the
    occurrences the frame pass counts are those the paragraphs hold. *)
Theorem X3_frame_names_are_paragraph_names :
  ∀ (tf : TextFrame) data,
    Re.findall (text_frame_text tf) = (tf ≫= λ p, Re.findall (paragraph_text p)) ∧
    Spec.occurrences data (text_frame_text tf) =
      Spec.sumZ ((λ p, Spec.occurrences data (paragraph_text p)) <$> tf).
Proof.
  intros tf data. split; [apply findall_text_frame_text|].
  unfold Spec.occurrences. rewrite findall_text_frame_text.
  induction tf as [|p tf IH]; [done|]. cbn [mbind list_bind fmap list_fmap].
  change (Spec.sumZ (?x :: ?l)) with (x + Spec.sumZ l)%Z.
  fold (fmap (M:=list) (λ p, Z.of_nat (length (filter (λ n, is_Some (data !! n))
                                              (Re.findall (paragraph_text p)))))).
  rewrite <- IH, filter_app, length_app. lia.
Qed.

(** X4.  The number [_count_placeholders] gives (the one [load_template]
    logs) is the length of the list [get_placeholders_list] returns: the
    number of distinct names, 0 with no presentation loaded. *)
Theorem X4_count_is_length_of_list :
  ∀ self, ∃ names,
    get_placeholders_list self = (self, Returns names) ∧
    _count_placeholders self = Z.of_nat (length names).
Proof.
  intros self. unfold get_placeholders_list, get_placeholders_list_body, _count_placeholders.
  destruct (presentation self) as [prs|]; [|by exists []].
  eexists. split; [reflexivity|]. f_equal. unfold Py.sorted.
  by rewrite merge_sort_Permutation.
Qed.

(** ** Maps without a matching key *)

Section no_key.

Implicit Types (data : gmap string Py.PyValue) (prs : Presentation).

Lemma unmatched_of_texts data prs :
  (∀ t, t ∈ Spec.presentation_texts prs → Spec.unmatched data t) →
  Spec.presentation_unmatched data prs.
Proof.
  intros Ht. unfold Spec.presentation_unmatched. apply Forall_forall. intros slide Hslide.
  apply Forall_forall. intros sh Hsh.
  assert (∀ t, t ∈ Spec.shape_texts sh → Spec.unmatched data t) as Hsht.
  { intros t Hin. apply Ht. unfold Spec.presentation_texts.
    apply list_elem_of_bind. exists slide. split; [|done].
    apply list_elem_of_bind. by exists sh. }
  unfold Spec.shape_texts in Hsht. split.
  - intros tf Etf. apply Hsht. rewrite Etf. apply elem_of_app. left. by left.
  - intros tbl Etbl. rewrite Etbl in Hsht.
    apply Forall_forall. intros row Hrow. apply Forall_forall. intros cell Hcell.
    apply Forall_forall. intros p Hp. apply (unmatched_paragraph data cell); [|done].
    apply Hsht. apply elem_of_app. right. apply list_elem_of_bind. exists row.
    split; [|done]. apply list_elem_of_fmap. by exists cell.
Qed.

Lemma get_placeholders_list_loaded self prs :
  presentation self = Some prs →
  get_placeholders_list self = (self, Returns (Py.sorted (extract_from_presentation prs))).
Proof.
  intros Hprs. unfold get_placeholders_list, get_placeholders_list_body. by rewrite Hprs.
Qed.

Lemma elem_of_listed prs (n : string) :
  n ∈ Py.sorted (extract_from_presentation prs) ↔
  ∃ t, t ∈ Spec.presentation_texts prs ∧ n ∈ Re.findall t.
Proof.
  rewrite elem_of_sorted, extract_from_presentation_names, elem_of_list_to_set.
  rewrite list_elem_of_bind. split; intros (t & ? & ?); by exists t.
Qed.

End no_key.

(** X5.  When no key of the map is among the names [get_placeholders_list]
    reports, [replace_placeholders] changes nothing and returns 0; so does
    the empty map on any loaded presentation. *)
Theorem X5_keys_outside_the_list_change_nothing :
  (∀ self prs data names,
     presentation self = Some prs →
     get_placeholders_list self = (self, Returns names) →
     (∀ n, n ∈ names → data !! n = None) →
     replace_placeholders self data = (self, Returns 0%Z)) ∧
  (∀ self prs, presentation self = Some prs →
     replace_placeholders self ∅ = (self, Returns 0%Z)).
Proof.
  split.
  - intros self prs data names Hprs Hget Hnames.
    apply (replace_placeholders_unmatched self prs); [done|].
    apply unmatched_of_texts. intros t Ht n Hn. apply Hnames.
    rewrite (get_placeholders_list_loaded self prs Hprs) in Hget. injection Hget as <-.
    apply elem_of_listed. by exists t.
  - intros self prs Hprs. apply (replace_placeholders_unmatched self prs); [done|].
    apply unmatched_of_texts. intros t _ n _. apply lookup_empty.
Qed.

(** The hypotheses of X5 hold on a concrete input. *)
Lemma X5_witness :
  presentation (deck [text_box "{{a}} and {{b}}"]) =
    Some (mkPresentation [[text_box "{{a}} and {{b}}"]]) ∧
  get_placeholders_list (deck [text_box "{{a}} and {{b}}"]) =
    (deck [text_box "{{a}} and {{b}}"], Returns ["a"; "b"]) ∧
  (∀ n, n ∈ ["a"; "b"] → ({[ "c" := Py.PyStr "X" ]} : gmap string Py.PyValue) !! n = None) ∧
  replace_placeholders (deck [text_box "{{a}} and {{b}}"]) {[ "c" := Py.PyStr "X" ]} =
    (deck [text_box "{{a}} and {{b}}"], Returns 0%Z).
Proof.
  assert (∀ n, n ∈ ["a"; "b"] →
               ({[ "c" := Py.PyStr "X" ]} : gmap string Py.PyValue) !! n = None) as Hn.
  { intros n [->|[->|?%elem_of_nil]%elem_of_cons]%elem_of_cons; [reflexivity..|done]. }
  split; [reflexivity|]. split; [reflexivity|]. split; [exact Hn|].
  apply (proj1 X5_keys_outside_the_list_change_nothing _
           (mkPresentation [[text_box "{{a}} and {{b}}"]]) _ ["a"; "b"]).
  - reflexivity.
  - reflexivity.
  - exact Hn.
Defined.

(** ** The returned count *)

Section count.

Implicit Types (data : gmap string Py.PyValue).

Lemma replace_matches_count data (ns : list string) (t t' : string) (c c' : Z) :
  replace_matches data ns t c = Returns (t', c') → (c ≤ c')%Z.
Proof.
  revert t c. induction ns as [|n ns IH]; intros t c; cbn [replace_matches].
  { intros [= _ <-]. lia. }
  destruct (data !! n) as [v|]; [|apply IH].
  destruct (Py.str v) as [e|value]; [done|]. intros H%IH. lia.
Qed.

Lemma replace_in_paragraph_count data (p : Paragraph) n :
  (replace_in_paragraph data p).2 = Returns n → (0 ≤ n)%Z.
Proof.
  unfold replace_in_paragraph.
  destruct (replace_matches _ _ _ _) as [[t' c']|e] eqn:E; [|done].
  cbn. intros [= <-]. by apply replace_matches_count in E.
Qed.

Lemma for_each_count {X} (body : X → X * outcome Z) xs (c n : Z) :
  (∀ x m, (body x).2 = Returns m → (0 ≤ m)%Z) →
  (for_each body xs c).2 = Returns n → (c ≤ n)%Z.
Proof.
  intros Hbody. revert c. induction xs as [|x xs IH]; intros c; cbn [for_each].
  { intros [= <-]. lia. }
  destruct (body x) as [x' [m|e]] eqn:E; [|done].
  specialize (IH (c + m)%Z). destruct (for_each body xs (c + m)) as [xs' r].
  intros H%IH. specialize (Hbody x m). rewrite E in Hbody. specialize (Hbody eq_refl). lia.
Qed.

Lemma replace_in_text_frame_count data (tf : TextFrame) n :
  (_replace_in_text_frame tf data).2 = Returns n → (0 ≤ n)%Z.
Proof.
  unfold _replace_in_text_frame. case_decide as Hempty; [by intros [= <-]|].
  destruct (replace_matches _ _ _ _) as [[t' c']|e] eqn:E; [|done].
  apply replace_matches_count in E.
  intros Hfor%for_each_count; [lia|]. intros p m. apply replace_in_paragraph_count.
Qed.

Lemma replace_in_table_count data (tbl : Table) n :
  (_replace_in_table tbl data).2 = Returns n → (0 ≤ n)%Z.
Proof.
  unfold _replace_in_table. apply for_each_count. intros row m.
  apply for_each_count. intros cell m'. apply for_each_count.
  intros p m''. apply replace_in_paragraph_count.
Qed.

Lemma replace_in_shape_count data (sh : Shape) n :
  (replace_in_shape data sh).2 = Returns n → (0 ≤ n)%Z.
Proof.
  unfold replace_in_shape.
  assert (∀ n1, (match text_frame sh with
                 | Some tf => let '(tf', r) := _replace_in_text_frame tf data in (Some tf', r)
                 | None => (None, Returns 0%Z)
                 end).2 = Returns n1 → (0 ≤ n1)%Z) as H1.
  { intros n1. destruct (text_frame sh) as [tf|]; [|by intros [= <-]].
    pose proof (replace_in_text_frame_count data tf n1) as Hc.
    by destruct (_replace_in_text_frame tf data). }
  destruct (match text_frame sh with Some _ => _ | None => _ end) as [tf' [n1|e]]; [|done].
  specialize (H1 n1 eq_refl). destruct (table sh) as [tbl|]; [|cbn; intros [= <-]; lia].
  pose proof (replace_in_table_count data tbl) as H2.
  destruct (_replace_in_table tbl data) as [tbl' [n2|e]]; [|done].
  cbn. intros [= <-]. specialize (H2 n2 eq_refl). lia.
Qed.

End count.

(** X6.  The count [replace_placeholders] returns is never negative. *)
Theorem X6_count_is_not_negative :
  ∀ self data, ∃ n, (replace_placeholders self data).2 = Returns n ∧ (0 ≤ n)%Z.
Proof.
  intros self data. unfold replace_placeholders, replace_placeholders_body.
  destruct (presentation self) as [prs|]; [|by exists 0%Z].
  pose proof (for_each_count (λ slide, for_each (replace_in_shape data) slide 0)
                (slides prs) 0) as Hc.
  destruct (for_each _ (slides prs) 0) as [slides' [n|e]]; [|by exists 0%Z].
  exists n. split; [done|]. apply Hc; [|done].
  intros slide m. apply for_each_count. intros sh m'. apply replace_in_shape_count.
Qed.

(** ** The names left after a substitution *)

Section names_left.

Implicit Types (data : gmap string Py.PyValue) (prs : Presentation) (sh : Shape).

Lemma substituted_cell_names data (cell cell' : TextFrame) :
  Spec.plain_data data → forallb Spec.simple_paragraph cell = true →
  Forall2 (Spec.paragraph_substituted data) cell cell' →
  Re.findall (cell_text cell') = filter (λ n, data !! n = None) (Re.findall (cell_text cell)).
Proof.
  intros Hd Hs HR. unfold cell_text. rewrite !findall_text_frame_text. revert Hs.
  induction HR as [|p p' ? ? Hp _ IH]; [done|].
  cbn [forallb mbind list_bind]. unfold Spec.simple_paragraph at 1.
  rewrite !andb_true_iff. intros [[[Hs Hl] _] Hss].
  rewrite filter_app, <- IH by done. f_equal.
  unfold Spec.paragraph_substituted in Hp. rewrite Hp. by apply findall_substitute.
Qed.

Lemma substituted_shape_texts data sh sh' :
  Spec.plain_data data → Spec.simple_shape sh = true → Spec.shape_substituted data sh sh' →
  Forall2 (λ t t', Re.findall t' = filter (λ n, data !! n = None) (Re.findall t))
    (Spec.shape_texts sh) (Spec.shape_texts sh').
Proof.
  intros Hd Hs (_ & _ & Hf & Ht). unfold Spec.simple_shape in Hs.
  apply andb_true_iff in Hs as [Hsf Hst]. unfold Spec.shape_texts. apply Forall2_app.
  - destruct Hf as [tf tf' Htext|]; [|constructor]. constructor; [|constructor].
    apply andb_true_iff in Hsf as [Hsf _].
    unfold Spec.frame_substituted in Htext. rewrite Htext. by apply findall_substitute.
  - destruct Ht as [tbl tbl' Htable|]; [|constructor]. revert Hst.
    induction Htable as [|row row' ? ? Hrow _ IH]; [constructor|].
    cbn [forallb mbind list_bind]. rewrite andb_true_iff. intros [Hs Hss].
    apply Forall2_app; [|by apply IH]. clear IH Hss. revert Hs.
    induction Hrow as [|cell cell' ? ? Hcell _ IH]; [constructor|].
    cbn [forallb fmap list_fmap]. rewrite andb_true_iff. intros [Hs Hss].
    constructor; [|by apply IH]. by apply substituted_cell_names.
Qed.

Lemma substituted_texts data prs prs' :
  Spec.plain_data data → Spec.simple_presentation prs = true →
  Spec.presentation_substituted data prs prs' →
  Forall2 (λ t t', Re.findall t' = filter (λ n, data !! n = None) (Re.findall t))
    (Spec.presentation_texts prs) (Spec.presentation_texts prs').
Proof.
  intros Hd Hs HR. unfold Spec.presentation_texts, Spec.presentation_substituted in *.
  unfold Spec.simple_presentation in Hs. revert Hs.
  induction HR as [|slide slide' ? ? Hslide _ IH]; [constructor|].
  cbn [forallb mbind list_bind]. rewrite andb_true_iff. intros [Hs Hss].
  apply Forall2_app; [|by apply IH]. clear IH Hss. revert Hs.
  induction Hslide as [|sh sh' ? ? Hsh _ IH]; [constructor|].
  cbn [forallb mbind list_bind]. rewrite andb_true_iff. intros [Hs Hss].
  apply Forall2_app; [|by apply IH]. by apply substituted_shape_texts.
Qed.

Lemma names_left data (texts texts' : list string) (n : string) :
  Forall2 (λ t t', Re.findall t' = filter (λ n, data !! n = None) (Re.findall t))
    texts texts' →
  (∃ t', t' ∈ texts' ∧ n ∈ Re.findall t') ↔
  (∃ t, t ∈ texts ∧ n ∈ Re.findall t) ∧ data !! n = None.
Proof.
  induction 1 as [|t t' ts ts' Ht _ IH].
  { split; [by intros (? & ?%elem_of_nil & _)|by intros [(? & ?%elem_of_nil & _) _]]. }
  split.
  - intros (u' & [->|Hu']%elem_of_cons & Hn).
    + rewrite Ht in Hn. apply list_elem_of_filter in Hn as [? ?].
      split; [|done]. exists t. split; [by left|done].
    + destruct (proj1 IH) as [(u & ? & ?) ?]; [by exists u'|].
      split; [|done]. exists u. split; [by right|done].
  - intros [(u & [->|Hu]%elem_of_cons & Hn) Hnone].
    + exists t'. split; [by left|]. rewrite Ht. by apply list_elem_of_filter.
    + destruct (proj2 IH) as (u' & ? & ?); [split; [by exists u|done]|].
      exists u'. split; [by right|done].
Qed.

End names_left.



(** ** A value that cannot be converted *)

Lemma for_each_app_raises {X} (body : X → X * outcome Z) before x after count e :
  Forall (λ y, ∃ n, (body y).2 = Returns n) before →
  (body x).2 = Raises e →
  for_each body (before ++ x :: after)%list count =
    ((((λ y, (body y).1) <$> before) ++ (body x).1 :: after)%list, Raises e).
Proof.
  intros Hbefore Hx. revert count.
  induction Hbefore as [|y before [n Hy] _ IH]; intros count;
    cbn [app for_each fmap list_fmap].
  - destruct (body x) as [x' [n|e']]; cbn in Hx; [done|]. by injection Hx as <-.
  - destruct (body y) as [y' [m|e']]; cbn in Hy; [|done]. by rewrite IH.
Qed.

Lemma for_each_all_return {X} (body : X → X * outcome Z) xs count :
  Forall (λ y, ∃ n, (body y).2 = Returns n) xs →
  ∃ n, for_each body xs count = ((λ y, (body y).1) <$> xs, Returns n).
Proof.
  intros Hxs. revert count.
  induction Hxs as [|y xs [n Hy] _ IH]; intros count; cbn [for_each fmap list_fmap].
  - by exists count.
  - destruct (body y) as [y' [m|e']]; cbn in Hy; [|done].
    destruct (IH (count + m)%Z) as [k ->]. by exists k.
Qed.

(** X8.  When the conversion of a value raises inside a shape, the slides
    before its slide and the shapes before it on its slide stay rewritten,
    the shapes and slides behind it are not visited, and
    [replace_placeholders] returns 0: the return value 0 does not tell that
    nothing was changed. *)
Theorem X8_failure_keeps_earlier_rewrites :
  ∀ path slides_before before sh after slides_after data e,
    Forall (Forall (λ y, ∃ n, (replace_in_shape data y).2 = Returns n)) slides_before →
    Forall (λ y, ∃ n, (replace_in_shape data y).2 = Returns n) before →
    (replace_in_shape data sh).2 = Raises e →
    replace_placeholders
      (mkGenerator
         (Some (mkPresentation
                  (slides_before ++ (before ++ sh :: after) :: slides_after)%list)) path)
      data =
    (mkGenerator
       (Some (mkPresentation
                (((λ slide : Slide, (λ y, (replace_in_shape data y).1) <$> slide)
                    <$> slides_before) ++
                 (((λ y, (replace_in_shape data y).1) <$> before) ++
                  (replace_in_shape data sh).1 :: after) :: slides_after)%list)) path,
     Returns 0%Z).
Proof.
  intros path slides_before before sh after slides_after data e Hslides Hbefore Hsh.
  unfold replace_placeholders, replace_placeholders_body.
  cbn [presentation slides template_path].
  rewrite (for_each_app_raises _ _ _ _ _ e).
  - cbn [except_Exception].
    match goal with
    | |- (mkGenerator (Some (mkPresentation ?a)) _, _) =
         (mkGenerator (Some (mkPresentation ?b)) _, _) => assert (a = b) as ->; [|done]
    end.
    f_equal.
    + apply Forall_fmap_ext_1. eapply Forall_impl; [exact Hslides|].
      intros slide Hslide. cbn beta.
      by destruct (for_each_all_return (replace_in_shape data) slide 0 Hslide) as [n ->].
    + f_equal. by rewrite (for_each_app_raises _ _ _ _ _ e Hbefore Hsh).
  - eapply Forall_impl; [exact Hslides|]. intros slide Hslide. cbn beta.
    destruct (for_each_all_return (replace_in_shape data) slide 0 Hslide) as [n ->].
    by exists n.
  - by rewrite (for_each_app_raises _ _ _ _ _ e Hbefore Hsh).
Qed.

(** The hypotheses of X8 hold on a concrete input. *)
Lemma X8_witness :
  Forall (Forall (λ y, ∃ n,
            (replace_in_shape {[ "a" := Py.PyStr "X"; "b" := Py.PyObj None ]} y).2
            = Returns n)) [[text_box "{{a}}"; text_box "c"]] ∧
  Forall (λ y, ∃ n, (replace_in_shape {[ "a" := Py.PyStr "X"; "b" := Py.PyObj None ]} y).2
                    = Returns n) [text_box "{{a}}"] ∧
  (replace_in_shape {[ "a" := Py.PyStr "X"; "b" := Py.PyObj None ]} (text_box "{{b}}")).2 =
    Raises Py.StrError ∧
  replace_placeholders
      (mkGenerator
         (Some (mkPresentation
                  [[text_box "{{a}}"; text_box "c"];
                   [text_box "{{a}}"; text_box "{{b}}"; text_box "{{a}}"];
                   [text_box "{{a}}"]]))
         (Some "template.pptx"))
      {[ "a" := Py.PyStr "X"; "b" := Py.PyObj None ]} =
    (mkGenerator
       (Some (mkPresentation
                [[text_box "X"; text_box "c"];
                 [text_box "X"; text_box "{{b}}"; text_box "{{a}}"];
                 [text_box "{{a}}"]]))
       (Some "template.pptx"), Returns 0%Z).
Proof.
  assert (Forall (λ y, ∃ n,
            (replace_in_shape {[ "a" := Py.PyStr "X"; "b" := Py.PyObj None ]} y).2
            = Returns n) [text_box "{{a}}"]) as Hbefore.
  { constructor; [|constructor]. by exists 1%Z. }
  assert (Forall (Forall (λ y, ∃ n,
            (replace_in_shape {[ "a" := Py.PyStr "X"; "b" := Py.PyObj None ]} y).2
            = Returns n)) [[text_box "{{a}}"; text_box "c"]]) as Hslides.
  { constructor; [|constructor].
    constructor; [by exists 1%Z|]. constructor; [by exists 0%Z|constructor]. }
  split; [exact Hslides|]. split; [exact Hbefore|]. split; [reflexivity|].
  exact (X8_failure_keeps_earlier_rewrites (Some "template.pptx")
           [[text_box "{{a}}"; text_box "c"]] [text_box "{{a}}"]
           (text_box "{{b}}") [text_box "{{a}}"] [[text_box "{{a}}"]] _ Py.StrError
           Hslides Hbefore eq_refl).
Defined.

(** ** Saving *)

Section saving.

Implicit Types (fs : Storage) (self : PPTXGenerator) (path : string).

Lemma directories_made_refl fs : directories_made fs fs.
Proof. repeat split. intros path. by left. Qed.

Lemma makedirs_made fs names :
  directories_made fs (makedirs fs names).1.
Proof.
  revert fs. induction names as [|name names IH]; intros fs; cbn [makedirs].
  { apply directories_made_refl. }
  destruct (files fs !! name) as [[| |]|] eqn:Hname; try apply directories_made_refl.
  { apply IH. }
  case_decide; [apply directories_made_refl|].
  destruct (IH (mkStorage (<[name := Directory]> (files fs)) (read_only fs) (cwd fs)))
    as (Hro & Hcwd & Hfiles).
  split; [done|]. split; [done|]. intros path.
  destruct (Hfiles path) as [Hsame|[Hnone Hdir]]; cbn [files] in *.
  - destruct (decide (path = name)) as [->|Hne].
    + rewrite lookup_insert_eq in Hsame. right. by rewrite Hsame.
    + rewrite lookup_insert_ne in Hsame by done. by left.
  - destruct (decide (path = name)) as [->|Hne].
    + by rewrite lookup_insert_eq in Hnone.
    + rewrite lookup_insert_ne in Hnone by done. by right.
Qed.

Lemma make_parent_made fs path : directories_made fs (make_parent fs path).1.
Proof.
  unfold make_parent. case_decide; [apply directories_made_refl|apply makedirs_made].
Qed.

(** Where only directories and free places are on the way, [os.makedirs]
    returns; it leaves alone what is not on the way. *)
Lemma makedirs_ok fs names :
  (∀ a, a ∈ names →
        files fs !! a = Some Directory ∨ (files fs !! a = None ∧ a ∉ read_only fs)) →
  (makedirs fs names).2 = Returns () ∧
  ∀ path, path ∉ names → files (makedirs fs names).1 !! path = files fs !! path.
Proof.
  revert fs. induction names as [|name names IH]; intros fs Hnames; cbn [makedirs].
  { by split. }
  destruct (Hnames name) as [Hdir|[Hnone Hrw]]; [by left|..].
  - rewrite Hdir. destruct (IH fs) as [Hr Hfiles].
    { intros a Ha. apply Hnames. by right. }
    split; [done|]. intros path Hpath. apply Hfiles. intros Hin. apply Hpath. by right.
  - rewrite Hnone, decide_False by done.
    destruct (IH (mkStorage (<[name := Directory]> (files fs)) (read_only fs) (cwd fs)))
      as [Hr Hfiles].
    { intros a Ha. cbn [files read_only]. destruct (decide (a = name)) as [->|Hne].
      - left. apply lookup_insert_eq.
      - rewrite lookup_insert_ne by done. apply Hnames. by right. }
    split; [done|]. intros path Hpath. rewrite Hfiles.
    + cbn [files]. apply lookup_insert_ne. intros ->. apply Hpath. by left.
    + intros Hin. apply Hpath. by right.
Qed.

(** The run of [save_presentation] at a path where a presentation can be
    saved. *)
Lemma save_presentation_writable fs self prs path :
  presentation self = Some prs → writable fs path →
  ∃ fs1, directories_made fs fs1 ∧ files fs1 !! path = files fs !! path ∧
         save_presentation fs self path =
           ((mkStorage (<[path := PptxFile prs]> (files fs1)) (read_only fs) (cwd fs), self),
            Returns true).
Proof.
  intros Hprs ((Hname & Hway) & Hpath & Hrw & Hdir).
  unfold save_presentation, save_presentation_body. rewrite Hprs.
  pose proof (make_parent_made fs path) as Hmade. unfold make_parent in *.
  rewrite decide_False in * by done.
  destruct (makedirs_ok fs _ Hway) as [Hr Hfiles]. specialize (Hfiles path Hpath).
  destruct (makedirs fs _) as [fs1 r]. cbn in Hr, Hfiles, Hmade. subst r.
  destruct Hmade as (Hro & Hcwd & Hmade). exists fs1. split; [done|]. split; [done|].
  rewrite Hro, Hcwd, Hfiles.
  destruct (files fs !! path) as [[| |]|] eqn:E; try done; by rewrite decide_False by done.
Qed.

(** What [save_presentation] does to the storage, whatever it returns. *)
Lemma save_presentation_storage fs self path :
  ∃ fs' saved,
    save_presentation fs self path = ((fs', self), Returns saved) ∧
    read_only fs' = read_only fs ∧ cwd fs' = cwd fs ∧
    (∀ other, other ≠ path →
       files fs' !! other = files fs !! other ∨
       (files fs !! other = None ∧ files fs' !! other = Some Directory)) ∧
    (if saved then ∃ prs, presentation self = Some prs ∧
                          files fs' !! path = Some (PptxFile prs)
     else directories_made fs fs').
Proof.
  unfold save_presentation, save_presentation_body.
  destruct (presentation self) as [prs|] eqn:Hprs.
  2:{ exists fs, false. repeat split; try done; [by left|apply directories_made_refl]. }
  pose proof (make_parent_made fs path) as Hmade.
  destruct (make_parent fs path) as [fs1 [[]|e]]; cbn [fst] in Hmade.
  2:{ exists fs1, false. destruct Hmade as (? & ? & ?). by repeat split. }
  assert (∃ fs' saved,
            (if decide (path ∈ read_only fs1) then ((fs1, self), Raises Py.OSError)
             else ((mkStorage (<[path := PptxFile prs]> (files fs1)) (read_only fs1)
                      (cwd fs1), self), Returns true)) = ((fs', self), saved) ∧
            except_Exception false ((fs', self), saved) =
              ((fs', self), Returns (if saved is Returns true then true else false)) ∧
            read_only fs' = read_only fs ∧ cwd fs' = cwd fs ∧
            (∀ other, other ≠ path →
               files fs' !! other = files fs !! other ∨
               (files fs !! other = None ∧ files fs' !! other = Some Directory)) ∧
            (if saved is Returns true
             then files fs' !! path = Some (PptxFile prs)
             else directories_made fs fs')) as Hwrite.
  { destruct Hmade as (Hro & Hcwd & Hfiles). case_decide.
    - exists fs1, (Raises Py.OSError). by repeat split.
    - eexists _, (Returns true). split; [done|]. split; [done|]. cbn [files read_only cwd].
      split; [done|]. split; [done|]. split; [|apply lookup_insert_eq].
      intros other Hne. rewrite lookup_insert_ne by done. apply Hfiles. }
  destruct Hwrite as (fs' & saved & Hw & Hex & Hro & Hcwd & Hother & Hpath).
  destruct (files fs1 !! path) as [[| |]|] eqn:E.
  - rewrite Hw, Hex. eexists _, _. split; [done|]. repeat split; try done.
    destruct saved as [[]|]; [by exists prs|done..].
  - rewrite Hw, Hex. eexists _, _. split; [done|]. repeat split; try done.
    destruct saved as [[]|]; [by exists prs|done..].
  - exists fs1, false. destruct Hmade as (? & ? & ?). by repeat split.
  - rewrite Hw, Hex. eexists _, _. split; [done|]. repeat split; try done.
    destruct saved as [[]|]; [by exists prs|done..].
Qed.

Lemma save_presentation_read_only fs self path :
  path ∈ read_only fs → (save_presentation fs self path).2 = Returns false.
Proof.
  intros Hro. unfold save_presentation, save_presentation_body.
  destruct (presentation self) as [prs|]; [|done].
  pose proof (make_parent_made fs path) as (Hro' & _ & _).
  destruct (make_parent fs path) as [fs1 [[]|e]]; [|done]. cbn [fst] in Hro'.
  destruct (files fs1 !! path) as [[| |]|]; try done; rewrite decide_True; try done;
    by rewrite Hro'.
Qed.

End saving.

(** X9.  What [save_presentation] wrote, [load_template] reads back: after a
    save that returns [True], loading the path, into any generator, returns
    [True] and gives the presentation that was saved. *)
Theorem X9_save_then_load :
  ∀ fs self path other,
    (save_presentation fs self path).2 = Returns true →
    load_template (save_presentation fs self path).1.1 other path =
      (mkGenerator (presentation self) (Some path), Returns true) ∧
    (save_presentation fs self path).1.2 = self.
Proof.
  intros fs self path other Hsaved.
  destruct (save_presentation_storage fs self path)
    as (fs' & saved & Hsave & _ & _ & _ & Hpath).
  rewrite Hsave in *. cbn in Hsaved. injection Hsaved as ->.
  destruct Hpath as (prs & Hprs & Hfile). cbn [fst snd]. split; [|done].
  unfold load_template, load_template_body. by rewrite Hfile, Hprs.
Qed.

(** The hypotheses of X9 hold on a concrete input. *)
Lemma X9_witness :
  (save_presentation storage (deck [text_box "{{x}}"]) "out.pptx").2 = Returns true ∧
  load_template (save_presentation storage (deck [text_box "{{x}}"]) "out.pptx").1.1
      init "out.pptx" =
    (mkGenerator (presentation (deck [text_box "{{x}}"])) (Some "out.pptx"), Returns true) ∧
  (save_presentation storage (deck [text_box "{{x}}"]) "out.pptx").1.2 =
    deck [text_box "{{x}}"].
Proof.
  split; [reflexivity|].
  apply (X9_save_then_load storage (deck [text_box "{{x}}"]) "out.pptx" init). reflexivity.
Defined.



(** ** Presentations without text *)

(** X11.  A loaded presentation in which no shape has a text frame or a
    table cell has an empty placeholder list, and [replace_placeholders]
    returns 0 on it and changes nothing; the presentation
    [create_new_presentation] makes is such a one, and that method returns
    [True] and forgets the template path. *)
Theorem X11_nothing_to_find_without_texts :
  (∀ self prs data,
     presentation self = Some prs → Spec.presentation_texts prs = [] →
     get_placeholders_list self = (self, Returns []) ∧
     replace_placeholders self data = (self, Returns 0%Z)) ∧
  (∀ self,
     ∃ prs, create_new_presentation self = (mkGenerator (Some prs) None, Returns true) ∧
            Spec.presentation_texts prs = []).
Proof.
  split.
  - intros self prs data Hprs Htexts. split.
    + rewrite (get_placeholders_list_loaded self prs Hprs).
      by rewrite extract_from_presentation_names, Htexts.
    + apply (replace_placeholders_unmatched self prs); [done|].
      apply unmatched_of_texts. rewrite Htexts. by intros t ?%elem_of_nil.
  - intros self. by exists (mkPresentation []).
Qed.

(** The hypotheses of X11 hold on a concrete input. *)
Lemma X11_witness :
  presentation (deck [mkShape 4 13 None None]) =
    Some (mkPresentation [[mkShape 4 13 None None]]) ∧
  Spec.presentation_texts (mkPresentation [[mkShape 4 13 None None]]) = [] ∧
  get_placeholders_list (deck [mkShape 4 13 None None]) =
    (deck [mkShape 4 13 None None], Returns []) ∧
  replace_placeholders (deck [mkShape 4 13 None None]) {[ "a" := Py.PyStr "X" ]} =
    (deck [mkShape 4 13 None None], Returns 0%Z).
Proof.
  split; [reflexivity|]. split; [reflexivity|].
  apply (proj1 X11_nothing_to_find_without_texts _
           (mkPresentation [[mkShape 4 13 None None]])); reflexivity.
Defined.

(** ** Slides and tables added *)

Lemma find_first {X} (f : X → bool) (xs : list X) :
  match find f xs with
  | Some x => ∃ before after, xs = (before ++ x :: after)%list ∧ f x = true ∧
                              Forall (λ y, f y = false) before
  | None => Forall (λ y, f y = false) xs
  end.
Proof.
  induction xs as [|y xs IH]; cbn [find]; [constructor|].
  destruct (f y) eqn:Hy.
  - by exists [], xs.
  - destruct (find f xs) as [x|].
    + destruct IH as (before & after & -> & Hx & Hbefore).
      exists (y :: before), after. split; [done|]. split; [done|]. by constructor.
    + by constructor.
Qed.

(** X12.  [add_slide] returns -1 and changes nothing when no presentation is
    loaded or the presentation has no layout; otherwise it appends one slide
    behind the slides there are and returns its index, the former number of
    slides.  The slide is made from the first layout that has the given
    name, and from the first layout of all when no name is given or no
    layout has the name. *)
Theorem X12_add_slide :
  ∀ slide_layouts name self,
    (presentation self = None ∨ slide_layouts = [] →
       add_slide slide_layouts name self = (self, Returns (-1)%Z)) ∧
    (∀ prs first rest,
       presentation self = Some prs → slide_layouts = first :: rest →
       ∃ layout,
         add_slide slide_layouts name self =
           (mkGenerator (Some (mkPresentation (slides prs ++ [layout_shapes layout])%list))
              (template_path self),
            Returns (Z.of_nat (length (slides prs)))) ∧
         match name with
         | None => layout = first
         | Some n =>
             (∃ before after,
                slide_layouts = (before ++ layout :: after)%list ∧
                layout_name layout = n ∧
                Forall (λ l, layout_name l ≠ n) before) ∨
             (layout = first ∧ Forall (λ l, layout_name l ≠ n) slide_layouts)
         end).
Proof.
  intros slide_layouts name self. unfold add_slide, except_sentinel, add_slide_body. split.
  - intros [Hnone | ->]; [by rewrite Hnone|].
    destruct (presentation self); [|done]. by destruct name.
  - intros prs first rest Hprs ->. rewrite Hprs.
    assert (∀ layout, (mkGenerator (Some (mkPresentation (slides prs ++ [layout_shapes layout])%list))
                (template_path self),
              Returns (Z.of_nat (length (slides prs ++ [layout_shapes layout])%list) - 1)%Z) =
            (mkGenerator (Some (mkPresentation (slides prs ++ [layout_shapes layout])%list))
                (template_path self),
              Returns (Z.of_nat (length (slides prs))))) as Hidx.
    { intros layout. do 2 f_equal. rewrite length_app. cbn. lia. }
    destruct name as [n|].
    + pose proof (find_first (λ layout, String.eqb (layout_name layout) n) (first :: rest))
        as Hfind.
      destruct (find _ (first :: rest)) as [layout|].
      * exists layout. rewrite Hidx. split; [done|]. left.
        destruct Hfind as (before & after & Heq & Hn & Hbefore).
        exists before, after. split; [done|]. split; [by apply String.eqb_eq|].
        eapply Forall_impl; [exact Hbefore|]. intros l Hl. by apply String.eqb_neq.
      * exists first. cbn [lookup list_lookup]. rewrite Hidx. split; [done|]. right.
        split; [done|]. eapply Forall_impl; [exact Hfind|].
        intros l Hl. by apply String.eqb_neq.
    + exists first. cbn [lookup list_lookup]. rewrite Hidx. by split.
Qed.

(** The hypotheses of X12 hold on a concrete input. *)
Lemma X12_witness :
  presentation (deck [text_box "t"]) = Some (mkPresentation [[text_box "t"]]) ∧
  ∃ layout,
    add_slide [mkLayout "Title Slide" []; mkLayout "Blank" [text_box "first"];
               mkLayout "Blank" [text_box "second"]] (Some "Blank") (deck [text_box "t"]) =
      (mkGenerator
         (Some (mkPresentation
                  (slides (mkPresentation [[text_box "t"]]) ++ [layout_shapes layout])%list))
         (template_path (deck [text_box "t"])),
       Returns (Z.of_nat (length (slides (mkPresentation [[text_box "t"]]))))) ∧
    ((∃ before after,
        [mkLayout "Title Slide" []; mkLayout "Blank" [text_box "first"];
         mkLayout "Blank" [text_box "second"]] = (before ++ layout :: after)%list ∧
        layout_name layout = "Blank" ∧
        Forall (λ l, layout_name l ≠ "Blank") before) ∨
     (layout = mkLayout "Title Slide" [] ∧
      Forall (λ l, layout_name l ≠ "Blank")
        [mkLayout "Title Slide" []; mkLayout "Blank" [text_box "first"];
         mkLayout "Blank" [text_box "second"]])).
Proof.
  split; [reflexivity|].
  exact (proj2 (X12_add_slide
                  [mkLayout "Title Slide" []; mkLayout "Blank" [text_box "first"];
                   mkLayout "Blank" [text_box "second"]] (Some "Blank") (deck [text_box "t"]))
           (mkPresentation [[text_box "t"]]) (mkLayout "Title Slide" [])
           [mkLayout "Blank" [text_box "first"]; mkLayout "Blank" [text_box "second"]]
           eq_refl eq_refl).
Defined.

(** X13.  [add_table] returns [False] and changes nothing when no
    presentation is loaded, when the slide index is negative or not below
    the number of slides, when the data have no row, or when their first row
    is empty. *)
Theorem X13_add_table_rejects :
  ∀ next_shape_id slide_idx table_data self,
    presentation self = None ∨
    (slide_idx < 0)%Z ∨
    (∃ prs, presentation self = Some prs ∧ (Z.of_nat (length (slides prs)) ≤ slide_idx)%Z) ∨
    table_data = [] ∨
    (∃ rest, table_data = [] :: rest) →
    add_table next_shape_id slide_idx table_data self = (self, Returns false).
Proof.
  intros next_shape_id slide_idx table_data self H.
  unfold add_table, except_sentinel, add_table_body.
  destruct (presentation self) as [prs|] eqn:Hprs; [|done].
  case_decide as Hidx; [done|].
  destruct H as [?|[?|[(prs' & [= <-] & ?)|[-> | [rest ->]]]]]; try done; lia.
Qed.

(** The hypotheses of X13 hold on a concrete input. *)
Lemma X13_witness :
  (presentation (deck [text_box "t"]) = None ∨
   (1 < 0)%Z ∨
   (∃ prs, presentation (deck [text_box "t"]) = Some prs ∧
           (Z.of_nat (length (slides prs)) ≤ 1)%Z) ∨
   ([[Py.PyStr "a"]] = [] :> list (list Py.PyValue)) ∨
   (∃ rest, [[Py.PyStr "a"]] = [] :: rest)) ∧
  add_table (λ shapes, S (length shapes)) 1 [[Py.PyStr "a"]] (deck [text_box "t"]) =
    (deck [text_box "t"], Returns false).
Proof.
  assert (∃ prs, presentation (deck [text_box "t"]) = Some prs ∧
                 (Z.of_nat (length (slides prs)) ≤ 1)%Z) as Hidx.
  { exists (mkPresentation [[text_box "t"]]). split; [reflexivity|]. cbn. lia. }
  split; [by right; right; left|].
  apply X13_add_table_rejects. by right; right; left.
Defined.

Section tables.

Local Open Scope nat_scope.

Implicit Types (cells : Row) (tbl : Table) (row_data : list Py.PyValue).
Implicit Types (table_data : list (list Py.PyValue)).

Lemma fill_row_ok cols j row_data cells :
  Forall (λ v, ∃ t, Py.str v = inr t) row_data →
  ∃ cells', fill_row cols j row_data cells = (cells', Value ()) ∧
    length cells' = length cells ∧
    (∀ k, k < j → cells' !! k = cells !! k) ∧
    (∀ k, j + length row_data ≤ k → cells' !! k = cells !! k) ∧
    (∀ k v c, row_data !! k = Some v → j + k < cols → cells' !! (j + k) = Some c →
              ∃ t, Py.str v = inr t ∧ cell_text c = Spec.written t).
Proof.
  intros Hconv. revert j cells.
  induction Hconv as [|v row_data [t Hv] _ IH]; intros j cells; cbn [fill_row].
  { exists cells. repeat split; done. }
  case_decide as Hj.
  - rewrite Hv.
    destruct (IH (S j) (alter (λ cell, set_text_frame_text cell t) j cells))
      as (cells' & -> & Hlen & Hlow & Hhigh & Htext).
    exists cells'. split; [done|]. rewrite length_alter in Hlen. split; [done|].
    split; [|split].
    + intros k Hk. rewrite Hlow by lia. apply list_lookup_alter_ne. lia.
    + intros k Hk. cbn [length] in Hk. rewrite Hhigh by lia.
      apply list_lookup_alter_ne. lia.
    + intros [|k] v' c Hk Hcol Hc.
      * cbn in Hk. injection Hk as <-. rewrite Nat.add_0_r in Hc.
        rewrite Hlow in Hc by lia. rewrite list_lookup_alter_eq in Hc.
        destruct (cells !! j) as [c0|]; [|done]. cbn in Hc. injection Hc as <-.
        exists t. split; [done|]. unfold cell_text. by rewrite text_frame_text_set.
      * cbn in Hk. apply (Htext k v' c Hk); [lia|]. by rewrite <- Hc, Nat.add_succ_r.
  - destruct (IH (S j) cells) as (cells' & -> & Hlen & Hlow & Hhigh & Htext).
    exists cells'. split; [done|]. split; [done|]. split; [|split].
    + intros k Hk. apply Hlow. lia.
    + intros k Hk. cbn [length] in Hk. apply Hhigh. lia.
    + intros [|k] v' c Hk Hcol Hc; [lia|].
      cbn in Hk. apply (Htext k v' c Hk); [lia|]. by rewrite <- Hc, Nat.add_succ_r.
Qed.

Lemma fill_table_ok cols i table_data tbl :
  Forall (Forall (λ v, ∃ t, Py.str v = inr t)) table_data →
  i + length table_data ≤ length tbl →
  ∃ tbl', fill_table cols i table_data tbl = (tbl', Value ()) ∧
    length tbl' = length tbl ∧
    (∀ k, k < i → tbl' !! k = tbl !! k) ∧
    (∀ k row_data cells, table_data !! k = Some row_data → tbl !! (i + k) = Some cells →
       ∃ cells', tbl' !! (i + k) = Some cells' ∧
                 fill_row cols 0 row_data cells = (cells', Value ())).
Proof.
  intros Hconv. revert i tbl.
  induction Hconv as [|row_data table_data Hrow _ IH]; intros i tbl Hlen; cbn [fill_table].
  { exists tbl. repeat split; done. }
  cbn [length] in Hlen.
  destruct (lookup_lt_is_Some_2 tbl i ltac:(lia)) as [cells Hcells]. rewrite Hcells.
  destruct (fill_row_ok cols 0 row_data cells Hrow) as (cells' & Hfill & _).
  rewrite Hfill.
  destruct (IH (S i) (<[i := cells']> tbl)) as (tbl' & -> & Hlen' & Hlow & Hrows).
  { rewrite length_insert. lia. }
  rewrite length_insert in Hlen'. exists tbl'. split; [done|]. split; [done|]. split.
  - intros k Hk. rewrite Hlow by lia. apply list_lookup_insert_ne. lia.
  - intros [|k] row_data' cells0 Hk Hc.
    + cbn in Hk. injection Hk as <-. rewrite Nat.add_0_r in *.
      rewrite Hcells in Hc. injection Hc as <-. exists cells'. split; [|done].
      rewrite Hlow by lia. apply list_lookup_insert_eq. lia.
    + cbn in Hk. rewrite Nat.add_succ_r in *.
      apply (Hrows k row_data' cells0 Hk). rewrite <- Hc.
      apply list_lookup_insert_ne. lia.
Qed.

(** What [add_table] does when it succeeds. *)
Lemma add_table_ok next_shape_id self prs idx slide first rest :
  presentation self = Some prs → slides prs !! idx = Some slide → first ≠ [] →
  Forall (Forall (λ v, ∃ t, Py.str v = inr t)) (first :: rest) →
  ∃ tbl,
    add_table next_shape_id (Z.of_nat idx) (first :: rest) self =
      (mkGenerator
         (Some (mkPresentation
                  (<[idx := (slide ++ [mkShape (next_shape_id slide) 19 None (Some tbl)])%list]>
                     (slides prs))))
         (template_path self), Returns true) ∧
    length tbl = S (length rest) ∧
    Forall (λ cells, length cells = length first) tbl ∧
    (∀ i j cells cell, tbl !! i = Some cells → cells !! j = Some cell →
       match (first :: rest) !! i ≫= (λ row_data, row_data !! j) with
       | Some v => ∃ t, Py.str v = inr t ∧ cell_text cell = Spec.written t
       | None => cell_text cell = ""
       end).
Proof.
  intros Hprs Hslide Hfirst Hconv.
  unfold add_table, except_sentinel, add_table_body. rewrite Hprs.
  pose proof (lookup_lt_Some _ _ _ Hslide) as Hidx.
  rewrite decide_False by lia.
  destruct first as [|v first']; [done|]. rewrite Nat2Z.id, Hslide.
  set (cols := length (v :: first')). set (table_data := (v :: first') :: rest).
  destruct (fill_table_ok cols 0 table_data (new_table (length table_data) cols) Hconv)
    as (tbl & Hfill & Hlen & _ & Hrows).
  { unfold new_table. rewrite length_replicate. lia. }
  rewrite Hfill. exists tbl. split; [done|].
  unfold new_table in Hlen. rewrite length_replicate in Hlen. split; [done|].
  assert (∀ i cells, tbl !! i = Some cells →
            ∃ row_data, table_data !! i = Some row_data ∧
              fill_row cols 0 row_data (replicate cols empty_cell) = (cells, Value ()))
    as Hrow.
  { intros i cells Hcells. pose proof (lookup_lt_Some _ _ _ Hcells) as Hi.
    destruct (lookup_lt_is_Some_2 table_data i ltac:(lia)) as [row_data Hrd].
    exists row_data. split; [done|].
    destruct (Hrows i row_data (replicate cols empty_cell) Hrd) as (cells' & Hc' & Hf).
    { unfold new_table. apply lookup_replicate_2. lia. }
    cbn in Hc'. rewrite Hcells in Hc'. by injection Hc' as <-. }
  split.
  - apply Forall_lookup. intros i cells Hcells.
    destruct (Hrow i cells Hcells) as (row_data & Hrd & Hf).
    destruct (fill_row_ok cols 0 row_data (replicate cols empty_cell)) as (c' & Hf' & Hl & _).
    { eapply Forall_lookup_1 in Hconv; done. }
    rewrite Hf in Hf'. injection Hf' as <-. by rewrite Hl, length_replicate.
  - intros i j cells cell Hcells Hcell.
    destruct (Hrow i cells Hcells) as (row_data & Hrd & Hf).
    fold table_data. rewrite Hrd. cbn [mbind option_bind].
    destruct (fill_row_ok cols 0 row_data (replicate cols empty_cell))
      as (c' & Hf' & Hl & _ & Hhigh & Htext).
    { eapply Forall_lookup_1 in Hconv; done. }
    rewrite Hf in Hf'. injection Hf' as <-. rewrite length_replicate in Hl.
    pose proof (lookup_lt_Some _ _ _ Hcell) as Hj.
    destruct (row_data !! j) as [v'|] eqn:Hv.
    + apply (Htext j v' cell Hv); [lia|done].
    + apply lookup_ge_None in Hv. rewrite Hhigh in Hcell by (cbn; lia).
      apply lookup_replicate in Hcell as [-> _]. reflexivity.
Qed.

Lemma texts_after_insert (sls : list Slide) idx slide shape t :
  sls !! idx = Some slide →
  t ∈ (<[idx := (slide ++ [shape])%list]> sls ≫= λ slide, slide ≫= Spec.shape_texts) ↔
  t ∈ (sls ≫= λ slide, slide ≫= Spec.shape_texts) ∨ t ∈ Spec.shape_texts shape.
Proof.
  intros Hslide. rewrite !list_elem_of_bind. split.
  - intros (slide' & Ht & Hin). apply list_elem_of_lookup in Hin as [k Hk].
    destruct (decide (k = idx)) as [->|Hne].
    + rewrite list_lookup_insert_eq in Hk by by eapply lookup_lt_Some.
      injection Hk as <-. rewrite bind_app in Ht. apply elem_of_app in Ht as [Ht|Ht].
      * left. exists slide. split; [done|]. by eapply list_elem_of_lookup_2.
      * right. cbn in Ht. by rewrite app_nil_r in Ht.
    + rewrite list_lookup_insert_ne in Hk by done.
      left. exists slide'. split; [done|]. by eapply list_elem_of_lookup_2.
  - intros [(slide' & Ht & Hin)|Ht].
    + apply list_elem_of_lookup in Hin as [k Hk].
      destruct (decide (k = idx)) as [->|Hne].
      * rewrite Hslide in Hk. injection Hk as <-.
        exists (slide ++ [shape])%list. split.
        -- rewrite bind_app. apply elem_of_app. by left.
        -- apply (list_elem_of_lookup_2 _ idx). apply list_lookup_insert_eq.
           by eapply lookup_lt_Some.
      * exists slide'. split; [done|]. apply (list_elem_of_lookup_2 _ k).
        by rewrite list_lookup_insert_ne.
    + exists (slide ++ [shape])%list. split.
      * rewrite bind_app. apply elem_of_app. right. cbn. by rewrite app_nil_r.
      * apply (list_elem_of_lookup_2 _ idx). apply list_lookup_insert_eq.
        by eapply lookup_lt_Some.
Qed.

End tables.





Section template.

Lemma fill_template_table :
  fill_table 4 0 template_table (new_table 2 4) = (template_cells, Value ()).
Proof. vm_compute. reflexivity. Qed.

(** The run of [create_template_from_data] on layouts that are not empty. *)
Lemma create_template_from_data_ok next_shape_id l0 layouts data output_path fs self :
  let slide1 := title_slide_shape <$> layout_shapes l0 in
  let slide2 := ((content_slide_shape <$> layout_shapes l0) ++
                 [mkShape (next_shape_id (content_slide_shape <$> layout_shapes l0)) 19 None
                    (Some template_cells)])%list in
  let prs := mkPresentation [slide1; slide2] in
  create_template_from_data next_shape_id (l0 :: layouts) data output_path fs self =
    (((save_presentation fs (mkGenerator (Some prs) None) output_path).1.1,
      mkGenerator (Some prs) None), Returns true).
Proof.
  intros slide1 slide2 prs.
  unfold create_template_from_data, except_sentinel, create_template_from_data_body.
  unfold bind, on_generator, on_generator_body, on_both, create_new_presentation, ret, lift.
  unfold add_slide, add_slide_body, on_slide, add_table, add_table_body, except_sentinel.
  cbn -[fill_table template_table new_table decide py_index save_presentation].
  change (py_index 1 (Z.of_nat 1 - 1)) with (Some 0%nat).
  cbn -[fill_table template_table new_table decide py_index save_presentation].
  change (py_index 2 (Z.of_nat 2 - 1)) with (Some 1%nat).
  cbn -[fill_table template_table new_table decide py_index save_presentation].
  change (Z.of_nat 2 - 1)%Z with 1%Z. change (Z.of_nat 2) with 2%Z.
  rewrite decide_False by lia.
  change (Z.to_nat 1) with 1%nat.
  change (length template_table) with 2%nat.
  set (tt := template_table). unfold template_table in tt. subst tt.
  cbn -[fill_table template_table new_table decide py_index save_presentation].
  fold template_table. rewrite fill_template_table.
  cbn -[save_presentation]. fold slide1 slide2 prs.
  by destruct (save_presentation_storage fs (mkGenerator (Some prs) None) output_path)
    as (fs' & saved & -> & _).
Qed.

Lemma shape_texts_with_text sh tf t :
  Spec.printable t = true →
  Spec.shape_texts (with_text sh tf t) =
  (t :: match table sh with
        | Some tbl => tbl ≫= λ row, cell_text <$> row
        | None => []
        end)%list.
Proof.
  intros Ht. unfold Spec.shape_texts, with_text. cbn.
  by rewrite text_frame_text_set, written_printable.
Qed.

Lemma findall_titulo : Re.findall "{{titulo}}" = ["titulo"].
Proof. vm_compute. reflexivity. Qed.

Lemma findall_subtitulo : Re.findall "{{subtitulo}}" = ["subtitulo"].
Proof. vm_compute. reflexivity. Qed.

Lemma findall_resultados : Re.findall "Resultados" = [].
Proof. vm_compute. reflexivity. Qed.

Lemma template_cells_names n :
  (∃ t, t ∈ (template_cells ≫= λ row, cell_text <$> row) ∧ n ∈ Re.findall t) ↔
  n ∈ ["crescimento"; "total_2024"; "total_2025"].
Proof.
  change (template_cells ≫= λ row, cell_text <$> row)
    with ["Métrica"; "2024"; "2025"; "Variação";
          "Total"; "{{total_2024}}"; "{{total_2025}}"; "{{crescimento}}"].
  split.
  - intros (t & Ht & Hn). rewrite !elem_of_cons in Ht.
    destruct Ht as [->|[->|[->|[->|[->|[->|[->|[->|Ht]]]]]]]];
      try (by apply elem_of_nil in Ht); vm_compute in Hn;
      try (by apply elem_of_nil in Hn);
      apply list_elem_of_singleton in Hn as ->; rewrite !elem_of_cons; auto.
  - rewrite !elem_of_cons.
    intros [->|[->|[->|Hn]]]; [| | |by apply elem_of_nil in Hn].
    + exists "{{crescimento}}". split; [rewrite !elem_of_cons; auto 10|].
      vm_compute. by left.
    + exists "{{total_2024}}". split; [rewrite !elem_of_cons; auto 10|].
      vm_compute. by left.
    + exists "{{total_2025}}". split; [rewrite !elem_of_cons; auto 10|].
      vm_compute. by left.
Qed.

Lemma title_shape_names sh n :
  (∀ t, t ∈ Spec.shape_texts sh → Re.findall t = []) →
  (∃ t, t ∈ Spec.shape_texts (title_slide_shape sh) ∧ n ∈ Re.findall t) ↔
  (n = "titulo" ∧
   ∃ tf, text_frame sh = Some tf ∧ text_frame_text tf = "Click to add title") ∨
  (n = "subtitulo" ∧
   ∃ tf, text_frame sh = Some tf ∧ text_frame_text tf = "Click to add subtitle").
Proof.
  intros Hclean.
  assert (∀ t, n ∈ Re.findall t → t ∈ Spec.shape_texts sh → False) as Hno.
  { intros t Hn Ht. rewrite (Hclean t Ht) in Hn. by apply elem_of_nil in Hn. }
  assert (∀ tf t, text_frame sh = Some tf →
            t ∈ match table sh with
                | Some tbl => tbl ≫= λ row, cell_text <$> row
                | None => []
                end → t ∈ Spec.shape_texts sh) as Htable.
  { intros tf t Htf Ht. unfold Spec.shape_texts. apply elem_of_app. by right. }
  unfold title_slide_shape. destruct (text_frame sh) as [tf|] eqn:Htf.
  - case_decide as Htitle; [|case_decide as Hsub].
    + rewrite shape_texts_with_text by reflexivity. split.
      * intros (t & [->|Ht]%elem_of_cons & Hn).
        -- rewrite findall_titulo in Hn. apply list_elem_of_singleton in Hn as ->.
           left. split; [done|]. by exists tf.
        -- destruct (Hno t Hn (Htable tf t eq_refl Ht)).
      * intros [[-> _]|[-> (tf' & [= <-] & Hsub)]].
        -- exists "{{titulo}}". split; [by left|]. rewrite findall_titulo. by left.
        -- rewrite Htitle in Hsub. discriminate Hsub.
    + rewrite shape_texts_with_text by reflexivity. split.
      * intros (t & [->|Ht]%elem_of_cons & Hn).
        -- rewrite findall_subtitulo in Hn. apply list_elem_of_singleton in Hn as ->.
           right. split; [done|]. by exists tf.
        -- destruct (Hno t Hn (Htable tf t eq_refl Ht)).
      * intros [[-> (tf' & [= <-] & Htitle')]|[-> _]].
        -- done.
        -- exists "{{subtitulo}}". split; [by left|]. rewrite findall_subtitulo. by left.
    + split.
      * intros (t & Ht & Hn). destruct (Hno t Hn Ht).
      * by intros [[-> (tf' & [= <-] & ?)]|[-> (tf' & [= <-] & ?)]].
  - split.
    + intros (t & Ht & Hn). destruct (Hno t Hn Ht).
    + by intros [[-> (tf' & [=] & ?)]|[-> (tf' & [=] & ?)]].
Qed.

Lemma content_shape_names sh t :
  (∀ t, t ∈ Spec.shape_texts sh → Re.findall t = []) →
  t ∈ Spec.shape_texts (content_slide_shape sh) → Re.findall t = [].
Proof.
  intros Hclean. unfold content_slide_shape.
  destruct (text_frame sh) as [tf|] eqn:Htf; [|apply Hclean].
  case_decide as Htitle; [|apply Hclean].
  rewrite shape_texts_with_text by reflexivity. intros [->|Ht]%elem_of_cons.
  - apply findall_resultados.
  - apply Hclean. unfold Spec.shape_texts. apply elem_of_app. by right.
Qed.

(** The names in the presentation [create_template_from_data] builds. *)
Lemma template_names next_shape_id l0 n :
  (∀ sh t, sh ∈ layout_shapes l0 → t ∈ Spec.shape_texts sh → Re.findall t = []) →
  n ∈ Py.sorted (extract_from_presentation
         (mkPresentation
            [title_slide_shape <$> layout_shapes l0;
             ((content_slide_shape <$> layout_shapes l0) ++
              [mkShape (next_shape_id (content_slide_shape <$> layout_shapes l0)) 19 None
                 (Some template_cells)])%list])) ↔
  n ∈ ["crescimento"; "total_2024"; "total_2025"] ∨
  (n = "titulo" ∧
   ∃ sh tf, sh ∈ layout_shapes l0 ∧ text_frame sh = Some tf ∧
            text_frame_text tf = "Click to add title") ∨
  (n = "subtitulo" ∧
   ∃ sh tf, sh ∈ layout_shapes l0 ∧ text_frame sh = Some tf ∧
            text_frame_text tf = "Click to add subtitle").
Proof.
  intros Hclean. rewrite elem_of_listed. unfold Spec.presentation_texts.
  cbn [slides mbind list_bind]. rewrite app_nil_r, bind_app. cbn [mbind list_bind].
  rewrite app_nil_r. rewrite <- template_cells_names. split.
  - intros (t & Ht & Hn). rewrite !elem_of_app in Ht. destruct Ht as [Ht|[Ht|Ht]].
    + apply list_elem_of_bind in Ht as (sh' & Ht & Hsh').
      apply list_elem_of_fmap in Hsh' as (sh & -> & Hsh). right.
      destruct (proj1 (title_shape_names sh n (λ t, Hclean sh t Hsh))) as [[-> (tf & ? & ?)]|[-> (tf & ? & ?)]].
      { by exists t. }
      * left. split; [done|]. by exists sh, tf.
      * right. split; [done|]. by exists sh, tf.
    + apply list_elem_of_bind in Ht as (sh' & Ht & Hsh').
      apply list_elem_of_fmap in Hsh' as (sh & -> & Hsh).
      rewrite (content_shape_names sh t (λ t, Hclean sh t Hsh) Ht) in Hn.
      by apply elem_of_nil in Hn.
    + left. by exists t.
  - intros [(t & Ht & Hn)|Hn].
    + exists t. split; [|done]. rewrite !elem_of_app. right. by right.
    + assert (∃ sh, sh ∈ layout_shapes l0 ∧
                ∃ t, t ∈ Spec.shape_texts (title_slide_shape sh) ∧ n ∈ Re.findall t)
        as (sh & Hsh & t & Ht & Hn').
      { destruct Hn as [[-> (sh & tf & Hsh & ? & ?)]|[-> (sh & tf & Hsh & ? & ?)]];
          exists sh; (split; [done|]); apply (title_shape_names sh _ (λ t, Hclean sh t Hsh)).
        - left. split; [done|]. by exists tf.
        - right. split; [done|]. by exists tf. }
      exists t. split; [|done]. rewrite !elem_of_app. left.
      apply list_elem_of_bind. exists (title_slide_shape sh). split; [done|].
      apply list_elem_of_fmap. by exists sh.
Qed.

End template.

(** X16.  Whenever the new presentation has a layout,
    [create_template_from_data] returns [True], whatever the generator held
    before and whatever [data] is: the generator then holds, with no
    template path, a presentation of two slides made from the first layout,
    the second one closed by the table of the template.  The storage is
    what [save_presentation] leaves of it, whose result is not read: when
    the save succeeds the output path holds that presentation; when it
    fails, as it does at a path that cannot be written, nothing but
    directories was added, and the answer is [True] all the same. *)
Theorem X16_create_template_from_data :
  ∀ next_shape_id l0 layouts data output_path fs self,
    let slide1 := title_slide_shape <$> layout_shapes l0 in
    let slide2 := ((content_slide_shape <$> layout_shapes l0) ++
                   [mkShape (next_shape_id (content_slide_shape <$> layout_shapes l0)) 19 None
                      (Some template_cells)])%list in
    let prs := mkPresentation [slide1; slide2] in
    ∃ fs' saved,
      create_template_from_data next_shape_id (l0 :: layouts) data output_path fs self =
        ((fs', mkGenerator (Some prs) None), Returns true) ∧
      save_presentation fs (mkGenerator (Some prs) None) output_path =
        ((fs', mkGenerator (Some prs) None), Returns saved) ∧
      (output_path ∈ read_only fs → saved = false) ∧
      (saved = true → files fs' !! output_path = Some (PptxFile prs)) ∧
      (saved = false → directories_made fs fs').
Proof.
  intros next_shape_id l0 layouts data output_path fs self slide1 slide2 prs.
  rewrite (create_template_from_data_ok next_shape_id l0 layouts data output_path fs self).
  fold slide1 slide2 prs.
  pose proof (save_presentation_read_only fs (mkGenerator (Some prs) None) output_path)
    as Hlocked.
  destruct (save_presentation_storage fs (mkGenerator (Some prs) None) output_path)
    as (fs' & saved & Hsave & _ & _ & _ & Hpath).
  rewrite Hsave in *. exists fs', saved. split; [done|]. split; [done|]. split; [|split].
  - intros Hro. specialize (Hlocked Hro). cbn in Hlocked. by injection Hlocked.
  - intros ->. destruct Hpath as (prs' & [= <-] & Hfile). done.
  - by intros ->.
Qed.

(** The hypotheses of X16 hold on a concrete input. *)
Lemma X16_witness :
  "locked.pptx" ∈ read_only storage ∧
  ∃ fs',
    create_template_from_data (λ shapes, S (length shapes))
        (mkLayout "Title Slide" [text_box "Click to add title"] :: []) ∅ "locked.pptx"
        storage (deck [text_box "{{x}}"]) =
      ((fs',
        mkGenerator
          (Some (mkPresentation
                   [title_slide_shape <$> [text_box "Click to add title"];
                    ((content_slide_shape <$> [text_box "Click to add title"]) ++
                     [mkShape 2 19 None (Some template_cells)])%list]))
          None), Returns true) ∧
    directories_made storage fs'.
Proof.
  assert ("locked.pptx" ∈ read_only storage) as Hro by (vm_compute; reflexivity).
  split; [exact Hro|].
  destruct (X16_create_template_from_data (λ shapes, S (length shapes))
              (mkLayout "Title Slide" [text_box "Click to add title"]) [] ∅ "locked.pptx"
              storage (deck [text_box "{{x}}"]))
    as (fs' & saved & Hrun & _ & Hlocked & _ & Hmade).
  exists fs'. split; [exact Hrun|]. exact (Hmade (Hlocked Hro)).
Defined.

(** X17.  When the texts of the first layout hold no placeholder, the
    presentation [create_template_from_data] leaves in the generator has
    the names [crescimento], [total_2024] and [total_2025] of its table,
    the name [titulo] exactly when a shape of the layout reads
    "Click to add title", and the name [subtitulo] exactly when one reads
    "Click to add subtitle"; [get_placeholders_list] reports no other
    name. *)
Theorem X17_names_of_the_created_template :
  ∀ next_shape_id l0 layouts data output_path fs self,
    (∀ sh t, sh ∈ layout_shapes l0 → t ∈ Spec.shape_texts sh → Re.findall t = []) →
    ∃ fs' self' names,
      create_template_from_data next_shape_id (l0 :: layouts) data output_path fs self =
        ((fs', self'), Returns true) ∧
      get_placeholders_list self' = (self', Returns names) ∧
      ∀ n, n ∈ names ↔
           n ∈ ["crescimento"; "total_2024"; "total_2025"] ∨
           (n = "titulo" ∧
            ∃ sh tf, sh ∈ layout_shapes l0 ∧ text_frame sh = Some tf ∧
                     text_frame_text tf = "Click to add title") ∨
           (n = "subtitulo" ∧
            ∃ sh tf, sh ∈ layout_shapes l0 ∧ text_frame sh = Some tf ∧
                     text_frame_text tf = "Click to add subtitle").
Proof.
  intros next_shape_id l0 layouts data output_path fs self Hclean.
  eexists _, _, _. split; [apply create_template_from_data_ok|].
  split; [by apply get_placeholders_list_loaded|].
  intros n. by apply template_names.
Qed.

(** The hypothesis of X17 holds on a concrete input. *)
Lemma X17_witness :
  (∀ sh t, sh ∈ layout_shapes (mkLayout "Title Slide" [text_box "Click to add title"]) →
           t ∈ Spec.shape_texts sh → Re.findall t = []) ∧
  ∃ fs' self' names,
    create_template_from_data (λ shapes, S (length shapes))
        (mkLayout "Title Slide" [text_box "Click to add title"] :: []) ∅ "t.pptx"
        (mkStorage ∅ ∅ "/app") init =
      ((fs', self'), Returns true) ∧
    get_placeholders_list self' = (self', Returns names) ∧
    ∀ n, n ∈ names ↔
         n ∈ ["crescimento"; "total_2024"; "total_2025"] ∨
         (n = "titulo" ∧
          ∃ sh tf, sh ∈ layout_shapes (mkLayout "Title Slide" [text_box "Click to add title"]) ∧
                   text_frame sh = Some tf ∧ text_frame_text tf = "Click to add title") ∨
         (n = "subtitulo" ∧
          ∃ sh tf, sh ∈ layout_shapes (mkLayout "Title Slide" [text_box "Click to add title"]) ∧
                   text_frame sh = Some tf ∧ text_frame_text tf = "Click to add subtitle").
Proof.
  assert (∀ sh t, sh ∈ layout_shapes (mkLayout "Title Slide" [text_box "Click to add title"]) →
                  t ∈ Spec.shape_texts sh → Re.findall t = []) as Hclean.
  { intros sh t Hsh Ht. cbn in Hsh. apply list_elem_of_singleton in Hsh as ->.
    change (Spec.shape_texts (text_box "Click to add title"))
      with ["Click to add title"] in Ht.
    apply list_elem_of_singleton in Ht as ->. vm_compute. reflexivity. }
  split; [exact Hclean|].
  exact (X17_names_of_the_created_template (λ shapes, S (length shapes))
           (mkLayout "Title Slide" [text_box "Click to add title"]) [] ∅ "t.pptx"
           (mkStorage ∅ ∅ "/app") init Hclean).
Defined.

(** ** The endpoints *)

Section endpoints.

Implicit Types (fs : Storage) (self : PPTXGenerator) (data : gmap string Py.PyValue).

Lemma replace_placeholders_loaded self prs data :
  presentation self = Some prs →
  ∃ prs' count, replace_placeholders self data =
                  (mkGenerator (Some prs') (template_path self), Returns count).
Proof.
  intros Hprs. unfold replace_placeholders, replace_placeholders_body. rewrite Hprs.
  destruct (for_each _ (slides prs) 0) as [slides' [count|e]]; by eexists _, _.
Qed.

(** The run of [generate_pptx] once the template is loaded. *)
Lemma generate_pptx_loaded template_path data output_filename fs self prs prs' count :
  files fs !! template_path = Some (PptxFile prs) →
  replace_placeholders (mkGenerator (Some prs) (Some template_path)) data =
    (mkGenerator (Some prs') (Some template_path), Returns count) →
  generate_pptx template_path (Some data) output_filename (fs, self) =
    (((save_presentation fs (mkGenerator (Some prs') (Some template_path))
         (path_join OUTPUT_DIR output_filename)).1.1,
      mkGenerator (Some prs') (Some template_path)),
     match (save_presentation fs (mkGenerator (Some prs') (Some template_path))
              (path_join OUTPUT_DIR output_filename)).2 with
     | Returns true =>
         Value (mkGenerateAnswer output_filename (path_join OUTPUT_DIR output_filename)
                  (Py.sorted (extract_from_presentation prs)) count
                  ("/download/" ++ output_filename))
     | _ => Raised (HTTPException 500)
     end).
Proof.
  intros Hfile Hreplace. unfold generate_pptx, http_handler. cbn [fst].
  rewrite decide_False by by rewrite Hfile.
  unfold bind, on_both, on_generator, raise, ret, lift.
  unfold load_template, load_template_body, except_Exception. cbn [fst snd].
  rewrite Hfile. cbn [negb fst snd]. unfold get_placeholders_list, get_placeholders_list_body.
  cbn [presentation except_Exception fst snd]. rewrite Hreplace. cbn [fst snd].
  destruct (save_presentation_storage fs (mkGenerator (Some prs') (Some template_path))
              (path_join OUTPUT_DIR output_filename)) as (fs' & saved & -> & _).
  by destruct saved.
Qed.

Lemma path_join_absolute a rest : path_join a (String "/" rest) = String "/" rest.
Proof. reflexivity. Qed.

End endpoints.

(** X18.  [get_template_placeholders] looks for the template under
    [templates]: it raises status 404 when there is nothing of that name,
    status 500 when what is there is no presentation, and otherwise answers
    with the sorted names of the template and their number. *)
Theorem X18_get_template_placeholders :
  ∀ fs template_name,
    match files fs !! path_join TEMPLATE_DIR template_name with
    | None => get_template_placeholders fs template_name = Raised (HTTPException 404)
    | Some OtherFile | Some Directory =>
        get_template_placeholders fs template_name = Raised (HTTPException 500)
    | Some (PptxFile prs) =>
        get_template_placeholders fs template_name =
          Value (mkPlaceholdersAnswer template_name
                   (Py.sorted (extract_from_presentation prs))
                   (Z.of_nat (size (extract_from_presentation prs))))
    end.
Proof.
  intros fs template_name. unfold get_template_placeholders, http_handler.
  destruct (files fs !! path_join TEMPLATE_DIR template_name) as [[prs| |]|] eqn:Hfile.
  - rewrite decide_False by done.
    unfold bind, call, raise, ret, lift, load_template, load_template_body, except_Exception.
    rewrite Hfile. cbn. do 3 f_equal.
    unfold Py.sorted. by rewrite merge_sort_Permutation.
  - rewrite decide_False by done.
    unfold bind, call, raise, ret, lift, load_template, load_template_body, except_Exception.
    by rewrite Hfile.
  - rewrite decide_False by done.
    unfold bind, call, raise, ret, lift, load_template, load_template_body, except_Exception.
    by rewrite Hfile.
  - by rewrite decide_True by done.
Qed.

(** X19.  The failures of [generate_pptx].  With nothing at the template
    path it raises status 404, with something there and data that are not
    JSON status 400, with a file that is no presentation, or a directory,
    status 500; in these cases the storage and the generator of the module
    are as before.  When the output path cannot be written it raises status
    500; the generator of the module then holds the template with the
    replacements made, and nothing but directories, those [os.makedirs]
    made before the save, was added to the storage. *)
Theorem X19_generate_pptx_failures :
  ∀ template_path output_filename fs self,
    (∀ data, files fs !! template_path = None →
       generate_pptx template_path data output_filename (fs, self) =
         ((fs, self), Raised (HTTPException 404))) ∧
    (∀ file, files fs !! template_path = Some file →
       generate_pptx template_path None output_filename (fs, self) =
         ((fs, self), Raised (HTTPException 400))) ∧
    (∀ data, files fs !! template_path = Some OtherFile ∨
             files fs !! template_path = Some Directory →
       generate_pptx template_path (Some data) output_filename (fs, self) =
         ((fs, self), Raised (HTTPException 500))) ∧
    (∀ data prs, files fs !! template_path = Some (PptxFile prs) →
       path_join OUTPUT_DIR output_filename ∈ read_only fs →
       ∃ fs', generate_pptx template_path (Some data) output_filename (fs, self) =
                ((fs', (replace_placeholders
                          (mkGenerator (Some prs) (Some template_path)) data).1),
                 Raised (HTTPException 500)) ∧
              directories_made fs fs').
Proof.
  intros template_path output_filename fs self. repeat split.
  - intros data Hfile. unfold generate_pptx, http_handler. cbn [fst].
    by rewrite decide_True by done.
  - intros file Hfile. unfold generate_pptx, http_handler. cbn [fst].
    by rewrite decide_False by by rewrite Hfile.
  - intros data Hfile. unfold generate_pptx, http_handler. cbn [fst].
    rewrite decide_False by by destruct Hfile as [-> | ->].
    unfold bind, on_both, raise, lift, load_template, load_template_body, except_Exception.
    cbn [fst snd]. by destruct Hfile as [-> | ->].
  - intros data prs Hfile Hro.
    destruct (replace_placeholders_loaded (mkGenerator (Some prs) (Some template_path)) prs data
                eq_refl) as (prs' & count & Hreplace).
    rewrite (generate_pptx_loaded _ _ _ _ _ _ _ _ Hfile Hreplace), Hreplace.
    pose proof (save_presentation_read_only fs (mkGenerator (Some prs') (Some template_path))
                  _ Hro) as Hlocked.
    destruct (save_presentation_storage fs (mkGenerator (Some prs') (Some template_path))
                (path_join OUTPUT_DIR output_filename))
      as (fs' & saved & Hsave & _ & _ & _ & Hmade).
    rewrite Hsave in *. cbn in Hlocked. injection Hlocked as ->.
    by exists fs'.
Qed.

(** The hypotheses of X19 hold on a concrete input. *)
Lemma X19_witness :
  files served !! "t.pptx" = Some (PptxFile (mkPresentation [[text_box "{{a}} and {{b}}"]])) ∧
  (path_join OUTPUT_DIR "locked.pptx" ∈ read_only served) ∧
  ∃ fs', generate_pptx "t.pptx" (Some {[ "a" := Py.PyStr "X" ]}) "locked.pptx"
           (served, init) =
           ((fs', (replace_placeholders
                     (mkGenerator (Some (mkPresentation [[text_box "{{a}} and {{b}}"]]))
                        (Some "t.pptx"))
                     {[ "a" := Py.PyStr "X" ]}).1),
            Raised (HTTPException 500)) ∧
         directories_made served fs'.
Proof.
  assert (path_join OUTPUT_DIR "locked.pptx" ∈ read_only served) as Hro
    by (vm_compute; reflexivity).
  split; [reflexivity|]. split; [exact Hro|].
  destruct (X19_generate_pptx_failures "t.pptx" "locked.pptx" served init)
    as (_ & _ & _ & Hsave).
  exact (Hsave {[ "a" := Py.PyStr "X" ]} (mkPresentation [[text_box "{{a}} and {{b}}"]])
           eq_refl Hro).
Defined.



(** X21.  What [generate_pptx] answers and what it leaves in the storage do
    not depend on what the generator of the module held from earlier
    requests; when the template is a presentation and the data are JSON, the
    generator it leaves does not depend on it either. *)
Theorem X21_generate_pptx_forgets_earlier_requests :
  ∀ template_path data output_filename fs self1 self2,
    (generate_pptx template_path data output_filename (fs, self1)).2 =
    (generate_pptx template_path data output_filename (fs, self2)).2 ∧
    (generate_pptx template_path data output_filename (fs, self1)).1.1 =
    (generate_pptx template_path data output_filename (fs, self2)).1.1 ∧
    (∀ prs d, files fs !! template_path = Some (PptxFile prs) → data = Some d →
       (generate_pptx template_path data output_filename (fs, self1)).1.2 =
       (generate_pptx template_path data output_filename (fs, self2)).1.2).
Proof.
  intros template_path data output_filename fs self1 self2.
  assert (∀ self, files fs !! template_path ≠ None →
            generate_pptx template_path None output_filename (fs, self) =
              ((fs, self), Raised (HTTPException 400))) as Hjson.
  { intros self Hfile. unfold generate_pptx, http_handler. cbn [fst].
    by rewrite decide_False by done. }
  assert (∀ self d, files fs !! template_path = Some OtherFile ∨
                    files fs !! template_path = Some Directory →
            generate_pptx template_path (Some d) output_filename (fs, self) =
              ((fs, self), Raised (HTTPException 500))) as Hload.
  { intros self d Hfile. unfold generate_pptx, http_handler. cbn [fst].
    rewrite decide_False by by destruct Hfile as [-> | ->].
    unfold bind, on_both, raise, lift, load_template, load_template_body, except_Exception.
    cbn [fst snd]. by destruct Hfile as [-> | ->]. }
  destruct (files fs !! template_path) as [[prs| |]|] eqn:Hfile.
  - destruct data as [d|].
    + destruct (replace_placeholders_loaded (mkGenerator (Some prs) (Some template_path)) prs d
                  eq_refl) as (prs' & count & Hreplace).
      by rewrite !(generate_pptx_loaded _ _ _ _ _ _ _ _ Hfile Hreplace).
    + rewrite !Hjson by done. repeat split. by intros ? ? _ [=].
  - destruct data as [d|].
    + rewrite !Hload by by left. repeat split. by intros ? ? [=].
    + rewrite !Hjson by done. repeat split. by intros ? ? [=].
  - destruct data as [d|].
    + rewrite !Hload by by right. repeat split. by intros ? ? [=].
    + rewrite !Hjson by done. repeat split. by intros ? ? [=].
  - assert (∀ self, generate_pptx template_path data output_filename (fs, self) =
                      ((fs, self), Raised (HTTPException 404))) as Hrun.
    { intros self. unfold generate_pptx, http_handler. cbn [fst].
      by rewrite decide_True by done. }
    rewrite !Hrun. repeat split. by intros ? ? [=].
Qed.

(** The hypotheses of X21 hold on a concrete input. *)
Lemma X21_witness :
  files served !! "t.pptx" = Some (PptxFile (mkPresentation [[text_box "{{a}} and {{b}}"]])) ∧
  (generate_pptx "t.pptx" (Some {[ "a" := Py.PyStr "X" ]}) "o.pptx" (served, init)).1.2 =
  (generate_pptx "t.pptx" (Some {[ "a" := Py.PyStr "X" ]}) "o.pptx"
     (served, deck [text_box "old"])).1.2.
Proof.
  split; [reflexivity|].
  destruct (X21_generate_pptx_forgets_earlier_requests "t.pptx"
              (Some {[ "a" := Py.PyStr "X" ]}) "o.pptx" served
              init (deck [text_box "old"])) as (_ & _ & Hgen).
  exact (Hgen (mkPresentation [[text_box "{{a}} and {{b}}"]]) {[ "a" := Py.PyStr "X" ]}
           eq_refl eq_refl).
Defined.



(** X23.  [get_available_layouts] reports nothing when no presentation is
    loaded.  On a loaded presentation every name it reports is accepted by
    [add_slide]: the slide appended is made from a layout of that name and
    not from the first layout of all. *)
Theorem X23_listed_layouts_are_found :
  ∀ slide_layouts self,
    (presentation self = None →
       get_available_layouts slide_layouts self = (self, Returns [])) ∧
    (∀ prs, presentation self = Some prs →
       ∃ names,
         get_available_layouts slide_layouts self = (self, Returns names) ∧
         length names = length slide_layouts ∧
         ∀ n, n ∈ names →
           ∃ layout,
             layout ∈ slide_layouts ∧ layout_name layout = n ∧
             add_slide slide_layouts (Some n) self =
               (mkGenerator
                  (Some (mkPresentation (slides prs ++ [layout_shapes layout])%list))
                  (template_path self),
                Returns (Z.of_nat (length (slides prs))))).
Proof.
  intros slide_layouts self. unfold get_available_layouts, except_sentinel. split.
  - by intros ->.
  - intros prs Hprs. rewrite Hprs. eexists. split; [done|].
    split; [by rewrite length_fmap|].
    intros n (l & -> & Hl)%list_elem_of_fmap.
    unfold add_slide, except_sentinel, add_slide_body. rewrite Hprs.
    destruct (find _ slide_layouts) as [layout|] eqn:Hfind.
    + apply find_some in Hfind as [Hin Heq]. apply String.eqb_eq in Heq.
      exists layout. split; [by apply list_elem_of_In|]. split; [done|].
      do 2 f_equal. rewrite length_app. cbn. lia.
    + apply list_elem_of_In in Hl. apply (find_none _ _ Hfind) in Hl.
      by apply String.eqb_neq in Hl.
Qed.

(** The hypotheses of X23 hold on a concrete input. *)
Lemma X23_witness :
  presentation (deck [text_box "t"]) = Some (mkPresentation [[text_box "t"]]) ∧
  ∃ names,
    get_available_layouts [mkLayout "Title Slide" []; mkLayout "Blank" []]
        (deck [text_box "t"]) =
      (deck [text_box "t"], Returns names) ∧
    length names = length [mkLayout "Title Slide" []; mkLayout "Blank" []] ∧
    ∀ n, n ∈ names →
      ∃ layout,
        layout ∈ [mkLayout "Title Slide" []; mkLayout "Blank" []] ∧ layout_name layout = n ∧
        add_slide [mkLayout "Title Slide" []; mkLayout "Blank" []] (Some n)
            (deck [text_box "t"]) =
          (mkGenerator
             (Some (mkPresentation
                      (slides (mkPresentation [[text_box "t"]]) ++ [layout_shapes layout])%list))
             (template_path (deck [text_box "t"])),
           Returns (Z.of_nat (length (slides (mkPresentation [[text_box "t"]]))))).
Proof.
  split; [reflexivity|].
  exact (proj2 (X23_listed_layouts_are_found [mkLayout "Title Slide" []; mkLayout "Blank" []]
                  (deck [text_box "t"]))
           (mkPresentation [[text_box "t"]]) eq_refl).
Defined.

Section failed_fill.

Local Open Scope nat_scope.

Lemma fill_row_raises cols j (row_data : list Py.PyValue) (cells : Row) k v e :
  row_data !! k = Some v → j + k < cols → Py.str v = inl e →
  ∃ cells' e', fill_row cols j row_data cells = (cells', Raised e').
Proof.
  revert j k cells.
  induction row_data as [|v0 row_data IH]; intros j k cells Hk Hcol Hv; [done|].
  cbn [fill_row]. rewrite decide_True by lia.
  destruct (Py.str v0) as [e0|t] eqn:Hv0; [by eexists _, _|].
  destruct k as [|k]; cbn in Hk.
  - injection Hk as ->. rewrite Hv in Hv0. discriminate Hv0.
  - apply (IH (S j) k); [done|lia|done].
Qed.

Lemma fill_table_raises cols i (table_data : list (list Py.PyValue)) (tbl : Table)
    r row_data k v e :
  i + length table_data ≤ length tbl →
  table_data !! r = Some row_data → row_data !! k = Some v → k < cols → Py.str v = inl e →
  ∃ tbl' e', fill_table cols i table_data tbl = (tbl', Raised e') ∧
             length tbl' = length tbl.
Proof.
  revert i r tbl.
  induction table_data as [|row table_data IH]; intros i r tbl Hlen Hr Hk Hcol Hv; [done|].
  cbn [fill_table]. cbn [length] in Hlen.
  destruct (lookup_lt_is_Some_2 tbl i ltac:(lia)) as [cells Hcells]. rewrite Hcells.
  destruct (fill_row cols 0 row cells) as [cells' [[]|e']] eqn:Hfill.
  - destruct r as [|r]; cbn in Hr.
    + injection Hr as ->.
      destruct (fill_row_raises cols 0 row_data cells k v e Hk Hcol Hv) as (? & ? & Hraise).
      rewrite Hraise in Hfill. discriminate Hfill.
    + destruct (IH (S i) r (<[i := cells']> tbl)) as (tbl' & e' & -> & Hlen'); try done.
      { rewrite length_insert. lia. }
      exists tbl', e'. split; [done|]. by rewrite Hlen', length_insert.
  - eexists _, _. split; [done|]. by rewrite length_insert.
Qed.

End failed_fill.

(** X24.  [add_table] is not undone when it fails while filling the cells:
    on a loaded presentation, a slide index in range and a first row that is
    not empty, a value within the columns whose conversion to text raises
    makes [add_table] return [False], and the slide has gained a table of as
    many rows as the data all the same. *)
Theorem X24_failed_add_table_leaves_a_table :
  ∀ next_shape_id self prs (idx : nat) slide first rest (r k : nat) row_data v e,
    presentation self = Some prs → slides prs !! idx = Some slide → first ≠ [] →
    (first :: rest) !! r = Some row_data → row_data !! k = Some v →
    (k < length first)%nat → Py.str v = inl e →
    ∃ tbl,
      add_table next_shape_id (Z.of_nat idx) (first :: rest) self =
        (mkGenerator
           (Some (mkPresentation
                    (<[idx := (slide ++ [mkShape (next_shape_id slide) 19 None (Some tbl)])%list]>
                       (slides prs))))
           (template_path self), Returns false) ∧
      length tbl = S (length rest).
Proof.
  intros next_shape_id self prs idx slide first rest r k row_data v e
    Hprs Hslide Hfirst Hr Hk Hcol Hv.
  unfold add_table, except_sentinel, add_table_body. rewrite Hprs.
  pose proof (lookup_lt_Some _ _ _ Hslide) as Hidx.
  rewrite decide_False by lia.
  destruct first as [|v0 first']; [done|]. rewrite Nat2Z.id, Hslide.
  destruct (fill_table_raises (length (v0 :: first')) 0 ((v0 :: first') :: rest)
              (new_table (length ((v0 :: first') :: rest)) (length (v0 :: first')))
              r row_data k v e) as (tbl & e' & Hfill & Hlen); try done.
  { unfold new_table. rewrite length_replicate. cbn. lia. }
  rewrite Hfill. exists tbl. split; [done|].
  unfold new_table in Hlen. by rewrite length_replicate in Hlen.
Qed.

(** The hypotheses of X24 hold on a concrete input. *)
Lemma X24_witness :
  presentation (deck [text_box "t"]) = Some (mkPresentation [[text_box "t"]]) ∧
  slides (mkPresentation [[text_box "t"]]) !! 0%nat = Some [text_box "t"] ∧
  [Py.PyStr "a"; Py.PyStr "b"] ≠ [] ∧
  ([Py.PyStr "a"; Py.PyStr "b"] :: [[Py.PyStr "c"; Py.PyObj None]]) !! 1%nat =
    Some [Py.PyStr "c"; Py.PyObj None] ∧
  [Py.PyStr "c"; Py.PyObj None] !! 1%nat = Some (Py.PyObj None) ∧
  (1 < length [Py.PyStr "a"; Py.PyStr "b"])%nat ∧
  Py.str (Py.PyObj None) = inl Py.StrError ∧
  ∃ tbl,
    add_table (λ shapes, S (length shapes)) (Z.of_nat 0)
        ([Py.PyStr "a"; Py.PyStr "b"] :: [[Py.PyStr "c"; Py.PyObj None]])
        (deck [text_box "t"]) =
      (mkGenerator
         (Some (mkPresentation
                  (<[0%nat := ([text_box "t"] ++
                      [mkShape ((λ shapes, S (length shapes)) [text_box "t"]) 19 None
                         (Some tbl)])%list]>
                     (slides (mkPresentation [[text_box "t"]])))))
         (template_path (deck [text_box "t"])), Returns false) ∧
    length tbl = S (length [[Py.PyStr "c"; Py.PyObj None]]).
Proof.
  split; [reflexivity|]. split; [reflexivity|]. split; [done|]. split; [reflexivity|].
  split; [reflexivity|]. split; [cbn; lia|]. split; [reflexivity|].
  apply (X24_failed_add_table_leaves_a_table (λ shapes, S (length shapes))
           (deck [text_box "t"]) (mkPresentation [[text_box "t"]]) 0 [text_box "t"]
           [Py.PyStr "a"; Py.PyStr "b"] [[Py.PyStr "c"; Py.PyObj None]] 1 1
           [Py.PyStr "c"; Py.PyObj None] (Py.PyObj None) Py.StrError);
    [reflexivity|reflexivity|done|reflexivity|reflexivity|cbn; lia|reflexivity].
Defined.

(** ** Two passes *)

Section two_passes.

Implicit Types (s t n : string) (c : ascii) (segs : list Spec.seg).
Implicit Types (d : gmap string Py.PyValue) (prs : Presentation) (sh : Shape).

Lemma simple_from_plain_app t s :
  Spec.plain_text t = true →
  Spec.simple_from Spec.Outside (t ++ s) = Spec.simple_from Spec.Outside s.
Proof.
  induction t as [|c t IH]; [by rewrite append_empty_l|].
  rewrite plain_text_cons, andb_true_iff. intros [Hc Ht]. apply not_brace in Hc as [Ho Hcl].
  rewrite append_cons. cbn [Spec.simple_from].
  apply Ascii.eqb_neq in Ho, Hcl. rewrite Ho, Hcl. by apply IH.
Qed.

Lemma simple_from_inside n s :
  Spec.plain_text n = true → Spec.single_line n = true →
  Spec.simple_from Spec.Inside (n ++ "}}" ++ s) = Spec.simple_from Spec.Outside s.
Proof.
  induction n as [|c n IH].
  { intros _ _. by rewrite append_empty_l, close_cons. }
  rewrite plain_text_cons, single_line_cons, !andb_true_iff.
  intros [Hc Hn] [Hl Hnl]. apply not_brace in Hc as [Ho Hcl].
  rewrite append_cons. cbn [Spec.simple_from].
  apply Ascii.eqb_neq in Ho, Hcl. apply negb_true_iff in Hl. rewrite Ho, Hcl, Hl.
  by apply IH.
Qed.

(** The rendering of well-formed segments is a simple text. *)
Lemma render_simple segs :
  forallb Spec.wf_seg segs = true → Spec.simple_text (Spec.render segs) = true.
Proof.
  unfold Spec.simple_text.
  induction segs as [|[t|n] segs IH]; cbn [forallb Spec.render Spec.render_seg Spec.wf_seg];
    [done|..]; rewrite !andb_true_iff.
  - intros [Ht Hsegs]. rewrite simple_from_plain_app by done. by apply IH.
  - intros [[Hn Hl] Hsegs]. rewrite placeholder_cons. cbn [Spec.simple_from].
    rewrite simple_from_inside by done. by apply IH.
Qed.

Lemma expand_value_text_wf d segs :
  Spec.plain_data d → forallb Spec.wf_seg segs = true →
  forallb Spec.wf_seg (Spec.expand (Spec.value_text d) <$> segs) = true.
Proof.
  intros Hd. apply expand_wf. intros n v Hv. by apply (value_text_plain d n).
Qed.

Lemma substitute_simple d s :
  Spec.plain_data d → Spec.simple_text s = true →
  Spec.simple_text (Spec.substitute d s) = true.
Proof.
  intros Hd (segs & Hsegs & ->)%simple_text_segs. rewrite substitute_render by done.
  by apply render_simple, expand_value_text_wf.
Qed.

Lemma value_text_union d1 d2 n :
  Spec.plain_data d1 →
  Spec.value_text (d1 ∪ d2) n =
  match Spec.value_text d1 n with Some v => Some v | None => Spec.value_text d2 n end.
Proof.
  intros Hd. unfold Spec.value_text at 1 2. rewrite lookup_union.
  destruct (d1 !! n) as [v|] eqn:E.
  - destruct (plain_data_lookup _ _ _ Hd E) as (t & Ht & _).
    destruct (d2 !! n); cbn; by rewrite Ht.
  - unfold Spec.value_text. by destruct (d2 !! n).
Qed.

(** Substituting by one map and then by another is substituting by their
    union, in which the first map goes first. *)
Lemma substitute_substitute d1 d2 s :
  Spec.plain_data d1 → Spec.simple_text s = true →
  Spec.substitute d2 (Spec.substitute d1 s) = Spec.substitute (d1 ∪ d2) s.
Proof.
  intros Hd (segs & Hsegs & ->)%simple_text_segs.
  rewrite (substitute_render d1), (substitute_render (d1 ∪ d2)) by done.
  rewrite substitute_render by by apply expand_value_text_wf.
  rewrite expand_expand. f_equal. apply expand_ext. intros n _.
  by rewrite value_text_union.
Qed.

Lemma occurrences_substitute d1 d2 s :
  Spec.plain_data d1 → Spec.simple_text s = true →
  (Spec.occurrences d1 s + Spec.occurrences d2 (Spec.substitute d1 s))%Z =
  Spec.occurrences (d1 ∪ d2) s.
Proof.
  intros Hd Hs. unfold Spec.occurrences. rewrite findall_substitute by done.
  generalize (Re.findall s). intros ns. rewrite <- Nat2Z.inj_add. f_equal.
  induction ns as [|n ns IH]; [done|].
  rewrite !filter_cons. rewrite lookup_union.
  destruct (d1 !! n) as [v|] eqn:E.
  - rewrite decide_True by done. rewrite decide_False by done.
    rewrite decide_True by (destruct (d2 !! n); by eexists). cbn [length].
    by rewrite <- IH.
  - rewrite decide_False by by intros [? ?]. rewrite decide_True by done.
    rewrite filter_cons. destruct (d2 !! n) as [v|] eqn:E2.
    + rewrite !decide_True by done. cbn [length]. rewrite <- IH. lia.
    + rewrite !decide_False by by intros [? ?]. done.
Qed.

Lemma Forall2_forallb {X} (R : X → X → Prop) (P : X → bool) (xs ys : list X) :
  (∀ x y, R x y → P x = true → P y = true) →
  Forall2 R xs ys → forallb P xs = true → forallb P ys = true.
Proof.
  intros HP. induction 1 as [|x y xs ys HR _ IH]; [done|]. cbn [forallb].
  rewrite !andb_true_iff. intros [Hx Hxs]. split; [by eapply HP|by apply IH].
Qed.

Lemma Forall2_compose {X} (R1 R2 R3 : X → X → Prop) (P : X → bool) (xs ys zs : list X) :
  (∀ x y z, R1 x y → R2 y z → P x = true → R3 x z) →
  Forall2 R1 xs ys → Forall2 R2 ys zs → forallb P xs = true → Forall2 R3 xs zs.
Proof.
  intros HR H1. revert zs. induction H1 as [|x y xs ys Hxy _ IH]; intros zs H2.
  - by inversion H2.
  - inversion H2 as [|? z ? zs' Hyz Hrest]; subst. cbn [forallb]. rewrite andb_true_iff.
    intros [Hx Hxs]. constructor; [by eapply HR|by apply IH].
Qed.

Lemma Forall2_sum {X} (R : X → X → Prop) (P : X → bool) (f1 f2 f3 : X → Z)
    (xs ys : list X) :
  (∀ x y, R x y → P x = true → (f1 x + f2 y)%Z = f3 x) →
  Forall2 R xs ys → forallb P xs = true →
  (Spec.sumZ (f1 <$> xs) + Spec.sumZ (f2 <$> ys))%Z = Spec.sumZ (f3 <$> xs).
Proof.
  intros Hf. induction 1 as [|x y xs ys HR _ IH]; [done|]. cbn [forallb].
  rewrite andb_true_iff. intros [Hx Hxs]. specialize (IH Hxs). specialize (Hf x y HR Hx).
  change (Spec.sumZ (f1 <$> x :: xs)) with (f1 x + Spec.sumZ (f1 <$> xs))%Z.
  change (Spec.sumZ (f2 <$> y :: ys)) with (f2 y + Spec.sumZ (f2 <$> ys))%Z.
  change (Spec.sumZ (f3 <$> x :: xs)) with (f3 x + Spec.sumZ (f3 <$> xs))%Z.
  lia.
Qed.

Lemma paragraph_simple_kept d (p p' : Paragraph) :
  Spec.plain_data d → Spec.paragraph_substituted d p p' →
  Spec.simple_paragraph p = true → Spec.simple_paragraph p' = true.
Proof.
  intros Hd Hp. unfold Spec.simple_paragraph. rewrite Hp, !andb_true_iff.
  intros [[Hs Hl] Hpr].
  split; [split|]; [by apply substitute_simple|by apply substitute_single_line|].
  by apply substitute_printable.
Qed.

Lemma shape_simple_kept d sh sh' :
  Spec.plain_data d → Spec.shape_substituted d sh sh' →
  Spec.simple_shape sh = true → Spec.simple_shape sh' = true.
Proof.
  intros Hd (_ & _ & Hf & Ht). unfold Spec.simple_shape. rewrite !andb_true_iff.
  intros [Hsf Hst]. split.
  - destruct Hf as [tf tf' Hf|]; [|done]. rewrite Hf.
    apply andb_true_iff in Hsf as [Hsf Hpr]. apply andb_true_iff.
    split; [by apply substitute_simple|by apply substitute_printable].
  - destruct Ht as [tbl tbl' Ht|]; [|done].
    revert Ht Hst. apply Forall2_forallb. intros row row'.
    apply Forall2_forallb. intros cell cell'.
    apply Forall2_forallb. intros p p'. by apply paragraph_simple_kept.
Qed.

Lemma presentation_simple_kept d prs prs' :
  Spec.plain_data d → Spec.presentation_substituted d prs prs' →
  Spec.simple_presentation prs = true → Spec.simple_presentation prs' = true.
Proof.
  intros Hd. unfold Spec.presentation_substituted, Spec.simple_presentation.
  apply Forall2_forallb. intros slide slide'.
  apply Forall2_forallb. intros sh sh'. by apply shape_simple_kept.
Qed.

Lemma shape_substituted_compose d1 d2 sh sh1 sh2 :
  Spec.plain_data d1 → Spec.shape_substituted d1 sh sh1 → Spec.shape_substituted d2 sh1 sh2 →
  Spec.simple_shape sh = true → Spec.shape_substituted (d1 ∪ d2) sh sh2.
Proof.
  intros Hd (Hid & Hty & Hf & Ht) (Hid' & Hty' & Hf' & Ht').
  unfold Spec.simple_shape. rewrite andb_true_iff. intros [Hsf Hst].
  split; [congruence|]. split; [congruence|]. split.
  - destruct Hf as [tf tf1 Hf|]; inversion Hf' as [? tf2 Hf2|]; subst; constructor.
    apply andb_true_iff in Hsf as [Hsf _].
    unfold Spec.frame_substituted in *. rewrite Hf2, Hf. by apply substitute_substitute.
  - destruct Ht as [tbl tbl1 Ht|]; inversion Ht' as [? tbl2 Ht2|]; subst; constructor.
    revert Ht Ht2 Hst. apply Forall2_compose. intros row row1 row2.
    apply Forall2_compose. intros cell cell1 cell2.
    apply Forall2_compose. intros p p1 p2 Hp Hp2. unfold Spec.simple_paragraph.
    rewrite !andb_true_iff. intros [[Hs _] _].
    unfold Spec.paragraph_substituted in *. rewrite Hp2, Hp. by apply substitute_substitute.
Qed.

Lemma presentation_substituted_compose d1 d2 prs prs1 prs2 :
  Spec.plain_data d1 →
  Spec.presentation_substituted d1 prs prs1 → Spec.presentation_substituted d2 prs1 prs2 →
  Spec.simple_presentation prs = true → Spec.presentation_substituted (d1 ∪ d2) prs prs2.
Proof.
  intros Hd. unfold Spec.presentation_substituted, Spec.simple_presentation.
  apply Forall2_compose. intros slide slide1 slide2.
  apply Forall2_compose. intros sh sh1 sh2. by apply shape_substituted_compose.
Qed.

Lemma shape_occurrences_compose d1 d2 sh sh1 :
  Spec.plain_data d1 → Spec.shape_substituted d1 sh sh1 → Spec.simple_shape sh = true →
  (Spec.shape_occurrences d1 sh + Spec.shape_occurrences d2 sh1)%Z =
  Spec.shape_occurrences (d1 ∪ d2) sh.
Proof.
  intros Hd (_ & _ & Hf & Ht). unfold Spec.simple_shape. rewrite andb_true_iff.
  intros [Hsf Hst]. unfold Spec.shape_occurrences.
  assert (match text_frame sh with
          | Some tf => Spec.occurrences d1 (text_frame_text tf) | None => 0 end +
          match text_frame sh1 with
          | Some tf => Spec.occurrences d2 (text_frame_text tf) | None => 0 end =
          match text_frame sh with
          | Some tf => Spec.occurrences (d1 ∪ d2) (text_frame_text tf) | None => 0 end)%Z
    as Hframe.
  { destruct Hf as [tf tf1 Hf|]; [|done]. apply andb_true_iff in Hsf as [Hsf _].
    rewrite Hf. by apply occurrences_substitute. }
  assert (match table sh with Some tbl => Spec.table_occurrences d1 tbl | None => 0 end +
          match table sh1 with Some tbl => Spec.table_occurrences d2 tbl | None => 0 end =
          match table sh with
          | Some tbl => Spec.table_occurrences (d1 ∪ d2) tbl | None => 0 end)%Z
    as Htable.
  { destruct Ht as [tbl tbl1 Ht|]; [|done]. unfold Spec.table_occurrences.
    revert Ht Hst. apply Forall2_sum. intros row row1.
    apply Forall2_sum. intros cell cell1.
    apply Forall2_sum. intros p p1 Hp. unfold Spec.simple_paragraph.
    rewrite !andb_true_iff. intros [[Hs _] _].
    rewrite Hp. by apply occurrences_substitute. }
  lia.
Qed.

Lemma presentation_occurrences_compose d1 d2 prs prs1 :
  Spec.plain_data d1 → Spec.presentation_substituted d1 prs prs1 →
  Spec.simple_presentation prs = true →
  (Spec.presentation_occurrences d1 prs + Spec.presentation_occurrences d2 prs1)%Z =
  Spec.presentation_occurrences (d1 ∪ d2) prs.
Proof.
  intros Hd. unfold Spec.presentation_substituted, Spec.simple_presentation,
    Spec.presentation_occurrences.
  apply Forall2_sum. intros slide slide1.
  apply Forall2_sum. intros sh sh1. by apply shape_occurrences_compose.
Qed.

End two_passes.


